(** * Scatter execution core of the gateway (package vtgate, scatter_conn.go)

    A shallow embedding of the scatter connection: per-shard action
    selection, the shard closures of [ExecuteMultiShard] and
    [StreamExecuteMulti], the fan-out of [multiGoTransaction], the
    streaming funnel [processOneStreamingResult] and the retry loop of
    [MessageStream].

    Integers of the source ([int64] identifiers, [time.Duration]) are [Z];
    only equality, order and one division are used on them.  Pointers that
    may be nil are [option].  Tablets, the gateway and the transaction
    connection are external: they are the fields of [Environment].  The
    goroutines of a call run one after the other, in index order.  The
    lock executor ([ExecuteLock], [runLockQuery]) is embedded apart, after
    the scatter executor; what it calls besides the tablets are the fields
    of [LockEnvironment]. *)

From Stdlib Require Import ZArith String Ascii List Bool Lia.
From stdpp Require Import base option list gmap strings pretty.

Local Open Scope string_scope.
Local Open Scope Z_scope.

(** ** Protocol data *)

(** topodatapb.TabletType, restricted to the kinds the core distinguishes. *)
Inductive TabletType := TabletType_PRIMARY | TabletType_REPLICA | TabletType_RDONLY.

(** vtrpcpb.Code: the codes the core produces or tests. *)
Inductive Code :=
| Code_OK | Code_CANCELED | Code_UNKNOWN | Code_INVALID_ARGUMENT
| Code_DEADLINE_EXCEEDED | Code_NOT_FOUND | Code_ALREADY_EXISTS
| Code_RESOURCE_EXHAUSTED | Code_FAILED_PRECONDITION | Code_ABORTED
| Code_INTERNAL | Code_UNAVAILABLE | Code_CLUSTER_EVENT.

#[global] Instance TabletType_eq_dec : EqDecision TabletType.
Proof. solve_decision. Defined.
#[global] Instance Code_eq_dec : EqDecision Code.
Proof. solve_decision. Defined.

(** querypb.Target *)
Record Target := {
  Keyspace : string;
  Shard : string;
  TabletType_ : TabletType }.

(** topodatapb.TabletAlias *)
Record TabletAlias := {
  Cell : string;
  Uid : Z }.

#[global] Instance Target_eq_dec : EqDecision Target.
Proof. solve_decision. Defined.
#[global] Instance TabletAlias_eq_dec : EqDecision TabletAlias.
Proof. solve_decision. Defined.

(** An [error] value: the sentinel [io.EOF], or an error carrying a
    vtrpc code and a message, as built by vterrors.New / Errorf. *)
Inductive error :=
| io_EOF
| VtError (code : Code) (msg : string).

#[global] Instance error_eq_dec : EqDecision error.
Proof. solve_decision. Defined.

(** vterrors.Code: the code of an error; an error that carries none is
    UNKNOWN. *)
Definition vterrors_Code (err : error) : Code :=
  match err with
  | io_EOF => Code_UNKNOWN
  | VtError c _ => c
  end.

(** err.Error() *)
Definition error_Error (err : error) : string :=
  match err with
  | io_EOF => "EOF"
  | VtError _ m => m
  end.

(** sqltypes.Result, with the parts the core looks at. *)
Record Result := {
  Fields : list string;
  Rows : list (list string);
  RowsAffected : Z;
  InsertID : Z }.

#[global] Instance Result_eq_dec : EqDecision Result.
Proof. solve_decision. Defined.

(** new(sqltypes.Result) *)
Definition new_Result : Result :=
  {| Fields := []; Rows := []; RowsAffected := 0; InsertID := 0 |}.

(** Modelled from the spec: Result.AppendResult (package sqltypes is not
    among the sources) appends the rows of a per-shard result to the
    accumulated result; the schema of the first appended result is kept. *)
Definition AppendResult (result src : Result) : Result :=
  {| Fields := match Fields result with [] => Fields src | _ => Fields result end;
     Rows := Rows result ++ Rows src;
     RowsAffected := RowsAffected result + RowsAffected src;
     InsertID := if InsertID src =? 0 then InsertID result else InsertID src |}.

(** querypb.BoundQuery *)
Record BoundQuery := {
  Sql : string;
  BindVariables : list (string * string) }.

(** ** The connection-closed pattern

    [txClosed] is the regular expression
    [transaction ([a-z0-9:]+) (?:ended|not found)]; MatchString searches
    for it anywhere in the message. *)
Module txClosed.

(** the class [a-z0-9:] *)
Definition idChar (c : ascii) : bool :=
  let n := nat_of_ascii c in
  ((97 <=? n)%nat && (n <=? 122)%nat)
  || ((48 <=? n)%nat && (n <=? 57)%nat)
  || (n =? 58)%nat.

(** [stripPrefix p s] is what follows [p] in [s], when [s] starts
    with [p]. *)
Fixpoint stripPrefix (p s : string) : option string :=
  match p, s with
  | EmptyString, _ => Some s
  | String a p', String b s' =>
      if Ascii.eqb a b then stripPrefix p' s' else None
  | String _ _, EmptyString => None
  end.

(** skips the longest run of [idChar]s; the count of skipped characters
    comes with the rest.  The character after the group is a space,
    which is outside the class, so the group is always the longest
    run. *)
Fixpoint skipId (s : string) : nat * string :=
  match s with
  | String c s' =>
      if idChar c then let '(n, r) := skipId s' in (S n, r) else (O, s)
  | EmptyString => (O, s)
  end.

(** the pattern matches at the start of [s] *)
Definition matchHere (s : string) : bool :=
  match stripPrefix "transaction " s with
  | None => false
  | Some rest =>
      let '(n, rest') := skipId rest in
      negb (Nat.eqb n 0)
      && (bool_decide (is_Some (stripPrefix " ended" rest'))
          || bool_decide (is_Some (stripPrefix " not found" rest')))
  end.

Fixpoint MatchString (s : string) : bool :=
  matchHere s
  || match s with
     | EmptyString => false
     | String _ s' => MatchString s'
     end.

End txClosed.

(** ** Session data *)

(** vtgatepb.Session_ShardSession *)
Record ShardSession := {
  ss_Target : Target;
  ss_TransactionId : Z;
  ss_ReservedId : Z;
  ss_TabletAlias : option TabletAlias }.

#[global] Instance ShardSession_eq_dec : EqDecision ShardSession.
Proof. solve_decision. Defined.

(** transaction mode of the transaction connection (single or multi
    shard allowed) *)
Inductive TransactionMode := TransactionMode_SINGLE | TransactionMode_MULTI.

(** Modelled from the spec: SafeSession (safe_session.go is not among the
    sources).  Per-shard records, the rollback flag, the optional lock
    session, and the statements to replay; the two booleans are what
    InTransaction() and InReservedConn() report. *)
Record SafeSession := {
  inTransaction : bool;
  inReservedConn : bool;
  ShardSessions : list ShardSession;
  mustRollback : bool;
  LockSession : option ShardSession;
  preQueries : list string;
  savePoints : list string }.

Module Session.

Definition InTransaction (s : SafeSession) : bool := inTransaction s.
Definition InReservedConn (s : SafeSession) : bool := inReservedConn s.
Definition InLockSession (s : SafeSession) : bool :=
  bool_decide (is_Some (LockSession s)).
Definition MustRollback (s : SafeSession) : bool := mustRollback s.
Definition SavePoints (s : SafeSession) : list string := savePoints s.
Definition SetPreQueries (s : SafeSession) : list string := preQueries s.

Definition withShardSessions (s : SafeSession) (l : list ShardSession) : SafeSession :=
  {| inTransaction := inTransaction s;
     inReservedConn := inReservedConn s;
     ShardSessions := l;
     mustRollback := mustRollback s;
     LockSession := LockSession s;
     preQueries := preQueries s;
     savePoints := savePoints s |}.

(** SetRollback(): the flag is raised and stays raised. *)
Definition SetRollback (s : SafeSession) : SafeSession :=
  {| inTransaction := inTransaction s;
     inReservedConn := inReservedConn s;
     ShardSessions := ShardSessions s;
     mustRollback := true;
     LockSession := LockSession s;
     preQueries := preQueries s;
     savePoints := savePoints s |}.

Definition sameTarget (keyspace shard : string) (tabletType : TabletType)
    (ss : ShardSession) : bool :=
  bool_decide (keyspace = Keyspace (ss_Target ss))
  && bool_decide (tabletType = TabletType_ (ss_Target ss))
  && bool_decide (shard = Shard (ss_Target ss)).

(** Find(keyspace, shard, tabletType): pure lookup of the record of a
    target; zero identifiers and no alias when there is none. *)
Fixpoint findIn (keyspace shard : string) (tabletType : TabletType)
    (l : list ShardSession) : Z * Z * option TabletAlias :=
  match l with
  | [] => (0, 0, None)
  | ss :: l' =>
      if sameTarget keyspace shard tabletType ss
      then (ss_TransactionId ss, ss_ReservedId ss, ss_TabletAlias ss)
      else findIn keyspace shard tabletType l'
  end.

Definition Find (s : SafeSession) (keyspace shard : string)
    (tabletType : TabletType) : Z * Z * option TabletAlias :=
  findIn keyspace shard tabletType (ShardSessions s).

(** ResetShard(alias): drops the record matching that alias. *)
Definition ResetShard (alias : option TabletAlias) (s : SafeSession) : SafeSession :=
  withShardSessions s
    (filter (fun ss => ss_TabletAlias ss ≠ alias) (ShardSessions s)).

Fixpoint upsert (ss : ShardSession) (l : list ShardSession) : option (list ShardSession) :=
  match l with
  | [] => None
  | x :: l' =>
      if bool_decide (ss_Target x = ss_Target ss) then Some (ss :: l')
      else (fun r => x :: r) <$> upsert ss l'
  end.

(** the error of a second shard in single-shard mode; the spec does not
    name its code. *)
Definition errMultiShard : error :=
  VtError Code_ABORTED "multi-db transaction attempted".

(** AppendOrUpdate(shardSession, mode): upsert by target; fails when the
    mode allows a single shard only and a second, distinct shard is
    being added. *)
Definition AppendOrUpdate (ss : ShardSession) (mode : TransactionMode)
    (s : SafeSession) : SafeSession * option error :=
  match upsert ss (ShardSessions s) with
  | Some l => (withShardSessions s l, None)
  | None =>
      match mode, ShardSessions s with
      | TransactionMode_SINGLE, _ :: _ => (s, Some errMultiShard)
      | _, _ => (withShardSessions s (ShardSessions s ++ [ss]), None)
      end
  end.

End Session.

(** ** Shard actions *)

Inductive actionNeeded := nothing | reserveBegin | reserve | begin.

#[global] Instance actionNeeded_eq_dec : EqDecision actionNeeded.
Proof. solve_decision. Defined.

Record shardActionInfo := {
  sai_actionNeeded : actionNeeded;
  sai_reservedID : Z;
  sai_transactionID : Z;
  sai_alias : option TabletAlias }.

(** the zero value [&shardActionInfo{}] *)
Definition shardActionInfo_zero : shardActionInfo :=
  {| sai_actionNeeded := nothing; sai_reservedID := 0;
     sai_transactionID := 0; sai_alias := None |}.

(** actionInfo looks at the current session, and returns what needs to be
    done for this tablet. *)
Definition actionInfo (target : Target) (session : SafeSession) (autocommit : bool)
    : shardActionInfo :=
  if negb (Session.InTransaction session || Session.InReservedConn session) then
    shardActionInfo_zero
  else
    let '(transactionID, reservedID, alias) :=
      Session.Find session (Keyspace target) (Shard target) (TabletType_ target) in
    let shouldReserve := Session.InReservedConn session && (reservedID =? 0) in
    let shouldBegin :=
      Session.InTransaction session && (transactionID =? 0) && negb autocommit in
    let act :=
      if shouldBegin && shouldReserve then reserveBegin
      else if shouldReserve then reserve
      else if shouldBegin then begin
      else nothing in
    {| sai_actionNeeded := act;
       sai_transactionID := transactionID;
       sai_reservedID := reservedID;
       sai_alias := alias |}.

(** updateTransactionAndReservedID: nil when neither identifier changed,
    otherwise a copy with the new identifiers and alias. *)
Definition updateTransactionAndReservedID (sai : shardActionInfo)
    (txID rID : Z) (alias : option TabletAlias) : option shardActionInfo :=
  if (txID =? sai_transactionID sai) && (rID =? sai_reservedID sai) then None
  else Some {| sai_actionNeeded := sai_actionNeeded sai;
               sai_reservedID := rID;
               sai_transactionID := txID;
               sai_alias := alias |}.

(** the action asks for a transaction to be opened *)
Definition opensTransaction (a : actionNeeded) : Prop :=
  a = begin ∨ a = reserveBegin.

(** the action asks for a connection to be reserved *)
Definition reservesConnection (a : actionNeeded) : Prop :=
  a = reserve ∨ a = reserveBegin.

(** ** The environment of the scatter connection

    Everything the core calls but does not implement: the tablets behind
    a query service handle, the gateway, the transaction connection, the
    MySQL error conversion, the patterns of package vterrors and the
    process-wide flags.  [World] is the state of all of them. *)

(** the four tablet operations, with the arguments that differ *)
Inductive TabletCall :=
| CallExecute (transactionID reservedID : Z)
| CallBeginExecute (savepoints : list string) (reservedID : Z)
| CallReserveExecute (preQueries : list string) (transactionID : Z)
| CallReserveBeginExecute (preQueries savepoints : list string).

(** what a tablet operation hands back; each operation of the interface
    returns the components its signature names. *)
Record Reply := {
  rp_result : Result;
  rp_transactionID : Z;
  rp_reservedID : Z;
  rp_alias : option TabletAlias;
  rp_err : option error }.

(** *mysql.SQLError, as far as [wasConnectionClosed] reads it *)
Record SQLError := {
  sql_Number : Z;
  sql_Error : string }.

Class Environment := {
  World : Type;
  (** queryservice.QueryService: a handle on which tablet operations are
      issued; the gateway itself is such a handle (any live tablet). *)
  QueryService : Type;
  tablet : QueryService → Target → BoundQuery → TabletCall → World → World * Reply;
  (** the streaming variants; the callback is run by the tablet
      connection while the call is in progress *)
  tabletStream : QueryService → Target → BoundQuery → TabletCall →
                 (Result → World → World * option error) → World → World * Reply;
  (** Gateway.QueryServiceByAlias(alias, target) *)
  QueryServiceByAlias : QueryService → TabletAlias → Target → World → QueryService + error;
  (** TxConn.Rollback(ctx, session) and TxConn.mode *)
  txConn_Rollback : SafeSession → World → World * SafeSession;
  txConn_mode : TransactionMode;
  (** SafeSession.TriggerLockHeartBeat() reads the clock *)
  TriggerLockHeartBeat : SafeSession → World → bool;
  (** mysql.NewSQLErrorFromError *)
  NewSQLErrorFromError : error → SQLError;
  (** vterrors.RxWrongTablet.MatchString and vterrors.RxOp.MatchString *)
  RxWrongTablet_MatchString : string → bool;
  RxOp_MatchString : string → bool;
  (** the flag *maxMemoryRows *)
  maxMemoryRows : Z }.

(** MySQL client and server error numbers (package mysql) *)
Definition CRServerGone : Z := 2006.
Definition CRServerLost : Z := 2013.
Definition ERQueryInterrupted : Z := 1317.

Inductive reset := none | shard | newQS.

#[global] Instance reset_eq_dec : EqDecision reset.
Proof. solve_decision. Defined.

Section Scatter.

Context {env : Environment}.

(** srvtopo.ResolvedShard.  [rs_TargetAddr] is the address held in the
    pointer field Target: the time tracker of MessageStream is keyed by
    that pointer. *)
Record ResolvedShard := {
  rs_TargetAddr : positive;
  rs_Target : Target;
  rs_Gateway : QueryService }.

(** What the connection does to its surroundings, in order. *)
Inductive Event :=
| EvTablet (streaming : bool) (qs : QueryService) (target : Target)
           (q : BoundQuery) (c : TabletCall)
| EvResetShard (alias : option TabletAlias)
| EvAppendOrUpdate (ss : ShardSession)
| EvSetRollback
| EvRollback (s : SafeSession)
| EvErrorCount (statsKey : list string)
| EvLockHeartbeat.

(** The state shared by the shard closures of one call: the outside
    world, the session, the trace of events, the error recorder
    [allErrors] and the accumulated result [qr]. *)
Record State := {
  world : World;
  session : SafeSession;
  trace : list Event;
  allErrors : list error;
  qr : Result }.

(** A step either returns with a new state or panics (index out of
    range). *)
Inductive Outcome (A : Type) :=
| Ret (st : State) (a : A)
| Panic.
Arguments Ret {A} st a.
Arguments Panic {A}.

Definition M (A : Type) : Type := State → Outcome A.

#[global] Instance M_ret : MRet M := λ A a st, Ret st a.
#[global] Instance M_bind : MBind M := λ A B f m st,
  match m st with
  | Ret st' a => f a st'
  | Panic => Panic
  end.

Definition getSession : M SafeSession := λ st, Ret st (session st).

Definition modifySession (f : SafeSession → SafeSession) : M unit := λ st,
  Ret {| world := world st; session := f (session st); trace := trace st;
         allErrors := allErrors st; qr := qr st |} tt.

Definition emit (e : Event) : M unit := λ st,
  Ret {| world := world st; session := session st; trace := trace st ++ [e];
         allErrors := allErrors st; qr := qr st |} tt.

Definition liftWorld {A : Type} (f : World → World * A) : M A := λ st,
  let '(w, a) := f (world st) in
  Ret {| world := w; session := session st; trace := trace st;
         allErrors := allErrors st; qr := qr st |} a.

Definition readWorld {A : Type} (f : World → A) : M A := λ st,
  Ret st (f (world st)).

Definition getQr : M Result := λ st, Ret st (qr st).

Definition setQr (r : Result) : M unit := λ st,
  Ret {| world := world st; session := session st; trace := trace st;
         allErrors := allErrors st; qr := r |} tt.

Definition getAllErrors : M (list error) := λ st, Ret st (allErrors st).

Definition setAllErrors (l : list error) : M unit := λ st,
  Ret {| world := world st; session := session st; trace := trace st;
         allErrors := l; qr := qr st |} tt.

(** [l[i]]: panics out of range *)
Definition index {A : Type} (l : list A) (i : nat) : M A := λ st,
  match l !! i with
  | Some x => Ret st x
  | None => Panic
  end.

(** *** The operations of queryservice.QueryService *)

Definition callTablet (qs : QueryService) (target : Target) (q : BoundQuery)
    (c : TabletCall) : M Reply :=
  emit (EvTablet false qs target q c);;
  liftWorld (tablet qs target q c).

Definition callTabletStream (qs : QueryService) (target : Target) (q : BoundQuery)
    (c : TabletCall) (callback : Result → World → World * option error) : M Reply :=
  emit (EvTablet true qs target q c);;
  liftWorld (tabletStream qs target q c callback).

Definition Execute qs target q (transactionID reservedID : Z)
    : M (Result * option error) :=
  rp ← callTablet qs target q (CallExecute transactionID reservedID);
  mret (rp_result rp, rp_err rp).

Definition BeginExecute qs target (savepoints : list string) q (reservedID : Z)
    : M (Result * Z * option TabletAlias * option error) :=
  rp ← callTablet qs target q (CallBeginExecute savepoints reservedID);
  mret (rp_result rp, rp_transactionID rp, rp_alias rp, rp_err rp).

Definition ReserveExecute qs target (preQueries : list string) q (transactionID : Z)
    : M (Result * Z * option TabletAlias * option error) :=
  rp ← callTablet qs target q (CallReserveExecute preQueries transactionID);
  mret (rp_result rp, rp_reservedID rp, rp_alias rp, rp_err rp).

Definition ReserveBeginExecute qs target (preQueries savepoints : list string) q
    : M (Result * Z * Z * option TabletAlias * option error) :=
  rp ← callTablet qs target q (CallReserveBeginExecute preQueries savepoints);
  mret (rp_result rp, rp_transactionID rp, rp_reservedID rp, rp_alias rp, rp_err rp).

Definition StreamExecute qs target q (transactionID reservedID : Z) callback
    : M (option error) :=
  rp ← callTabletStream qs target q (CallExecute transactionID reservedID) callback;
  mret (rp_err rp).

Definition BeginStreamExecute qs target (savepoints : list string) q (reservedID : Z)
    callback : M (Z * option TabletAlias * option error) :=
  rp ← callTabletStream qs target q (CallBeginExecute savepoints reservedID) callback;
  mret (rp_transactionID rp, rp_alias rp, rp_err rp).

Definition ReserveStreamExecute qs target (preQueries : list string) q
    (transactionID : Z) callback : M (Z * option TabletAlias * option error) :=
  rp ← callTabletStream qs target q (CallReserveExecute preQueries transactionID) callback;
  mret (rp_reservedID rp, rp_alias rp, rp_err rp).

Definition ReserveBeginStreamExecute qs target (preQueries savepoints : list string) q
    callback : M (Z * Z * option TabletAlias * option error) :=
  rp ← callTabletStream qs target q (CallReserveBeginExecute preQueries savepoints) callback;
  mret (rp_transactionID rp, rp_reservedID rp, rp_alias rp, rp_err rp).

(** *** Error classification *)

Definition wasConnectionClosed (err : error) : bool :=
  let sqlErr := NewSQLErrorFromError err in
  let message := sql_Error sqlErr in
  (sql_Number sqlErr =? CRServerGone)
  || (sql_Number sqlErr =? CRServerLost)
  || ((sql_Number sqlErr =? ERQueryInterrupted) && txClosed.MatchString message).

Definition requireNewQS (err : error) (target : option Target) : bool :=
  let code := vterrors_Code err in
  let msg := error_Error err in
  (bool_decide (code = Code_FAILED_PRECONDITION) && RxWrongTablet_MatchString msg)
  || (bool_decide (code = Code_CLUSTER_EVENT)
      && (match target with
          | Some t => bool_decide (TabletType_ t = TabletType_PRIMARY)
          | None => false
          end
          || RxOp_MatchString msg)).

Definition checkAndResetShardSession (info : shardActionInfo) (err : error)
    (target : option Target) : M reset :=
  let retry := none in
  let retry :=
    if negb (sai_reservedID info =? 0) && (sai_transactionID info =? 0) then
      let retry := if wasConnectionClosed err then shard else retry in
      if requireNewQS err target then newQS else retry
    else retry in
  if bool_decide (retry ≠ none) then
    modifySession (Session.ResetShard (sai_alias info));;
    emit (EvResetShard (sai_alias info));;
    mret retry
  else mret retry.

Definition getQueryService (rs : ResolvedShard) (info : shardActionInfo)
    : M (QueryService + error) :=
  match sai_alias info with
  | None => mret (inl (rs_Gateway rs))
  | Some alias => readWorld (QueryServiceByAlias (rs_Gateway rs) alias (rs_Target rs))
  end.

(** *** The shard closure of ExecuteMultiShard *)

(** the variables of the closure that the tablet calls assign *)
Record Locals := {
  l_info : shardActionInfo;
  l_qs : QueryService;
  l_innerqr : Result;
  l_transactionID : Z;
  l_reservedID : Z;
  l_alias : option TabletAlias;
  l_err : option error }.

Definition setActionNeeded (info : shardActionInfo) (a : actionNeeded) : shardActionInfo :=
  {| sai_actionNeeded := a; sai_reservedID := sai_reservedID info;
     sai_transactionID := sai_transactionID info; sai_alias := sai_alias info |}.

Definition setQs (v : Locals) (qs : QueryService) : Locals :=
  {| l_info := l_info v; l_qs := qs; l_innerqr := l_innerqr v;
     l_transactionID := l_transactionID v; l_reservedID := l_reservedID v;
     l_alias := l_alias v; l_err := l_err v |}.

(** [retryRequest]: asks [checkAndResetShardSession] whether the failed
    call may be issued again, and runs [exec] if so; for [newQS] the
    handle is first replaced by the gateway. *)
Definition retryRequest (rs : ResolvedShard) (v : Locals) (err : error)
    (exec : Locals → M Locals) : M Locals :=
  retry ← checkAndResetShardSession (l_info v) err (Some (rs_Target rs));
  match retry with
  | newQS => exec (setQs v (rs_Gateway rs))
  | shard => exec v
  | none => mret v
  end.

Definition doExecute (rs : ResolvedShard) (q : BoundQuery) (v : Locals) : M Locals :=
  '(innerqr, err) ← Execute (l_qs v) (rs_Target rs) q
                      (sai_transactionID (l_info v)) (sai_reservedID (l_info v));
  mret {| l_info := l_info v; l_qs := l_qs v; l_innerqr := innerqr;
          l_transactionID := l_transactionID v; l_reservedID := l_reservedID v;
          l_alias := l_alias v; l_err := err |}.

Definition doBeginExecute (rs : ResolvedShard) (q : BoundQuery) (v : Locals) : M Locals :=
  s ← getSession;
  '(innerqr, transactionID, alias, err) ←
    BeginExecute (l_qs v) (rs_Target rs) (Session.SavePoints s) q (l_reservedID v);
  mret {| l_info := l_info v; l_qs := l_qs v; l_innerqr := innerqr;
          l_transactionID := transactionID; l_reservedID := l_reservedID v;
          l_alias := alias; l_err := err |}.

(** [info.actionNeeded = a] comes first in the two retries and is
    absent ([a] is the action already there) in the direct calls. *)
Definition doReserveExecute (a : actionNeeded) (transactionID : Z)
    (rs : ResolvedShard) (q : BoundQuery) (v : Locals) : M Locals :=
  s ← getSession;
  '(innerqr, reservedID, alias, err) ←
    ReserveExecute (l_qs v) (rs_Target rs) (Session.SetPreQueries s) q transactionID;
  mret {| l_info := setActionNeeded (l_info v) a; l_qs := l_qs v;
          l_innerqr := innerqr;
          l_transactionID := l_transactionID v; l_reservedID := reservedID;
          l_alias := alias; l_err := err |}.

Definition doReserveBeginExecute (a : actionNeeded)
    (rs : ResolvedShard) (q : BoundQuery) (v : Locals) : M Locals :=
  s ← getSession;
  '(innerqr, transactionID, reservedID, alias, err) ←
    ReserveBeginExecute (l_qs v) (rs_Target rs) (Session.SetPreQueries s)
      (Session.SavePoints s) q;
  mret {| l_info := setActionNeeded (l_info v) a; l_qs := l_qs v;
          l_innerqr := innerqr;
          l_transactionID := transactionID; l_reservedID := reservedID;
          l_alias := alias; l_err := err |}.

(** the switch on [info.actionNeeded] *)
Definition executeSwitch (rs : ResolvedShard) (q : BoundQuery) (v : Locals) : M Locals :=
  match sai_actionNeeded (l_info v) with
  | nothing =>
      v1 ← doExecute rs q v;
      match l_err v1 with
      | Some err =>
          (* we seem to have lost our connection. it was a reserved
             connection, let's try to recreate it *)
          retryRequest rs v1 err (doReserveExecute reserve 0 rs q)
      | None => mret v1
      end
  | begin =>
      v1 ← doBeginExecute rs q v;
      match l_err v1 with
      | Some err => retryRequest rs v1 err (doReserveBeginExecute reserveBegin rs q)
      | None => mret v1
      end
  | reserve => doReserveExecute reserve (l_transactionID v) rs q v
  | reserveBegin => doReserveBeginExecute reserveBegin rs q v
  end.

Definition errAutocommit (transactionID : Z) : error :=
  VtError Code_FAILED_PRECONDITION
    ("in autocommit mode, transactionID should be zero but was: " +:+ pretty transactionID).

(** Don't append more rows if row count is exceeded. *)
Definition appendShardResult (ignoreMaxMemoryRows : bool) (acc innerqr : Result) : Result :=
  if ignoreMaxMemoryRows || (Z.of_nat (length (Rows acc)) <=? maxMemoryRows)
  then AppendResult acc innerqr
  else acc.

Definition initLocals (info : shardActionInfo) (qs : QueryService) : Locals :=
  {| l_info := info; l_qs := qs; l_innerqr := new_Result;
     l_transactionID := sai_transactionID info;
     l_reservedID := sai_reservedID info;
     l_alias := None; l_err := None |}.

(** the function literal passed to multiGoTransaction by
    ExecuteMultiShard *)
Definition executeShard (queries : list BoundQuery)
    (autocommit ignoreMaxMemoryRows : bool)
    (rs : ResolvedShard) (i : nat) (info : shardActionInfo)
    : M (option shardActionInfo * option error) :=
  let transactionID := sai_transactionID info in
  (* As this is auto-commit, the transactionID is supposed to be zero. *)
  if autocommit && negb (transactionID =? 0) then
    mret (None, Some (errAutocommit transactionID))
  else
    r ← getQueryService rs info;
    match r with
    | inr err => mret (None, Some err)
    | inl qs =>
        q ← index queries i;
        v ← executeSwitch rs q (initLocals info qs);
        (* We need to new shard info irrespective of the error. *)
        let newInfo :=
          updateTransactionAndReservedID (l_info v)
            (l_transactionID v) (l_reservedID v) (l_alias v) in
        match l_err v with
        | Some err => mret (newInfo, Some err)
        | None =>
            acc ← getQr;
            setQr (appendShardResult ignoreMaxMemoryRows acc (l_innerqr v));;
            mret (newInfo, None)
        end
    end.

(** *** The shard closure of StreamExecuteMulti *)

Definition Callback : Type := Result → World → World * option error.

Definition doStreamExecute (callback : Callback)
    (rs : ResolvedShard) (q : BoundQuery) (v : Locals) : M Locals :=
  err ← StreamExecute (l_qs v) (rs_Target rs) q
          (l_transactionID v) (l_reservedID v) callback;
  mret {| l_info := l_info v; l_qs := l_qs v; l_innerqr := l_innerqr v;
          l_transactionID := l_transactionID v; l_reservedID := l_reservedID v;
          l_alias := l_alias v; l_err := err |}.

Definition doBeginStreamExecute (callback : Callback)
    (rs : ResolvedShard) (q : BoundQuery) (v : Locals) : M Locals :=
  s ← getSession;
  '(transactionID, alias, err) ←
    BeginStreamExecute (l_qs v) (rs_Target rs) (Session.SavePoints s) q
      (l_reservedID v) callback;
  mret {| l_info := l_info v; l_qs := l_qs v; l_innerqr := l_innerqr v;
          l_transactionID := transactionID; l_reservedID := l_reservedID v;
          l_alias := alias; l_err := err |}.

Definition doReserveStreamExecute (callback : Callback) (a : actionNeeded)
    (transactionID : Z) (rs : ResolvedShard) (q : BoundQuery) (v : Locals) : M Locals :=
  s ← getSession;
  '(reservedID, alias, err) ←
    ReserveStreamExecute (l_qs v) (rs_Target rs) (Session.SetPreQueries s) q
      transactionID callback;
  mret {| l_info := setActionNeeded (l_info v) a; l_qs := l_qs v;
          l_innerqr := l_innerqr v;
          l_transactionID := l_transactionID v; l_reservedID := reservedID;
          l_alias := alias; l_err := err |}.

Definition doReserveBeginStreamExecute (callback : Callback) (a : actionNeeded)
    (rs : ResolvedShard) (q : BoundQuery) (v : Locals) : M Locals :=
  s ← getSession;
  '(transactionID, reservedID, alias, err) ←
    ReserveBeginStreamExecute (l_qs v) (rs_Target rs) (Session.SetPreQueries s)
      (Session.SavePoints s) q callback;
  mret {| l_info := setActionNeeded (l_info v) a; l_qs := l_qs v;
          l_innerqr := l_innerqr v;
          l_transactionID := transactionID; l_reservedID := reservedID;
          l_alias := alias; l_err := err |}.

Definition streamSwitch (callback : Callback)
    (rs : ResolvedShard) (q : BoundQuery) (v : Locals) : M Locals :=
  match sai_actionNeeded (l_info v) with
  | nothing =>
      v1 ← doStreamExecute callback rs q v;
      match l_err v1 with
      | Some err =>
          retryRequest rs v1 err (doReserveStreamExecute callback reserve 0 rs q)
      | None => mret v1
      end
  | begin =>
      v1 ← doBeginStreamExecute callback rs q v;
      match l_err v1 with
      | Some err =>
          retryRequest rs v1 err (doReserveBeginStreamExecute callback reserveBegin rs q)
      | None => mret v1
      end
  | reserve => doReserveStreamExecute callback reserve (l_transactionID v) rs q v
  | reserveBegin => doReserveBeginStreamExecute callback reserveBegin rs q v
  end.

(** the function literal passed to multiGoTransaction by
    StreamExecuteMulti *)
Definition streamShard (query : string) (bindVars : list (list (string * string)))
    (autocommit : bool) (callback : Callback)
    (rs : ResolvedShard) (i : nat) (info : shardActionInfo)
    : M (option shardActionInfo * option error) :=
  let transactionID := sai_transactionID info in
  (* As this is auto-commit, the transactionID is supposed to be zero. *)
  if autocommit && negb (transactionID =? 0) then
    mret (None, Some (errAutocommit transactionID))
  else
    r ← getQueryService rs info;
    match r with
    | inr err => mret (None, Some err)
    | inl qs =>
        bv ← index bindVars i;
        v ← streamSwitch callback rs {| Sql := query; BindVariables := bv |}
              (initLocals info qs);
        (* We need to new shard info irrespective of the error. *)
        let newInfo :=
          updateTransactionAndReservedID (l_info v)
            (l_transactionID v) (l_reservedID v) (l_alias v) in
        match l_err v with
        | Some err => mret (newInfo, Some err)
        | None => mret (newInfo, None)
        end
    end.

(** *** Fan-out *)

(** topoproto.TabletTypeLString *)
Definition TabletTypeLString (t : TabletType) : string :=
  match t with
  | TabletType_PRIMARY => "primary"
  | TabletType_REPLICA => "replica"
  | TabletType_RDONLY => "rdonly"
  end.

(** startAction; the start time feeds the timing histogram only and is
    left out. *)
Definition startAction (name : string) (target : Target) : list string :=
  [name; Keyspace target; Shard target; TabletTypeLString (TabletType_ target)].

(** Modelled from the spec: AllErrorRecorder.RecordError (package
    concurrency is not among the sources) keeps the errors in the order
    they are recorded; GetErrors returns them. *)
Definition RecordError (err : error) : M unit := λ st,
  Ret {| world := world st; session := session st; trace := trace st;
         allErrors := allErrors st ++ [err]; qr := qr st |} tt.

(** session.SetRollback() *)
Definition SetRollback : M unit :=
  modifySession Session.SetRollback;;
  emit EvSetRollback.

(** endAction, on the final value of [*err]; the timing histogram is left
    out. *)
Definition endAction (statsKey : list string) (err : option error) : M unit :=
  match err with
  | Some e =>
      RecordError e;;
      (* Don't increment the error counter for duplicate keys or bad
         queries, as those errors are caused by client queries. *)
      let ec := vterrors_Code e in
      (if bool_decide (ec ≠ Code_ALREADY_EXISTS) && bool_decide (ec ≠ Code_INVALID_ARGUMENT)
       then emit (EvErrorCount statsKey) else mret tt);;
      (if bool_decide (ec = Code_RESOURCE_EXHAUSTED) || bool_decide (ec = Code_ABORTED)
       then SetRollback else mret tt)
  | None => mret tt
  end.

Definition shardActionTransactionFunc : Type :=
  ResolvedShard → nat → shardActionInfo → M (option shardActionInfo * option error).

Definition AppendOrUpdate (ss : ShardSession) : M (option error) := λ st,
  let '(s, appendErr) := Session.AppendOrUpdate ss txConn_mode (session st) in
  Ret {| world := world st; session := s;
         trace := trace st ++ [EvAppendOrUpdate ss];
         allErrors := allErrors st; qr := qr st |} appendErr.

(** whether [oneShard] records the updated info in the session *)
Definition mustRecord (updated : shardActionInfo) : bool :=
  bool_decide (sai_actionNeeded updated ≠ nothing)
  && (negb (sai_transactionID updated =? 0) || negb (sai_reservedID updated =? 0)).

(** [oneShard]; the deferred [endAction] runs last, on the final value
    of [err]. *)
Definition oneShard (name : string) (autocommit : bool)
    (action : shardActionTransactionFunc) (rs : ResolvedShard) (i : nat) : M unit :=
  let statsKey := startAction name (rs_Target rs) in
  s ← getSession;
  let shardActionInfo := actionInfo (rs_Target rs) s autocommit in
  '(updated, err) ← action rs i shardActionInfo;
  err ← match updated with
        | None => mret err
        | Some updated =>
            if mustRecord updated then
              appendErr ← AppendOrUpdate
                {| ss_Target := rs_Target rs;
                   ss_TransactionId := sai_transactionID updated;
                   ss_ReservedId := sai_reservedID updated;
                   ss_TabletAlias := sai_alias updated |};
              mret (match appendErr with
                    | Some e => Some e
                    | None => err
                    end)
            else mret err
        end;
  endAction statsKey err.

(** runs [f] on the shards of a schedule, one after the other *)
Fixpoint runShards (f : ResolvedShard → nat → M unit)
    (sched : list (nat * ResolvedShard)) : M unit :=
  match sched with
  | [] => mret tt
  | (i, rs) :: sched' => f rs i;; runShards f sched'
  end.

Definition Rollback : M unit := λ st,
  let '(w, s) := txConn_Rollback (session st) (world st) in
  Ret {| world := w; session := s;
         trace := trace st ++ [EvRollback (session st)];
         allErrors := allErrors st; qr := qr st |} tt.

(** [for i, rs := range rss]: the shards with their index *)
Definition schedule (rss : list ResolvedShard) : list (nat * ResolvedShard) :=
  imap (λ i rs, (i, rs)) rss.

(** multiGoTransaction.  With one shard the closure runs synchronously;
    with several, one goroutine per shard runs it and all are awaited:
    here they run in index order. *)
Definition multiGoTransaction (name : string) (rss : list ResolvedShard)
    (autocommit : bool) (action : shardActionTransactionFunc) : M (list error) :=
  let numShards := length rss in
  setAllErrors [];;
  if Nat.eqb numShards 0 then getAllErrors
  else
    runShards (oneShard name autocommit action) (schedule rss);;
    s ← getSession;
    (if Session.MustRollback s then Rollback else mret tt);;
    getAllErrors.

Definition errMismatch : error :=
  VtError Code_INTERNAL "[BUG] got mismatched number of queries and shards".

Definition errRowCount : error :=
  VtError Code_RESOURCE_EXHAUSTED
    ("in-memory row count exceeded allowed limit of " +:+ pretty maxMemoryRows).

(** the lock keep-alive: [runLockQuery] is started as a goroutine and
    not awaited; only the fact that it is started is kept *)
Definition lockHeartBeat : M unit :=
  s ← getSession;
  if Session.InLockSession s then
    due ← readWorld (TriggerLockHeartBeat s);
    if due : bool then emit EvLockHeartbeat else mret tt
  else mret tt.

(** ExecuteMultiShard: the result ([None] is the nil result) and the
    shard errors. *)
Definition ExecuteMultiShard (rss : list ResolvedShard) (queries : list BoundQuery)
    (autocommit ignoreMaxMemoryRows : bool) : M (option Result * list error) :=
  if negb (Nat.eqb (length rss) (length queries)) then
    mret (None, [errMismatch])
  else
    setQr new_Result;;
    lockHeartBeat;;
    errs ← multiGoTransaction "Execute" rss autocommit
              (executeShard queries autocommit ignoreMaxMemoryRows);
    acc ← getQr;
    if negb ignoreMaxMemoryRows && (maxMemoryRows <? Z.of_nat (length (Rows acc))) then
      mret (None, [errRowCount])
    else mret (Some acc, errs).

Definition StreamExecuteMulti (query : string) (rss : list ResolvedShard)
    (bindVars : list (list (string * string))) (autocommit : bool)
    (callback : Callback) : M (list error) :=
  lockHeartBeat;;
  multiGoTransaction "StreamExecute" rss autocommit
    (streamShard query bindVars autocommit callback).

(** *** The streaming funnel and the message stream *)

(** What the shard loops of one MessageStream call share: the world the
    callback acts on, the flag [fieldSent], the time tracker
    [lastErrors] (keyed by the Target pointer), and whether [cancel]
    was called on the shared context.  [sm_delivered] lists the
    arguments of the callback invocations, oldest first. *)
Record StreamState := {
  sm_world : World;
  sm_fieldSent : bool;
  sm_delivered : list Result;
  sm_lastErrors : gmap positive Z;
  sm_cancelled : bool }.

Definition invoke (callback : Callback) (r : Result) (fieldSent : bool)
    (st : StreamState) : StreamState * option error :=
  let '(w, err) := callback r (sm_world st) in
  ({| sm_world := w; sm_fieldSent := fieldSent;
      sm_delivered := sm_delivered st ++ [r];
      sm_lastErrors := sm_lastErrors st;
      sm_cancelled := sm_cancelled st |}, err).

Definition errRowsBeforeFields : error :=
  VtError Code_INTERNAL "received rows before fields".

(** processOneStreamingResult; the mutex makes each run atomic *)
Definition processOneStreamingResult (callback : Callback) (r : Result)
    (st : StreamState) : StreamState * option error :=
  if sm_fieldSent st then
    if Nat.eqb (length (Rows r)) 0 then
      (* It's another field info result. Don't send. *)
      (st, None)
    else invoke callback r (sm_fieldSent st) st
  else
    if Nat.eqb (length (Fields r)) 0 then
      (* Unreachable: this can happen only if vttablet misbehaves. *)
      (st, Some errRowsBeforeFields)
    else invoke callback r true st.

(** feeds a sequence of results through the funnel, whatever each run
    returns (the producers are independent streams) *)
Definition processAll (callback : Callback) (rs : list Result)
    (st : StreamState) : StreamState :=
  fold_left (λ st r, fst (processOneStreamingResult callback r st)) rs st.

Definition withLastErrors (st : StreamState) (m : gmap positive Z) : StreamState :=
  {| sm_world := sm_world st; sm_fieldSent := sm_fieldSent st;
     sm_delivered := sm_delivered st; sm_lastErrors := m;
     sm_cancelled := sm_cancelled st |}.

(** timeTracker.Reset *)
Definition tt_Reset (target : positive) (st : StreamState) : StreamState :=
  withLastErrors st (delete target (sm_lastErrors st)).

(** timeTracker.Record: records the time to [now] if there was no
    previous timestamp, and keeps returning that value until the next
    Reset. *)
Definition tt_Record (target : positive) (now : Z) (st : StreamState)
    : StreamState * Z :=
  match sm_lastErrors st !! target with
  | Some last => (st, last)
  | None => (withLastErrors st (<[target := now]> (sm_lastErrors st)), now)
  end.

Definition cancel (st : StreamState) : StreamState :=
  {| sm_world := sm_world st; sm_fieldSent := sm_fieldSent st;
     sm_delivered := sm_delivered st; sm_lastErrors := sm_lastErrors st;
     sm_cancelled := true |}.

(** [<-ctx.Done()] is ready: the caller's context is done, or [cancel]
    was called *)
Definition ctxDone (st : StreamState) (parentDone : bool) : bool :=
  sm_cancelled st || parentDone.

(** What one pass of the loop observes from outside: the results the
    gateway hands to the callback during the stream and the error the
    stream ends with, whether the context is found done from outside
    the loop at each of the two selects (at the second: before the timer
    fires), and the two readings of the clock, in Record and in
    time.Since. *)
Record Attempt := {
  at_results : list Result;
  at_err : option error;
  at_parentDone : bool;
  at_now : Z;
  at_nowSince : Z;
  at_parentDoneWaiting : bool }.

Inductive LoopStep :=
| Retry (wait : Z)
| Return (err : option error).

(** the callback given to Gateway.MessageStream *)
Definition onResult (callback : Callback) (rs : ResolvedShard) (r : Result)
    (st : StreamState) : StreamState * option error :=
  processOneStreamingResult callback r (tt_Reset (rs_TargetAddr rs) st).

Definition errGracePeriod (rs : ResolvedShard) (messageStreamGracePeriod : Z) : error :=
  VtError Code_DEADLINE_EXCEEDED
    ("message stream from " +:+ Keyspace (rs_Target rs) +:+ "/" +:+ Shard (rs_Target rs)
     +:+ " has repeatedly failed for longer than " +:+ pretty messageStreamGracePeriod).

(** nil and EOF are equivalent. UNAVAILABLE can be returned by vttablet
    if it's demoted from primary to replica. *)
Definition mustRetry (err : option error) : bool :=
  match err with
  | None => true
  | Some e =>
      negb (bool_decide (e ≠ io_EOF) && bool_decide (vterrors_Code e ≠ Code_UNAVAILABLE))
  end.

(** the stream hands its results to the callback, one by one *)
Definition deliverAll (callback : Callback) (rs : ResolvedShard)
    (results : list Result) (st : StreamState) : StreamState :=
  fold_left (λ st r, fst (onResult callback rs r st)) results st.

(** the body of the [for] loop of a shard in MessageStream *)
Definition messageStreamPass (messageStreamGracePeriod : Z) (callback : Callback)
    (rs : ResolvedShard) (a : Attempt) (st : StreamState) : StreamState * LoopStep :=
  let st := deliverAll callback rs (at_results a) st in
  if negb (mustRetry (at_err a)) then
    (cancel st, Return (at_err a))
  else if ctxDone st (at_parentDone a) then
    (st, Return None)
  else
    let '(st, firstErrorTimeStamp) := tt_Record (rs_TargetAddr rs) (at_now a) st in
    if messageStreamGracePeriod <=? at_nowSince a - firstErrorTimeStamp then
      (* Cancel all streams and return an error. *)
      (cancel st, Return (Some (errGracePeriod rs messageStreamGracePeriod)))
    else
      (* It's not been too long since our last good send. Wait and retry. *)
      if ctxDone st (at_parentDoneWaiting a) then (st, Return None)
      else (st, Retry (messageStreamGracePeriod ÷ 5)).

(** the loop, run on the passes observed so far; [None] while it is
    still running *)
Fixpoint messageStreamLoop (messageStreamGracePeriod : Z) (callback : Callback)
    (rs : ResolvedShard) (passes : list Attempt) (st : StreamState)
    : StreamState * option (option error) :=
  match passes with
  | [] => (st, None)
  | a :: passes' =>
      match messageStreamPass messageStreamGracePeriod callback rs a st with
      | (st', Return err) => (st', Some err)
      | (st', Retry _) =>
          messageStreamLoop messageStreamGracePeriod callback rs passes' st'
      end
  end.

End Scatter.

Arguments Ret {env A} st a.
Arguments Panic {env A}.

(** the default of the flag message_stream_grace_period: 30 seconds, in
    nanoseconds *)
Definition defaultGracePeriod : Z := 30 * 1000000000.

(** ** A gateway for examples

    Handles are [None] for the gateway itself and [Some alias] for the
    tablet of that alias.  The tablet of cell "a" has lost reserved
    connection 42: a call on it ends with "server gone".  A statement
    whose text is "abort" is refused with ABORTED.  Every other call
    succeeds on the tablet of cell "b" with one row, transaction 9 and
    reserved connection 77 where the operation opens one.  The world
    counts the tablet calls. *)
Module Fixture.

Definition aliasA : TabletAlias := {| Cell := "a"; Uid := 1 |}.
Definition aliasB : TabletAlias := {| Cell := "b"; Uid := 2 |}.

Definition oneRow : Result :=
  {| Fields := ["id"]; Rows := [["1"]]; RowsAffected := 0; InsertID := 0 |}.

Definition errServerGone : error :=
  VtError Code_UNAVAILABLE "server gone (errno 2006)".
Definition errAborted : error :=
  VtError Code_ABORTED "transaction aborted".

Definition reply (c : TabletCall) : Reply :=
  match c with
  | CallExecute tx rid =>
      {| rp_result := oneRow; rp_transactionID := tx; rp_reservedID := rid;
         rp_alias := None; rp_err := None |}
  | CallBeginExecute _ rid =>
      {| rp_result := oneRow; rp_transactionID := 9; rp_reservedID := rid;
         rp_alias := Some aliasB; rp_err := None |}
  | CallReserveExecute _ tx =>
      {| rp_result := oneRow; rp_transactionID := tx; rp_reservedID := 77;
         rp_alias := Some aliasB; rp_err := None |}
  | CallReserveBeginExecute _ _ =>
      {| rp_result := oneRow; rp_transactionID := 9; rp_reservedID := 77;
         rp_alias := Some aliasB; rp_err := None |}
  end.

Definition failed (err : error) : Reply :=
  {| rp_result := new_Result; rp_transactionID := 0; rp_reservedID := 0;
     rp_alias := None; rp_err := Some err |}.

(** the call runs on reserved connection 42, which is lost *)
Definition usesLost (c : TabletCall) : bool :=
  match c with
  | CallExecute _ rid | CallBeginExecute _ rid => rid =? 42
  | _ => false
  end.

Definition answer (qs : option TabletAlias) (target : Target) (q : BoundQuery)
    (c : TabletCall) (w : nat) : nat * Reply :=
  (S w,
   if bool_decide (qs = Some aliasA) && usesLost c then failed errServerGone
   else if bool_decide (Sql q = "abort") then failed errAborted
   else reply c).

Definition env : Environment :=
  {| World := nat;
     QueryService := option TabletAlias;
     tablet := answer;
     tabletStream := λ qs target q c _ w, answer qs target q c w;
     QueryServiceByAlias := λ _ alias _ _, inl (Some alias);
     txConn_Rollback := λ s w, (w, Session.withShardSessions s []);
     txConn_mode := TransactionMode_MULTI;
     TriggerLockHeartBeat := λ _ _, false;
     NewSQLErrorFromError := λ e,
       {| sql_Number := if bool_decide (e = errServerGone) then 2006 else 1105;
          sql_Error := error_Error e |};
     RxWrongTablet_MatchString := λ _, false;
     RxOp_MatchString := λ _, false;
     maxMemoryRows := 1 |}.

Definition targetX : Target :=
  {| Keyspace := "ks"; Shard := "-80"; TabletType_ := TabletType_PRIMARY |}.
Definition targetY : Target :=
  {| Keyspace := "ks"; Shard := "80-"; TabletType_ := TabletType_PRIMARY |}.

(** the gateway as a handle: any live tablet *)
Definition gateway : @QueryService env := (None : option TabletAlias).

Definition shardX : @ResolvedShard env :=
  {| rs_TargetAddr := 1%positive; rs_Target := targetX; rs_Gateway := gateway |}.
Definition shardY : @ResolvedShard env :=
  {| rs_TargetAddr := 2%positive; rs_Target := targetY; rs_Gateway := gateway |}.

Definition select1 : BoundQuery := {| Sql := "select 1"; BindVariables := [] |}.
Definition abort : BoundQuery := {| Sql := "abort"; BindVariables := [] |}.

(** a session outside any transaction and without reserved connection *)
Definition plain : SafeSession :=
  {| inTransaction := false; inReservedConn := false; ShardSessions := [];
     mustRollback := false; LockSession := None;
     preQueries := []; savePoints := [] |}.

(** a session in a transaction, nothing begun yet *)
Definition inTx : SafeSession :=
  {| inTransaction := true; inReservedConn := false; ShardSessions := [];
     mustRollback := false; LockSession := None;
     preQueries := []; savePoints := [] |}.

(** a session with reserved connection 42 on the tablet of cell "a" for
    shard -80 *)
Definition reservedOnA : SafeSession :=
  {| inTransaction := false; inReservedConn := true;
     ShardSessions :=
       [{| ss_Target := targetX; ss_TransactionId := 0; ss_ReservedId := 42;
           ss_TabletAlias := Some aliasA |}];
     mustRollback := false; LockSession := None;
     preQueries := ["set @x = 1"]; savePoints := [] |}.

(** a session in a transaction with transaction 5 open on shard -80 *)
Definition txOnB : SafeSession :=
  {| inTransaction := true; inReservedConn := false;
     ShardSessions :=
       [{| ss_Target := targetX; ss_TransactionId := 5; ss_ReservedId := 0;
           ss_TabletAlias := Some aliasB |}];
     mustRollback := false; LockSession := None;
     preQueries := []; savePoints := [] |}.

(** a session in a transaction whose rollback flag is already up *)
Definition flagged : SafeSession :=
  {| inTransaction := true; inReservedConn := false;
     ShardSessions :=
       [{| ss_Target := targetX; ss_TransactionId := 5; ss_ReservedId := 0;
           ss_TabletAlias := Some aliasB |}];
     mustRollback := true; LockSession := None;
     preQueries := []; savePoints := [] |}.

Definition start (s : SafeSession) : @State env :=
  {| world := (O : @World env); session := s; trace := []; allErrors := [];
     qr := new_Result |}.

Definition streamStart : @StreamState env :=
  {| sm_world := (O : @World env); sm_fieldSent := false; sm_delivered := [];
     sm_lastErrors := ∅; sm_cancelled := false |}.

(** a callback that counts its invocations *)
Definition count : @Callback env := λ _ (w : nat), (S w, None).

(** the handle of the tablet of cell "a" *)
Definition onA : @QueryService env := Some aliasA.

(** what actionInfo finds for shard -80 in [reservedOnA]: nothing to
    do, on reserved connection 42 of the tablet of cell "a" *)
Definition infoOnA : shardActionInfo :=
  {| sai_actionNeeded := nothing; sai_reservedID := 42;
     sai_transactionID := 0; sai_alias := Some aliasA |}.

(** what actionInfo finds for shard -80 in [txOnB] *)
Definition infoTx5 : shardActionInfo :=
  {| sai_actionNeeded := nothing; sai_reservedID := 0;
     sai_transactionID := 5; sai_alias := Some aliasB |}.

(** the accumulated result already holds as many rows as the cap
    allows *)
Definition atCap : @State env :=
  {| world := (O : @World env); session := plain; trace := []; allErrors := [];
     qr := oneRow |}.

(** a result with a schema and no row, and one with a row and no
    schema *)
Definition fieldsOnly : Result :=
  {| Fields := ["id"]; Rows := []; RowsAffected := 0; InsertID := 0 |}.
Definition rowsOnly : Result :=
  {| Fields := []; Rows := [["2"]]; RowsAffected := 0; InsertID := 0 |}.

(** a stream that ends with UNAVAILABLE; the clock reads 100 then 101 *)
Definition demoted : Attempt :=
  {| at_results := []; at_err := Some (VtError Code_UNAVAILABLE "tablet demoted");
     at_parentDone := false; at_now := 100; at_nowSince := 101;
     at_parentDoneWaiting := false |}.

(** the same end, 31 seconds after the first failure *)
Definition demotedLate : Attempt :=
  {| at_results := []; at_err := Some (VtError Code_UNAVAILABLE "tablet demoted");
     at_parentDone := false; at_now := 100; at_nowSince := 100 + 31 * 1000000000;
     at_parentDoneWaiting := false |}.

End Fixture.

(** ** Vocabulary of the properties *)

(** what the session has stored for a target *)
Definition storedTransactionID (s : SafeSession) (t : Target) : Z :=
  (Session.Find s (Keyspace t) (Shard t) (TabletType_ t)).1.1.
Definition storedReservedID (s : SafeSession) (t : Target) : Z :=
  (Session.Find s (Keyspace t) (Shard t) (TabletType_ t)).1.2.
Definition storedAlias (s : SafeSession) (t : Target) : option TabletAlias :=
  (Session.Find s (Keyspace t) (Shard t) (TabletType_ t)).2.

(** the codes for which a shard error asks for a rollback *)
Definition asksRollback (e : error) : Prop :=
  vterrors_Code e = Code_RESOURCE_EXHAUSTED ∨ vterrors_Code e = Code_ABORTED.

(** what holds of the funnel at any time, when it starts with the flag
    down: nothing was delivered while the flag is down; once it is up,
    the first delivered result has a schema and the later ones have
    rows *)
Definition funnelInv {env : Environment} (st : StreamState) : Prop :=
  (sm_fieldSent st = false ∧ sm_delivered st = [])
  ∨ (sm_fieldSent st = true
     ∧ ∃ first later, sm_delivered st = first :: later
         ∧ Fields first ≠ [] ∧ Forall (λ r, Rows r ≠ []) later).

(** the endings of a message stream that the loop treats as transient:
    nil, io.EOF, or an error of code UNAVAILABLE *)
Definition transientEnd (err : option error) : Prop :=
  err = None ∨ err = Some io_EOF
  ∨ ∃ e, err = Some e ∧ vterrors_Code e = Code_UNAVAILABLE.

(** the time of the first failure of a target that no delivery has reset
    since: the recorded one, or the present one *)
Definition firstFailure {env : Environment} (rs : ResolvedShard) (now : Z)
    (st : StreamState) : Z :=
  default now (sm_lastErrors st !! rs_TargetAddr rs).

(** *** The two shard closures, side by side *)

(** the tablet behind a call: plain, or streaming into [callback] *)
Definition oracle {env : Environment} (streaming : bool) (callback : Callback)
    : QueryService → Target → BoundQuery → TabletCall → World → World * Reply :=
  if streaming then λ qs target q c, tabletStream qs target q c callback
  else tablet.

Definition switchOf {env : Environment} (streaming : bool) (callback : Callback)
    : ResolvedShard → BoundQuery → Locals → M Locals :=
  if streaming then streamSwitch callback else executeSwitch.

(** the tablet call a branch of the switch issues first *)
Definition firstCall (info : shardActionInfo) (s : SafeSession) : TabletCall :=
  match sai_actionNeeded info with
  | nothing => CallExecute (sai_transactionID info) (sai_reservedID info)
  | begin => CallBeginExecute (Session.SavePoints s) (sai_reservedID info)
  | reserve => CallReserveExecute (Session.SetPreQueries s) (sai_transactionID info)
  | reserveBegin =>
      CallReserveBeginExecute (Session.SetPreQueries s) (Session.SavePoints s)
  end.

(** the call that replaces a failed Execute or BeginExecute *)
Definition retryCall (info : shardActionInfo) (s : SafeSession) : TabletCall :=
  match sai_actionNeeded info with
  | nothing => CallReserveExecute (Session.SetPreQueries s) 0
  | _ => CallReserveBeginExecute (Session.SetPreQueries s) (Session.SavePoints s)
  end.

(** nothing→reserve, begin→reserveBegin *)
Definition upgrade (a : actionNeeded) : actionNeeded :=
  match a with
  | nothing => reserve
  | begin => reserveBegin
  | a => a
  end.

(** the condition of the transparent retry, in the words of the spec: a
    reserved connection without transaction, and an error that means
    connection closed or new tablet required *)
Definition retryAllowed {env : Environment} (info : shardActionInfo) (e : error)
    (target : Target) : bool :=
  negb (sai_reservedID info =? 0) && (sai_transactionID info =? 0)
  && (wasConnectionClosed e || requireNewQS e (Some target)).

(** whether a run of the switch retries: only after a failed first call
    of the nothing and begin branches *)
Definition retried {env : Environment} (info : shardActionInfo)
    (firstErr : option error) (target : Target) : bool :=
  match sai_actionNeeded info, firstErr with
  | (nothing | begin), Some e => retryAllowed info e target
  | _, _ => false
  end.

(** the handle of the retry *)
Definition retryHandle {env : Environment} (rs : ResolvedShard) (qs : QueryService)
    (firstErr : option error) : QueryService :=
  match firstErr with
  | Some e => if requireNewQS e (Some (rs_Target rs)) then rs_Gateway rs else qs
  | None => qs
  end.

(** the state after a tablet call, and its reply *)
Definition stepCall {env : Environment} (streaming : bool) (callback : Callback)
    (qs : QueryService) (target : Target) (q : BoundQuery) (c : TabletCall)
    (st : State) : State * Reply :=
  let '(w, rp) := oracle streaming callback qs target q c (world st) in
  ({| world := w; session := session st;
      trace := trace st ++ [EvTablet streaming qs target q c];
      allErrors := allErrors st; qr := qr st |}, rp).

(** the state after ResetShard *)
Definition stepReset {env : Environment} (alias : option TabletAlias) (st : State)
    : State :=
  {| world := world st; session := Session.ResetShard alias (session st);
     trace := trace st ++ [EvResetShard alias];
     allErrors := allErrors st; qr := qr st |}.

(** the identifiers and alias the closure holds after a reply to call
    [c], when it held [tx], [rid] and [alias] before *)
Definition idsAfter (c : TabletCall) (rp : Reply) (tx rid : Z)
    (alias : option TabletAlias) : Z * Z * option TabletAlias :=
  match c with
  | CallExecute _ _ => (tx, rid, alias)
  | CallBeginExecute _ _ => (rp_transactionID rp, rid, rp_alias rp)
  | CallReserveExecute _ _ => (tx, rp_reservedID rp, rp_alias rp)
  | CallReserveBeginExecute _ _ => (rp_transactionID rp, rp_reservedID rp, rp_alias rp)
  end.

(** the result variable [innerqr] after a reply: the streaming closure
    has none *)
Definition innerqrAfter (streaming : bool) (rp : Reply) : Result :=
  if streaming then new_Result else rp_result rp.

(** the function literal of ExecuteMultiShard or of StreamExecuteMulti *)
Inductive Closure {env : Environment} :=
| ofExecute (queries : list BoundQuery) (ignoreMaxMemoryRows : bool)
| ofStream (query : string) (bindVars : list (list (string * string)))
           (callback : Callback).

Definition closureOf {env : Environment} (c : Closure) (autocommit : bool)
    : shardActionTransactionFunc :=
  match c with
  | ofExecute queries ignoreMaxMemoryRows =>
      executeShard queries autocommit ignoreMaxMemoryRows
  | ofStream query bindVars callback =>
      streamShard query bindVars autocommit callback
  end.

Definition streamingOf {env : Environment} (c : Closure) : bool :=
  match c with
  | ofExecute _ _ => false
  | ofStream _ _ _ => true
  end.

Definition callbackOf {env : Environment} (c : Closure) : Callback :=
  match c with
  | ofExecute _ _ => λ _ w, (w, None)
  | ofStream _ _ callback => callback
  end.

(** the statement of shard [i]: [queries[i]], or [query] with
    [bindVars[i]] *)
Definition queryAt {env : Environment} (c : Closure) (i : nat) : option BoundQuery :=
  match c with
  | ofExecute queries _ => queries !! i
  | ofStream query bindVars _ =>
      (λ bv, {| Sql := query; BindVariables := bv |}) <$> bindVars !! i
  end.

(** how many shards the arguments of the closure cover *)
Definition argsLength {env : Environment} (c : Closure) : nat :=
  match c with
  | ofExecute queries _ => length queries
  | ofStream _ bindVars _ => length bindVars
  end.

(** what getQueryService returns in a given world *)
Definition handleFor {env : Environment} (rs : ResolvedShard)
    (info : shardActionInfo) (w : World) : QueryService + error :=
  match sai_alias info with
  | None => inl (rs_Gateway rs)
  | Some alias => QueryServiceByAlias (rs_Gateway rs) alias (rs_Target rs) w
  end.

(** the end of a closure after the switch: the accumulated result takes
    the rows of a successful call of ExecuteMultiShard *)
Definition finish {env : Environment} (c : Closure) (v : Locals) (st : State) : State :=
  match c, l_err v with
  | ofExecute _ ignoreMaxMemoryRows, None =>
      {| world := world st; session := session st; trace := trace st;
         allErrors := allErrors st;
         qr := appendShardResult ignoreMaxMemoryRows (qr st) (l_innerqr v) |}
  | _, _ => st
  end.

(** What a closure does to the outside, for the handle it was given: no
    event (refused before any call), one tablet call on the handle, or
    one call on the handle, the reset of the shard session and a second
    call; the session only changes by that reset. *)
Inductive closureDid {env : Environment} (rs : ResolvedShard)
    (info : shardActionInfo) (handle : QueryService + error) (s : SafeSession)
    : list Event → SafeSession → Prop :=
| did_nothing : closureDid rs info handle s [] s
| did_one streaming qs q c :
    handle = inl qs →
    closureDid rs info handle s [EvTablet streaming qs (rs_Target rs) q c] s
| did_retry streaming qs q c qs' c' :
    handle = inl qs →
    closureDid rs info handle s
      [EvTablet streaming qs (rs_Target rs) q c;
       EvResetShard (sai_alias info);
       EvTablet streaming qs' (rs_Target rs) q c']
      (Session.ResetShard (sai_alias info) s).

(** every tablet call before the first reset of the shard session is
    issued on the handle [qs] *)
Fixpoint pinnedUntilReset {env : Environment} (qs : QueryService)
    (evs : list Event) : Prop :=
  match evs with
  | [] => True
  | EvTablet _ qs' _ _ _ :: evs' => qs' = qs ∧ pinnedUntilReset qs evs'
  | EvResetShard _ :: _ => True
  | _ :: evs' => pinnedUntilReset qs evs'
  end.

(** [asksRollback], as a test *)
Definition asksRollbackb (e : error) : bool :=
  bool_decide (vterrors_Code e = Code_RESOURCE_EXHAUSTED)
  || bool_decide (vterrors_Code e = Code_ABORTED).

(** the sessions handed to TxConn.Rollback along a trace *)
Definition rollbacksOf {env : Environment} (tr : list Event) : list SafeSession :=
  omap (λ e, match e with EvRollback s => Some s | _ => None end) tr.

(** the records handed to AppendOrUpdate along a trace *)
Definition appendOrUpdates {env : Environment} (tr : list Event) : list ShardSession :=
  omap (λ e, match e with EvAppendOrUpdate ss => Some ss | _ => None end) tr.

(** the record [oneShard] builds from an updated info *)
Definition shardSessionOf {env : Environment} (rs : ResolvedShard)
    (updated : shardActionInfo) : ShardSession :=
  {| ss_Target := rs_Target rs;
     ss_TransactionId := sai_transactionID updated;
     ss_ReservedId := sai_reservedID updated;
     ss_TabletAlias := sai_alias updated |}.

(** the record that [oneShard] hands to AppendOrUpdate, if any *)
Definition recorded {env : Environment} (rs : ResolvedShard)
    (updated : option shardActionInfo) : option ShardSession :=
  match updated with
  | Some u => if mustRecord u then Some (shardSessionOf rs u) else None
  | None => None
  end.

(** every recorded error that asks for a rollback has raised the flag *)
Definition flagFollowsErrors {env : Environment} (st : State) : Prop :=
  ∀ e, e ∈ allErrors st → asksRollback e →
       Session.MustRollback (session st) = true.

(** the state in which the closures of multiGoTransaction start: a fresh
    error recorder *)
Definition clearErrors {env : Environment} (st : State) : State :=
  {| world := world st; session := session st; trace := trace st;
     allErrors := []; qr := qr st |}.

(** the state after TxConn.Rollback *)
Definition rollbackState {env : Environment} (st : State) : State :=
  {| world := (txConn_Rollback (session st) (world st)).1;
     session := (txConn_Rollback (session st) (world st)).2;
     trace := trace st ++ [EvRollback (session st)];
     allErrors := allErrors st; qr := qr st |}.

(** the reply of the last tablet call of a run of the switch *)
Definition lastReply {env : Environment} (streaming : bool) (callback : Callback)
    (rs : ResolvedShard) (q : BoundQuery) (info : shardActionInfo)
    (qs : QueryService) (st : State) : Reply :=
  let c1 := firstCall info (session st) in
  let r1 := stepCall streaming callback qs (rs_Target rs) q c1 st in
  if retried info (rp_err r1.2) (rs_Target rs) then
    (stepCall streaming callback (retryHandle rs qs (rp_err r1.2)) (rs_Target rs) q
       (retryCall info (session st)) (stepReset (sai_alias info) r1.1)).2
  else r1.2.

(** the number of rows of the accumulated result *)
Definition rowCount {env : Environment} (st : State) : Z :=
  Z.of_nat (length (Rows (qr st))).

(** ** The lock executor *)

(** Modelled from the spec: vterrors.Wrap (package vterrors is not among
    the sources) keeps the code of the error it wraps and puts the
    message in front. *)
Definition vterrors_Wrap (err : error) (msg : string) : error :=
  VtError (vterrors_Code err) (msg +:+ ": " +:+ error_Error err).

Definition withLockSession (s : SafeSession) (l : option ShardSession) : SafeSession :=
  {| inTransaction := inTransaction s;
     inReservedConn := inReservedConn s;
     ShardSessions := ShardSessions s;
     mustRollback := mustRollback s;
     LockSession := l;
     preQueries := preQueries s;
     savePoints := savePoints s |}.

(** Modelled from the spec: SafeSession.ResetLock drops the lock
    session. *)
Definition Session_ResetLock (s : SafeSession) : SafeSession :=
  withLockSession s None.

(** Modelled from the spec: SafeSession.SetLockSession makes the record
    the lock session. *)
Definition Session_SetLockSession (ls : ShardSession) (s : SafeSession) : SafeSession :=
  withLockSession s (Some ls).

Definition errLockTarget : error :=
  VtError Code_NOT_FOUND "target does match the existing lock session target".

(** lockInfo looks at the current session, and returns information about
    what needs to be done for this tablet *)
Definition lockInfo (target : Target) (session : SafeSession) : shardActionInfo + error :=
  match LockSession session with
  | None =>
      inl {| sai_actionNeeded := reserve; sai_reservedID := 0;
             sai_transactionID := 0; sai_alias := None |}
  | Some ls =>
      if bool_decide (target ≠ ss_Target ls) then inr errLockTarget
      else inl {| sai_actionNeeded := nothing;
                  sai_reservedID := ss_ReservedId ls;
                  sai_transactionID := 0;
                  sai_alias := ss_TabletAlias ls |}
  end.

(** What the lock executor calls besides the tablets. *)
Class LockEnvironment (env : Environment) := {
  (** TxConn.ReleaseLock(ctx, session) *)
  ReleaseLock : SafeSession → World → World * SafeSession;
  (** SafeSession.UpdateLockHeartbeat(): the timestamp is kept with the
      clock, in the world, where TriggerLockHeartBeat reads it. *)
  UpdateLockHeartbeat : World → World }.

Section Lock.

Context {env : Environment} {lk : LockEnvironment env}.

Definition releaseLock : M unit := λ st,
  let '(w, s) := ReleaseLock (session st) (world st) in
  Ret {| world := w; session := s; trace := trace st;
         allErrors := allErrors st; qr := qr st |} tt.

Definition updateLockHeartbeat : M unit := λ st,
  Ret {| world := UpdateLockHeartbeat (world st); session := session st;
         trace := trace st; allErrors := allErrors st; qr := qr st |} tt.

(** Modelled from the spec: SafeSession.SetLockSession makes the record
    the lock session and stamps the heartbeat ("every successful lock call
    updates a heartbeat timestamp"). *)
Definition setLockSession (ls : ShardSession) : M unit :=
  modifySession (Session_SetLockSession ls);;
  updateLockHeartbeat.

(** runs [m] on an error recorder of its own: [allErrors] of ExecuteLock
    is local *)
Definition withOwnRecorder {A : Type} (m : M A) : M A := λ st,
  match m {| world := world st; session := session st; trace := trace st;
             allErrors := []; qr := qr st |} with
  | Ret st' a =>
      Ret {| world := world st'; session := session st'; trace := trace st';
             allErrors := allErrors st; qr := qr st' |} a
  | Panic => Panic
  end.

Definition errNilSession : error :=
  VtError Code_INTERNAL "session cannot be nil".

Definition errReservedZero (reservedID : Z) : error :=
  VtError Code_INTERNAL ("[BUG] reserved id zero not expected " +:+ pretty reservedID).

Definition errLockAction : error :=
  VtError Code_INTERNAL "[BUG] unexpected actionNeeded on lock execution".

(** the end of ExecuteLock: [if err != nil { return nil, err }; return qr, err] *)
Definition lockReturn (r : Result) (err : option error)
    : option Result * option error * option error :=
  match err with
  | Some e => (None, Some e, Some e)
  | None => (Some r, None, None)
  end.

(** The body of ExecuteLock.  It yields the result, the error returned,
    and the value the variable [err] holds when the function returns: the
    deferred endAction reads that variable, which the [return] statements
    that build their error in place do not assign.  [hasSession] is
    [session != nil && session.Session != nil]. *)
Definition lockBody (hasSession : bool) (rs : ResolvedShard) (query : BoundQuery)
    : M (option Result * option error * option error) :=
  if negb hasSession then mret (None, Some errNilSession, None)
  else
    s ← getSession;
    match lockInfo (rs_Target rs) s with
    | inr err =>
        (* we will try to release old locks and return error *)
        releaseLock;;
        mret (None, Some (vterrors_Wrap err "Any previous held locks are released"),
              Some err)
    | inl info =>
        r ← getQueryService rs info;
        match r with
        | inr err => mret (None, Some err, Some err)
        | inl qs =>
            let reservedID := sai_reservedID info in
            match sai_actionNeeded info with
            | nothing =>
                if reservedID =? 0 then
                  mret (None, Some (errReservedZero reservedID), None)
                else
                  '(r, err) ← Execute qs (rs_Target rs) query 0 reservedID;
                  err ← match err with
                        | Some e =>
                            if wasConnectionClosed e then
                              modifySession Session_ResetLock;;
                              mret (Some (vterrors_Wrap e "held locks released"))
                            else mret err
                        | None => mret err
                        end;
                  updateLockHeartbeat;;
                  mret (lockReturn r err)
            | reserve =>
                s ← getSession;
                '(r, reservedID, alias, err) ←
                  ReserveExecute qs (rs_Target rs) (Session.SetPreQueries s) query 0;
                (if bool_decide (is_Some err) && negb (reservedID =? 0)
                 then releaseLock else mret tt);;
                (if negb (reservedID =? 0) then
                   setLockSession
                     {| ss_Target := rs_Target rs; ss_TransactionId := 0;
                        ss_ReservedId := reservedID; ss_TabletAlias := alias |}
                 else mret tt);;
                mret (lockReturn r err)
            | _ => mret (None, Some errLockAction, None)
            end
        end
    end.

(** ExecuteLock performs the requested action on the specified
    ResolvedShard; the deferred endAction comes last. *)
Definition ExecuteLock (hasSession : bool) (rs : ResolvedShard) (query : BoundQuery)
    : M (option Result * option error) :=
  '(r, ret, err) ← lockBody hasSession rs query;
  withOwnRecorder (endAction (startAction "ExecuteLock" (rs_Target rs)) err);;
  mret (r, ret).

(** runLockQuery: the keep-alive [select 1] on the shard of the lock
    session; reading [session.LockSession.Target] without a lock session
    is a nil dereference.  [addr] is the address of the lock session's
    Target, and [gateway] is [stc.gateway]. *)
Definition runLockQuery (gateway : QueryService) (addr : positive) : M unit :=
  s ← getSession;
  match LockSession s with
  | None => λ _, Panic
  | Some ls =>
      let rs := {| rs_TargetAddr := addr; rs_Target := ss_Target ls;
                   rs_Gateway := gateway |} in
      let query := {| Sql := "select 1"; BindVariables := [] |} in
      ExecuteLock true rs query;;
      mret tt
  end.

End Lock.

(** ** Further vocabulary *)

(** a non-empty run of characters of the class [a-z0-9:] *)
Fixpoint allId (s : string) : bool :=
  match s with
  | EmptyString => true
  | String c s' => txClosed.idChar c && allId s'
  end.

(** the language of the pattern, anchored: the word, an identifier and
    one of the two endings *)
Definition txClosedAt (s : string) : Prop :=
  ∃ id suf, allId id = true ∧ id ≠ EmptyString
    ∧ (s = "transaction " +:+ id +:+ " ended" +:+ suf
       ∨ s = "transaction " +:+ id +:+ " not found" +:+ suf).

(** the tablet calls along a trace *)
Definition tabletEvents {env : Environment} (tr : list Event)
    : list (bool * QueryService * Target * BoundQuery * TabletCall) :=
  omap (λ e, match e with
             | EvTablet s qs t q c => Some (s, qs, t, q, c)
             | _ => None
             end) tr.

(** the error counter is not incremented for duplicate keys or bad
    queries *)
Definition counted (e : error) : bool :=
  bool_decide (vterrors_Code e ≠ Code_ALREADY_EXISTS)
  && bool_decide (vterrors_Code e ≠ Code_INVALID_ARGUMENT).

(** the state [endAction] leaves *)
Definition endState {env : Environment} (statsKey : list string)
    (err : option error) (st : State) : State :=
  match err with
  | None => st
  | Some e =>
      {| world := world st;
         session := if asksRollbackb e then Session.SetRollback (session st)
                    else session st;
         trace := trace st
                  ++ (if counted e then [EvErrorCount statsKey] else [])
                  ++ (if asksRollbackb e then [EvSetRollback] else []);
         allErrors := allErrors st ++ [e];
         qr := qr st |}
  end.

(** the one tablet call the lock executor may issue: a reserve when there
    is no lock session, else Execute on the reserved connection of the
    lock session; never inside a transaction *)
Definition lockCall (s : SafeSession) (c : TabletCall) : Prop :=
  match LockSession s with
  | None => c = CallReserveExecute (Session.SetPreQueries s) 0
  | Some ls => c = CallExecute 0 (ss_ReservedId ls) ∧ ss_ReservedId ls ≠ 0
  end.

(** the resets of shard sessions along a trace *)
Definition resetsOf {env : Environment} (tr : list Event) : list (option TabletAlias) :=
  omap (λ e, match e with EvResetShard a => Some a | _ => None end) tr.

(** the increments of the tablet error counter along a trace *)
Definition errorCountsOf {env : Environment} (tr : list Event) : list (list string) :=
  omap (λ e, match e with EvErrorCount k => Some k | _ => None end) tr.

(** the call runs inside a transaction, or opens one *)
Definition transactional (c : TabletCall) : bool :=
  match c with
  | CallExecute tx _ => negb (tx =? 0)
  | CallBeginExecute _ _ => true
  | CallReserveExecute _ tx => negb (tx =? 0)
  | CallReserveBeginExecute _ _ => true
  end.

(** the state and the error [oneShard] has before its deferred
    [endAction], after a closure that left [st1] and returned [updated]
    and [err] *)
Definition afterRecord {env : Environment} (rs : ResolvedShard)
    (updated : option shardActionInfo) (err : option error) (st1 : State)
    : State * option error :=
  match recorded rs updated with
  | Some ss =>
      let r := Session.AppendOrUpdate ss txConn_mode (session st1) in
      ({| world := world st1; session := r.1;
          trace := trace st1 ++ [EvAppendOrUpdate ss];
          allErrors := allErrors st1; qr := qr st1 |},
       match r.2 with
       | Some e => Some e
       | None => err
       end)
  | None => (st1, err)
  end.

(** the session is outside any transaction and needs no reserved
    connection *)
Definition plainSession (s : SafeSession) : Prop :=
  Session.InTransaction s = false ∧ Session.InReservedConn s = false.

(** the tablet calls of a scatter over a plain session: for each shard
    that has its statement, one Execute on the gateway, with no
    transaction and no reserved connection *)
Definition plainCalls {env : Environment} (c : Closure)
    (sched : list (nat * ResolvedShard))
    : list (bool * QueryService * Target * BoundQuery * TabletCall) :=
  omap (λ '(i, rs),
          (λ q, (streamingOf c, rs_Gateway rs, rs_Target rs, q, CallExecute 0 0))
            <$> queryAt c i) sched.

(** the result carries rows; the result carries a schema *)
Definition hasRows (r : Result) : bool := negb (Nat.eqb (length (Rows r)) 0).
Definition hasFields (r : Result) : bool := negb (Nat.eqb (length (Fields r)) 0).

(** what is left of a sequence of results from its first schema on: that
    result, and of the later ones those with rows *)
Fixpoint fromFirstSchema (rs : list Result) : list Result :=
  match rs with
  | [] => []
  | r :: rs' =>
      if hasFields r then r :: List.filter hasRows rs' else fromFirstSchema rs'
  end.

(** a pass of the message stream loop that delivers nothing, ends in a
    transient way and finds the context of the caller alive *)
Definition barren {env : Environment} (a : Attempt) : Prop :=
  at_results a = [] ∧ transientEnd (at_err a)
  ∧ at_parentDone a = false ∧ at_parentDoneWaiting a = false.

(** ** Further scenarios *)

Module Scenario.

Import Fixture.

(** ReleaseLock drops the lock session; the heartbeat is stamped by
    advancing the world *)
Definition lk : LockEnvironment env :=
  {| ReleaseLock :=
       (λ s w, (S w, withLockSession s None))
         : SafeSession → @World env → @World env * SafeSession;
     UpdateLockHeartbeat := S : @World env → @World env |}.

(** a session that holds its lock session on reserved connection 42 of
    the tablet of cell "a", for shard -80 *)
Definition lockedOnA : SafeSession :=
  {| inTransaction := false; inReservedConn := false; ShardSessions := [];
     mustRollback := false;
     LockSession :=
       Some {| ss_Target := targetX; ss_TransactionId := 0; ss_ReservedId := 42;
               ss_TabletAlias := Some aliasA |};
     preQueries := []; savePoints := [] |}.

(** a session with reserved connection 42 for shard -80 whose shard
    session records no tablet alias *)
Definition reservedNoAlias : SafeSession :=
  {| inTransaction := false; inReservedConn := true;
     ShardSessions :=
       [{| ss_Target := targetX; ss_TransactionId := 0; ss_ReservedId := 42;
           ss_TabletAlias := None |}];
     mustRollback := false; LockSession := None;
     preQueries := []; savePoints := [] |}.

(** a tablet whose BeginExecute opens transaction 9 and fails *)
Definition answerHalf (qs : option TabletAlias) (target : Target) (q : BoundQuery)
    (c : TabletCall) (w : nat) : nat * Reply :=
  (S w,
   match c with
   | CallBeginExecute _ rid =>
       {| rp_result := new_Result; rp_transactionID := 9; rp_reservedID := rid;
          rp_alias := Some aliasB; rp_err := Some errAborted |}
   | _ => reply c
   end).

Definition envHalf : Environment :=
  {| World := nat;
     QueryService := option TabletAlias;
     tablet := answerHalf;
     tabletStream := λ qs target q c _ w, answerHalf qs target q c w;
     QueryServiceByAlias := λ _ alias _ _, inl (Some alias);
     txConn_Rollback := λ s w, (w, Session.withShardSessions s []);
     txConn_mode := TransactionMode_MULTI;
     TriggerLockHeartBeat := λ _ _, false;
     NewSQLErrorFromError := λ e,
       {| sql_Number := 1105; sql_Error := error_Error e |};
     RxWrongTablet_MatchString := λ _, false;
     RxOp_MatchString := λ _, false;
     maxMemoryRows := 1 |}.

Definition gatewayHalf : @QueryService envHalf := (None : option TabletAlias).

Definition shardHalf : @ResolvedShard envHalf :=
  {| rs_TargetAddr := 1%positive; rs_Target := targetX;
     rs_Gateway := gatewayHalf |}.

Definition startHalf (s : SafeSession) : @State envHalf :=
  {| world := (O : @World envHalf); session := s; trace := []; allErrors := [];
     qr := new_Result |}.

(** a stream that delivers one row and then breaks *)
Definition brokenAfterRow : Attempt :=
  {| at_results := [oneRow]; at_err := Some errAborted;
     at_parentDone := false; at_now := 100; at_nowSince := 101;
     at_parentDoneWaiting := false |}.

End Scenario.

Section Properties.

Context {env : Environment}.

(** *** Action selection *)

Lemma actionInfo_ids target session autocommit :
  Session.InTransaction session || Session.InReservedConn session = true →
  sai_transactionID (actionInfo target session autocommit) = storedTransactionID session target
  ∧ sai_reservedID (actionInfo target session autocommit) = storedReservedID session target
  ∧ sai_alias (actionInfo target session autocommit) = storedAlias session target.
Proof.
  unfold actionInfo, storedTransactionID, storedReservedID, storedAlias.
  intros ->. simpl.
  destruct (Session.Find _ _ _ _) as [[tx rid] al]. done.
Qed.

(** C1. actionInfo selects the action from two conditions, [shouldBegin]
    (the session is in a transaction, the stored transaction ID of the
    shard is zero, autocommit is false) and [shouldReserve] (the session
    needs reserved connections, the stored reserved ID of the shard is
    zero): a transaction is opened iff [shouldBegin], a connection is
    reserved iff [shouldReserve], the action is reserveBegin iff both
    hold, begin iff only the first, reserve iff only the second, and
    nothing iff neither. *)
Theorem C1_actionInfo_selects (target : Target) (session : SafeSession)
    (autocommit : bool) :
  let act := sai_actionNeeded (actionInfo target session autocommit) in
  let shouldBegin :=
    Session.InTransaction session = true
    ∧ storedTransactionID session target = 0
    ∧ autocommit = false in
  let shouldReserve :=
    Session.InReservedConn session = true
    ∧ storedReservedID session target = 0 in
  (opensTransaction act ↔ shouldBegin)
  ∧ (reservesConnection act ↔ shouldReserve)
  ∧ (act = reserveBegin ↔ shouldBegin ∧ shouldReserve)
  ∧ (act = begin ↔ shouldBegin ∧ ¬ shouldReserve)
  ∧ (act = reserve ↔ shouldReserve ∧ ¬ shouldBegin)
  ∧ (act = nothing ↔ ¬ shouldBegin ∧ ¬ shouldReserve).
Proof.
  unfold actionInfo, storedTransactionID, storedReservedID,
    opensTransaction, reservesConnection.
  destruct (Session.Find _ _ _ _) as [[tx rid] al]; simpl.
  destruct (Session.InTransaction session), (Session.InReservedConn session),
    autocommit, (Z.eqb_spec tx 0), (Z.eqb_spec rid 0); simpl;
    intuition (congruence || discriminate).
Qed.

(** *** The autocommit check *)

(** C7. With autocommit set, a shard closure of ExecuteMultiShard or of
    StreamExecuteMulti whose incoming transaction ID is not zero returns
    the FAILED_PRECONDITION error and leaves the state as it was (no
    tablet call); with a zero transaction ID the check does not fire:
    the closure does what it does without autocommit. *)
Theorem C7_autocommit_precondition (queries : list BoundQuery)
    (ignoreMaxMemoryRows : bool) (query : string)
    (bindVars : list (list (string * string))) (callback : Callback)
    (rs : ResolvedShard) (i : nat) (info : shardActionInfo) (st : State) :
  (sai_transactionID info ≠ 0 →
     executeShard queries true ignoreMaxMemoryRows rs i info st
     = Ret st (None, Some (errAutocommit (sai_transactionID info)))
     ∧ streamShard query bindVars true callback rs i info st
       = Ret st (None, Some (errAutocommit (sai_transactionID info)))
     ∧ vterrors_Code (errAutocommit (sai_transactionID info))
       = Code_FAILED_PRECONDITION)
  ∧ (sai_transactionID info = 0 →
     executeShard queries true ignoreMaxMemoryRows rs i info st
     = executeShard queries false ignoreMaxMemoryRows rs i info st
     ∧ streamShard query bindVars true callback rs i info st
       = streamShard query bindVars false callback rs i info st).
Proof.
  unfold executeShard, streamShard. split.
  - intros Hne. apply Z.eqb_neq in Hne. rewrite Hne. simpl. done.
  - intros ->. simpl. done.
Qed.

(** *** The streaming funnel *)

Lemma length_eqb_0 {A} (l : list A) : Nat.eqb (length l) 0 = bool_decide (l = []).
Proof. by destruct l. Qed.

Lemma funnelInv_step callback r st :
  funnelInv st → funnelInv (processOneStreamingResult callback r st).1.
Proof.
  unfold processOneStreamingResult, invoke, funnelInv.
  intros [[Hf Hd] | [Hf (first & later & Hd & Hfirst & Hlater)]]; rewrite Hf.
  - rewrite length_eqb_0. case_bool_decide as Hr; simpl; [by left |].
    destruct (callback r (sm_world st)) as [w err]. simpl. right.
    split; [done |]. exists r, []. rewrite Hd. by repeat split.
  - rewrite length_eqb_0. case_bool_decide as Hr; simpl.
    + right. split; [done |]. by exists first, later.
    + destruct (callback r (sm_world st)) as [w err]. simpl. right.
      split; [done |]. exists first, (later ++ [r])%list. rewrite Hd.
      repeat split; [done |]. apply Forall_app. split; [done |].
      by constructor.
Qed.

Lemma funnelInv_all callback rs st :
  funnelInv st → funnelInv (processAll callback rs st).
Proof.
  unfold processAll. revert st.
  induction rs as [| r rs IH]; intros st Hst; simpl; [done |].
  apply IH. by apply funnelInv_step.
Qed.

(** C8. Through processOneStreamingResult, starting with the flag down
    and nothing delivered: the first result handed to the callback has
    a non-empty schema (and every later one has rows); once the flag is
    up a result without rows is dropped, the callback is not run; a
    result without schema while the flag is down gives the INTERNAL
    error, the callback is not run. *)
Theorem C8_streaming_funnel (callback : Callback) :
  (∀ (rs : list Result) (st : StreamState),
      sm_fieldSent st = false → sm_delivered st = [] →
      match sm_delivered (processAll callback rs st) with
      | [] => True
      | first :: later => Fields first ≠ [] ∧ Forall (λ r, Rows r ≠ []) later
      end)
  ∧ (∀ (r : Result) (st : StreamState),
      sm_fieldSent st = true → Rows r = [] →
      processOneStreamingResult callback r st = (st, None))
  ∧ (∀ (r : Result) (st : StreamState),
      sm_fieldSent st = false → Fields r = [] →
      processOneStreamingResult callback r st = (st, Some errRowsBeforeFields)
      ∧ vterrors_Code errRowsBeforeFields = Code_INTERNAL).
Proof.
  split; [| split].
  - intros rs st Hf Hd.
    destruct (funnelInv_all callback rs st) as [[_ ->] | [_ H]];
      [left; done | done |].
    destruct H as (first & later & -> & H1 & H2). done.
  - intros r st Hf Hr. unfold processOneStreamingResult.
    by rewrite Hf, Hr.
  - intros r st Hf Hr. unfold processOneStreamingResult.
    by rewrite Hf, Hr.
Qed.

(** *** The message stream *)

Lemma mustRetry_transient err : mustRetry err = true ↔ transientEnd err.
Proof.
  unfold mustRetry, transientEnd. destruct err as [e |]; [| naive_solver].
  rewrite negb_true_iff, andb_false_iff, !bool_decide_eq_false.
  split.
  - intros [H | H].
    + right; left. f_equal. by destruct (decide (e = io_EOF)).
    + right; right. exists e. split; [done |].
      by destruct (decide (vterrors_Code e = Code_UNAVAILABLE)).
  - intros [H | [H | (e' & H & Hc)]]; simplify_eq; naive_solver.
Qed.

Lemma tt_Record_spec (rs : ResolvedShard) now st :
  (tt_Record (rs_TargetAddr rs) now st).2 = firstFailure rs now st
  ∧ sm_cancelled (tt_Record (rs_TargetAddr rs) now st).1 = sm_cancelled st
  ∧ sm_lastErrors (tt_Record (rs_TargetAddr rs) now st).1 !! rs_TargetAddr rs
    = Some (firstFailure rs now st).
Proof.
  unfold tt_Record, firstFailure.
  destruct (sm_lastErrors st !! rs_TargetAddr rs) eqn:E; simpl; [done |].
  by rewrite lookup_insert_eq.
Qed.


Lemma processOneStreamingResult_tracker callback r st :
  sm_lastErrors (processOneStreamingResult callback r st).1 = sm_lastErrors st.
Proof.
  unfold processOneStreamingResult, invoke.
  destruct (sm_fieldSent st), (Nat.eqb _ 0); try done;
    by destruct (callback r (sm_world st)).
Qed.

Lemma deliverAll_resets callback rs r results st :
  sm_lastErrors (deliverAll callback rs (r :: results) st) !! rs_TargetAddr rs
  = None.
Proof.
  revert r st. induction results as [| r' results IH]; intros r st.
  - simpl. unfold onResult. rewrite processOneStreamingResult_tracker.
    unfold tt_Reset. simpl. apply lookup_delete_eq.
  - change (deliverAll callback rs (r :: r' :: results) st)
      with (deliverAll callback rs (r' :: results) (onResult callback rs r st).1).
    apply IH.
Qed.


(** *** Runs of the switch *)

Ltac unfold_run :=
  unfold executeSwitch, streamSwitch, retryRequest, checkAndResetShardSession,
    doExecute, doBeginExecute, doReserveExecute, doReserveBeginExecute,
    doStreamExecute, doBeginStreamExecute, doReserveStreamExecute,
    doReserveBeginStreamExecute,
    Execute, BeginExecute, ReserveExecute, ReserveBeginExecute,
    StreamExecute, BeginStreamExecute, ReserveStreamExecute,
    ReserveBeginStreamExecute, callTablet, callTabletStream,
    getQueryService, index, getSession, modifySession, emit, liftWorld,
    readWorld, getQr, setQr, getAllErrors, setAllErrors,
    setActionNeeded, Session.SetPreQueries, Session.SavePoints,
    mbind, M_bind, mret, M_ret in *.

Ltac destruct_calls :=
  repeat match goal with
    | |- context [tablet ?a ?b ?c ?d ?e] =>
        destruct (tablet a b c d e) as [? ?] eqn:?; simpl
    | |- context [tabletStream ?a ?b ?c ?d ?f ?e] =>
        destruct (tabletStream a b c d f e) as [? ?] eqn:?; simpl
    end.

(** A run of the switch, in full: one call, or one call, the reset of
    the shard session and the upgraded call. *)
Lemma switch_run streaming callback rs q info qs st :
  let target := rs_Target rs in
  let c1 := firstCall info (session st) in
  let r1 := stepCall streaming callback qs target q c1 st in
  let ids1 :=
    idsAfter c1 r1.2 (sai_transactionID info) (sai_reservedID info) None in
  let qs' := retryHandle rs qs (rp_err r1.2) in
  let c2 := retryCall info (session st) in
  let r2 :=
    stepCall streaming callback qs' target q c2 (stepReset (sai_alias info) r1.1) in
  let ids2 := idsAfter c2 r2.2 ids1.1.1 ids1.1.2 ids1.2 in
  switchOf streaming callback rs q (initLocals info qs) st
  = if retried info (rp_err r1.2) target then
      Ret r2.1
        {| l_info := setActionNeeded info (upgrade (sai_actionNeeded info));
           l_qs := qs'; l_innerqr := innerqrAfter streaming r2.2;
           l_transactionID := ids2.1.1; l_reservedID := ids2.1.2;
           l_alias := ids2.2; l_err := rp_err r2.2 |}
    else
      Ret r1.1
        {| l_info := info; l_qs := qs; l_innerqr := innerqrAfter streaming r1.2;
           l_transactionID := ids1.1.1; l_reservedID := ids1.1.2;
           l_alias := ids1.2; l_err := rp_err r1.2 |}.
Proof.
  intros target c1 r1 ids1 qs' c2 r2 ids2.
  subst target c1 r1 ids1 qs' c2 r2 ids2.
  unfold switchOf, stepCall, stepReset, oracle, retried, retryAllowed,
    retryHandle, firstCall, retryCall, innerqrAfter, initLocals,
    setActionNeeded, Session.SetPreQueries, Session.SavePoints.
  destruct info as [a rid tx al]. simpl.
  destruct streaming, a; unfold_run; simpl; destruct_calls;
    try reflexivity;
    (destruct (rp_err _) as [e |] eqn:He; simpl; [| reflexivity]);
    destruct (rid =? 0), (tx =? 0); simpl; try reflexivity;
    destruct (requireNewQS e _), (wasConnectionClosed e); simpl;
    destruct_calls; by simplify_eq.
Qed.

(** *** Runs of a closure *)

Lemma closure_run c autocommit rs i info st :
  closureOf c autocommit rs i info st
  = if autocommit && negb (sai_transactionID info =? 0) then
      Ret st (None, Some (errAutocommit (sai_transactionID info)))
    else
      match handleFor rs info (world st) with
      | inr err => Ret st (None, Some err)
      | inl qs =>
          match queryAt c i with
          | None => Panic
          | Some q =>
              match switchOf (streamingOf c) (callbackOf c) rs q
                      (initLocals info qs) st with
              | Panic => Panic
              | Ret st' v =>
                  Ret (finish c v st')
                    (updateTransactionAndReservedID (l_info v)
                       (l_transactionID v) (l_reservedID v) (l_alias v),
                     l_err v)
              end
          end
      end.
Proof.
  destruct c as [queries ig | query bindVars callback];
    unfold closureOf, executeShard, streamShard, handleFor, queryAt,
      switchOf, streamingOf, callbackOf, finish;
    (destruct (autocommit && negb (sai_transactionID info =? 0)); [done |]);
    unfold getQueryService, index, readWorld, getQr, setQr,
      mbind, M_bind, mret, M_ret; simpl.
  - destruct (sai_alias info) as [al |]; simpl;
      [destruct (QueryServiceByAlias _ _ _ _) as [qs | err]; [| done] |];
      (destruct (queries !! i) as [q |]; [| done]);
      (destruct (executeSwitch _ _ _ _) as [st' v |]; [| done]);
      by destruct (l_err v).
  - destruct (sai_alias info) as [al |]; simpl;
      [destruct (QueryServiceByAlias _ _ _ _) as [qs | err]; [| done] |];
      (destruct (bindVars !! i) as [bv |]; [| done]); simpl;
      (destruct (streamSwitch _ _ _ _ _) as [st' v |]; [| done]);
      by destruct (l_err v).
Qed.

(** A closure whose statement exists returns; it leaves the error
    recorder alone and acts on the outside as [closureDid] says. *)
Lemma closure_effect c autocommit rs i info st :
  is_Some (queryAt c i) →
  ∃ st' r evs,
    closureOf c autocommit rs i info st = Ret st' r
    ∧ allErrors st' = allErrors st
    ∧ trace st' = (trace st ++ evs)%list
    ∧ closureDid rs info (handleFor rs info (world st)) (session st)
        evs (session st').
Proof.
  intros [q Hq]. rewrite closure_run, Hq.
  destruct (autocommit && negb (sai_transactionID info =? 0)).
  { exists st, (None, Some (errAutocommit (sai_transactionID info))), [].
    rewrite app_nil_r. repeat split. constructor. }
  destruct (handleFor rs info (world st)) as [qs | err] eqn:Hh.
  2: { exists st, (None, Some err), []. rewrite app_nil_r.
       repeat split. constructor. }
  rewrite switch_run. unfold finish, stepCall, stepReset.
  destruct (oracle _ _ _ _ _ _ _) as [w1 rp1] eqn:E1; simpl.
  destruct (retried info _ (rs_Target rs)).
  - destruct (oracle _ _ _ _ _ _ w1) as [w2 rp2] eqn:E2; simpl.
    destruct c; simpl; destruct (rp_err rp2); simpl;
      eexists _, _, _; (split; [reflexivity |]); simpl;
      (split; [done |]); rewrite <- !app_assoc; simpl;
      (split; [reflexivity |]); by constructor.
  - destruct c; simpl; destruct (rp_err rp1); simpl;
      eexists _, _, _; (split; [reflexivity |]); simpl;
      (split; [done |]); (split; [reflexivity |]); by constructor.
Qed.

(** *** The transparent retry *)

Lemma retried_iff info firstErr target :
  retried info firstErr target = true ↔
  (sai_actionNeeded info = nothing ∨ sai_actionNeeded info = begin)
  ∧ ∃ e, firstErr = Some e
      ∧ sai_reservedID info ≠ 0 ∧ sai_transactionID info = 0
      ∧ (wasConnectionClosed e = true ∨ requireNewQS e (Some target) = true).
Proof.
  unfold retried, retryAllowed. split.
  - intros H.
    destruct (sai_actionNeeded info), firstErr as [e |]; try discriminate;
      (split; [auto |]); exists e;
      apply andb_true_iff in H as [H1 H3];
      apply andb_true_iff in H1 as [H1 H2];
      apply negb_true_iff, Z.eqb_neq in H1;
      apply Z.eqb_eq in H2; apply orb_true_iff in H3; done.
  - intros [[Ha | Ha] (e & -> & H1 & H2 & H3)]; rewrite Ha;
      apply Z.eqb_neq in H1; apply Z.eqb_eq in H2;
      apply orb_true_iff in H3; by rewrite H1, H2, H3.
Qed.

(** C2. In the switch of the shard closure of ExecuteMultiShard and of
    StreamExecuteMulti: the run retries iff the action is nothing or
    begin, the first call failed, the incoming info has a non-zero
    reserved ID and a zero transaction ID, and the error is classified
    as connection closed or as requiring a new tablet.  A run that
    retries makes the first call, resets the shard session of the alias,
    and issues exactly one more call, with the action upgraded
    (nothing→reserve, begin→reserveBegin); any other run, in particular
    every run of the reserve and reserveBegin branches, makes the first
    call only. *)
Theorem C2_transparent_retry (streaming : bool) (callback : Callback)
    (rs : ResolvedShard) (q : BoundQuery) (info : shardActionInfo)
    (qs : QueryService) (st : State) :
  let target := rs_Target rs in
  let c1 := firstCall info (session st) in
  let firstErr := rp_err (oracle streaming callback qs target q c1 (world st)).2 in
  (retried info firstErr target = true ↔
     (sai_actionNeeded info = nothing ∨ sai_actionNeeded info = begin)
     ∧ ∃ e, firstErr = Some e
         ∧ sai_reservedID info ≠ 0 ∧ sai_transactionID info = 0
         ∧ (wasConnectionClosed e = true ∨ requireNewQS e (Some target) = true))
  ∧ ∃ st' v',
      switchOf streaming callback rs q (initLocals info qs) st = Ret st' v'
      ∧ if retried info firstErr target then
          trace st'
          = (trace st
             ++ [EvTablet streaming qs target q c1;
                 EvResetShard (sai_alias info);
                 EvTablet streaming (retryHandle rs qs firstErr) target q
                   (retryCall info (session st))])%list
          ∧ session st' = Session.ResetShard (sai_alias info) (session st)
          ∧ sai_actionNeeded (l_info v') = upgrade (sai_actionNeeded info)
        else
          trace st' = (trace st ++ [EvTablet streaming qs target q c1])%list
          ∧ session st' = session st
          ∧ l_info v' = info.
Proof.
  intros target c1 firstErr. split; [apply retried_iff |].
  rewrite switch_run. subst firstErr c1 target. unfold stepCall, stepReset.
  destruct (oracle _ _ _ _ _ _ _) as [w1 rp1] eqn:E1; simpl.
  destruct (retried info _ (rs_Target rs)).
  - destruct (oracle _ _ _ _ _ _ w1) as [w2 rp2] eqn:E2; simpl.
    eexists _, _. split; [reflexivity |]. simpl.
    by rewrite <- !app_assoc.
  - eexists _, _. split; [reflexivity |]. done.
Qed.

(** *** Routing by alias *)

Lemma closureDid_pinned rs info handle s evs s' :
  closureDid rs info handle s evs s' →
  match handle with
  | inl qs => pinnedUntilReset qs evs
  | inr _ => evs = []
  end.
Proof.
  destruct 1; simplify_eq; simpl; try done.
  by destruct handle.
Qed.

(** C4 (amended). When the session, in reserved-connection mode, has
    stored a non-zero reserved ID and an alias for the target of a shard, the
    closure of that shard gets its handle from QueryServiceByAlias with
    that alias: getQueryService returns exactly what QueryServiceByAlias
    returns; if that is an error the closure makes no tablet call, and
    otherwise every tablet call it makes before it resets the shard
    session is issued on that handle. *)
Theorem C4_reserved_routes_by_alias (c : Closure) (autocommit : bool)
    (rs : ResolvedShard) (i : nat) (st : State) (alias : TabletAlias) :
  Session.InReservedConn (session st) = true →
  storedReservedID (session st) (rs_Target rs) ≠ 0 →
  storedAlias (session st) (rs_Target rs) = Some alias →
  is_Some (queryAt c i) →
  let info := actionInfo (rs_Target rs) (session st) autocommit in
  let byAlias := QueryServiceByAlias (rs_Gateway rs) alias (rs_Target rs) (world st) in
  getQueryService rs info st = Ret st byAlias
  ∧ ∃ st' r evs,
      closureOf c autocommit rs i info st = Ret st' r
      ∧ trace st' = (trace st ++ evs)%list
      ∧ match byAlias with
        | inl qs => pinnedUntilReset qs evs
        | inr _ => evs = []
        end.
Proof.
  intros Hres Hrid Halias Hq info byAlias.
  destruct (actionInfo_ids (rs_Target rs) (session st) autocommit) as (_ & _ & Ha).
  { rewrite Hres. apply orb_true_r. }
  rewrite Halias in Ha. fold info in Ha.
  assert (Hh : handleFor rs info (world st) = byAlias).
  { unfold handleFor. by rewrite Ha. }
  split.
  - unfold getQueryService, readWorld. by rewrite Ha.
  - destruct (closure_effect c autocommit rs i info st Hq)
      as (st' & r & evs & Hrun & _ & Htr & Hdid).
    exists st', r, evs. repeat split; [done | done |].
    rewrite Hh in Hdid. by apply closureDid_pinned in Hdid.
Qed.

(** *** Runs of [endAction] and [oneShard] *)

Lemma asksRollbackb_true e : asksRollbackb e = true ↔ asksRollback e.
Proof.
  unfold asksRollbackb, asksRollback.
  by rewrite orb_true_iff, !bool_decide_eq_true.
Qed.

Lemma rollbacksOf_app tr evs :
  rollbacksOf (tr ++ evs) = (rollbacksOf tr ++ rollbacksOf evs)%list.
Proof. apply omap_app. Qed.

Lemma appendOrUpdates_app tr evs :
  appendOrUpdates (tr ++ evs) = (appendOrUpdates tr ++ appendOrUpdates evs)%list.
Proof. apply omap_app. Qed.

Lemma endAction_run statsKey err st :
  ∃ st', endAction statsKey err st = Ret st' tt
    ∧ world st' = world st ∧ qr st' = qr st
    ∧ ShardSessions (session st') = ShardSessions (session st)
    ∧ allErrors st' = (allErrors st ++ option_list err)%list
    ∧ mustRollback (session st')
      = mustRollback (session st) || from_option asksRollbackb false err
    ∧ rollbacksOf (trace st') = rollbacksOf (trace st)
    ∧ appendOrUpdates (trace st') = appendOrUpdates (trace st).
Proof.
  unfold endAction. destruct err as [e |]; simpl.
  2: { exists st. rewrite app_nil_r, orb_false_r. by repeat split. }
  unfold asksRollbackb, RecordError, SetRollback, modifySession, emit,
    mbind, M_bind, mret, M_ret.
  destruct (bool_decide (vterrors_Code e ≠ Code_ALREADY_EXISTS)
            && bool_decide (vterrors_Code e ≠ Code_INVALID_ARGUMENT));
    destruct (bool_decide (vterrors_Code e = Code_RESOURCE_EXHAUSTED)
              || bool_decide (vterrors_Code e = Code_ABORTED));
    simpl; eexists; (split; [reflexivity |]); simpl;
    rewrite ?rollbacksOf_app, ?appendOrUpdates_app, ?app_nil_r,
      ?orb_true_r, ?orb_false_r; by repeat split.
Qed.

Lemma AppendOrUpdate_flag ss mode s :
  mustRollback (Session.AppendOrUpdate ss mode s).1 = mustRollback s.
Proof.
  unfold Session.AppendOrUpdate.
  destruct (Session.upsert ss (ShardSessions s)); [done |].
  by destruct mode, (ShardSessions s).
Qed.

(** [oneShard] after its action: the record of [recorded] goes to
    AppendOrUpdate, then [endAction] runs. *)
Lemma oneShard_run name autocommit (action : shardActionTransactionFunc)
    rs i st st1 updated err :
  action rs i (actionInfo (rs_Target rs) (session st) autocommit) st
  = Ret st1 (updated, err) →
  ∃ st' errs,
    oneShard name autocommit action rs i st = Ret st' tt
    ∧ world st' = world st1 ∧ qr st' = qr st1
    ∧ ShardSessions (session st')
      = match recorded rs updated with
        | Some ss =>
            ShardSessions (Session.AppendOrUpdate ss txConn_mode (session st1)).1
        | None => ShardSessions (session st1)
        end
    ∧ appendOrUpdates (trace st')
      = (appendOrUpdates (trace st1) ++ option_list (recorded rs updated))%list
    ∧ rollbacksOf (trace st') = rollbacksOf (trace st1)
    ∧ allErrors st' = (allErrors st1 ++ errs)%list
    ∧ (∀ e, e ∈ errs → asksRollback e → mustRollback (session st') = true)
    ∧ (mustRollback (session st1) = true → mustRollback (session st') = true).
Proof.
  intros Hact. unfold oneShard, getSession.
  unfold mbind at 1 2 3. unfold M_bind. rewrite Hact.
  assert (Hend : ∀ err0 st2 ssl aus,
    ShardSessions (session st2) = ssl →
    world st2 = world st1 → qr st2 = qr st1 →
    appendOrUpdates (trace st2) = aus →
    rollbacksOf (trace st2) = rollbacksOf (trace st1) →
    allErrors st2 = allErrors st1 →
    mustRollback (session st2) = mustRollback (session st1) →
    ∃ st' errs,
      endAction (startAction name (rs_Target rs)) err0 st2 = Ret st' tt
      ∧ world st' = world st1 ∧ qr st' = qr st1
      ∧ ShardSessions (session st') = ssl
      ∧ appendOrUpdates (trace st') = aus
      ∧ rollbacksOf (trace st') = rollbacksOf (trace st1)
      ∧ allErrors st' = (allErrors st1 ++ errs)%list
      ∧ (∀ e, e ∈ errs → asksRollback e → mustRollback (session st') = true)
      ∧ (mustRollback (session st1) = true → mustRollback (session st') = true)).
  { intros err0 st2 ssl aus H1 H2 H3 H4 H5 H6 H7.
    destruct (endAction_run (startAction name (rs_Target rs)) err0 st2)
      as (st' & Hrun & Hw & Hq & Hss & Herr & Hflag & Hrb & Hau).
    exists st', (option_list err0). rewrite Hrun.
    repeat split; try congruence.
    - intros e He Hasks. rewrite Hflag.
      destruct err0 as [e0 |]; simpl in *; [| by apply elem_of_nil in He].
      apply list_elem_of_singleton in He as ->.
      apply asksRollbackb_true in Hasks. rewrite Hasks. apply orb_true_r.
    - intros Hst1. by rewrite Hflag, H7, Hst1. }
  unfold recorded. destruct updated as [u |].
  2: { unfold mret, M_ret. apply Hend; simpl; rewrite ?app_nil_r; done. }
  destruct (mustRecord u) eqn:Hrec.
  2: { unfold mret, M_ret. apply Hend; simpl; rewrite ?app_nil_r; done. }
  unfold AppendOrUpdate, mbind, M_bind, mret, M_ret. fold (shardSessionOf rs u).
  pose proof (AppendOrUpdate_flag (shardSessionOf rs u) txConn_mode (session st1))
    as Hfl.
  destruct (Session.AppendOrUpdate _ _ _) as [s' appendErr] eqn:Happ.
  apply Hend; simpl; rewrite ?appendOrUpdates_app, ?rollbacksOf_app,
    ?app_nil_r; done.
Qed.

(** *** What [oneShard] writes to the session *)




(** *** Runs of the fan-out *)

Lemma closureDid_frame rs info handle s evs s' :
  closureDid rs info handle s evs s' →
  rollbacksOf evs = [] ∧ appendOrUpdates evs = []
  ∧ mustRollback s' = mustRollback s.
Proof. by destruct 1. Qed.

Lemma oneShard_closure c name autocommit rs i st :
  is_Some (queryAt c i) →
  ∃ st', oneShard name autocommit (closureOf c autocommit) rs i st = Ret st' tt
    ∧ rollbacksOf (trace st') = rollbacksOf (trace st)
    ∧ (flagFollowsErrors st → flagFollowsErrors st').
Proof.
  intros Hq.
  destruct (closure_effect c autocommit rs i
              (actionInfo (rs_Target rs) (session st) autocommit) st Hq)
    as (st1 & [updated err] & evs & Hrun & Herr & Htr & Hdid).
  apply closureDid_frame in Hdid as (Hrb & _ & Hfl).
  destruct (oneShard_run name autocommit _ rs i st st1 updated err Hrun)
    as (st' & errs & Hone & _ & _ & _ & _ & Hrb' & Herrs & Hnew & Hmono).
  exists st'. split; [done |]. split.
  - by rewrite Hrb', Htr, rollbacksOf_app, Hrb, app_nil_r.
  - intros Hinv e He Hasks. unfold Session.MustRollback.
    rewrite Herrs, Herr in He. apply elem_of_app in He as [He | He].
    + apply Hmono. rewrite Hfl. by apply (Hinv e).
    + by apply (Hnew e).
Qed.

Lemma runShards_closure c name autocommit sched :
  (∀ i rs, (i, rs) ∈ sched → is_Some (queryAt c i)) →
  ∀ st, ∃ st',
    runShards (oneShard name autocommit (closureOf c autocommit)) sched st
    = Ret st' tt
    ∧ rollbacksOf (trace st') = rollbacksOf (trace st)
    ∧ (flagFollowsErrors st → flagFollowsErrors st').
Proof.
  induction sched as [| [i rs] sched IH]; intros Hin st.
  - by exists st.
  - destruct (oneShard_closure c name autocommit rs i st) as (st1 & H1 & Hr1 & Hf1).
    { apply (Hin i rs). left. }
    destruct (IH (λ j r H, Hin j r (list_elem_of_further _ _ _ H)) st1)
      as (st2 & H2 & Hr2 & Hf2).
    exists st2. simpl. unfold mbind, M_bind. rewrite H1, H2.
    split; [done |]. split; [congruence | auto].
Qed.

Lemma queryAt_in_range c i : (i < argsLength c)%nat → is_Some (queryAt c i).
Proof.
  destruct c as [queries ig | query bindVars callback]; simpl; intros Hi.
  - by apply lookup_lt_is_Some.
  - apply fmap_is_Some. by apply lookup_lt_is_Some.
Qed.

Lemma schedule_in_range c rss :
  (length rss ≤ argsLength c)%nat →
  ∀ i rs, (i, rs) ∈ schedule rss → is_Some (queryAt c i).
Proof.
  intros Hlen i rs Hin. apply queryAt_in_range.
  unfold schedule in Hin.
  apply elem_of_lookup_imap in Hin as (j & r & Heq & Hj).
  simplify_eq. apply lookup_lt_Some in Hj. lia.
Qed.

(** multiGoTransaction, when every shard has its statement: all
    closures run, then the rollback, if the flag is up. *)
Lemma multiGoTransaction_run c name autocommit rss st :
  (length rss ≤ argsLength c)%nat →
  rss ≠ [] →
  ∃ stmid,
    runShards (oneShard name autocommit (closureOf c autocommit))
      (schedule rss) (clearErrors st) = Ret stmid tt
    ∧ multiGoTransaction name rss autocommit (closureOf c autocommit) st
      = Ret (if Session.MustRollback (session stmid)
             then rollbackState stmid else stmid)
            (allErrors stmid)
    ∧ rollbacksOf (trace stmid) = rollbacksOf (trace st)
    ∧ flagFollowsErrors stmid.
Proof.
  intros Hlen Hne.
  destruct (runShards_closure c name autocommit (schedule rss)
              (schedule_in_range c rss Hlen) (clearErrors st))
    as (stmid & Hrun & Hrb & Hfl).
  exists stmid. split; [done |]. split; [| split; [done |]].
  - unfold multiGoTransaction, setAllErrors, getAllErrors, getSession,
      mbind, M_bind, mret, M_ret.
    destruct rss as [| rs rss]; [done |].
    change (Nat.eqb (length (rs :: rss)) 0) with false. cbv beta iota.
    fold (clearErrors st). rewrite Hrun.
    destruct (Session.MustRollback (session stmid)); [| done].
    unfold Rollback, rollbackState.
    by destruct (txConn_Rollback (session stmid) (world stmid)).
  - apply Hfl. intros e He. by apply elem_of_nil in He.
Qed.

Lemma multiGoTransaction_no_shard name autocommit action st :
  multiGoTransaction name [] autocommit action st = Ret (clearErrors st) [].
Proof. done. Qed.

(** *** Rollback *)

(** C3 (amended). [endAction] raises the rollback flag for every shard
    error whose code is RESOURCE_EXHAUSTED or ABORTED; and in
    multiGoTransaction over at least one shard, with the closure of
    ExecuteMultiShard or of StreamExecuteMulti, all closures run without
    any rollback, every recorded error of such a code has left the flag
    up, and then, if the flag is up, TxConn.Rollback is invoked exactly
    once, on the session as the closures left it, before the errors are
    returned.  Over no shard the function returns at once, whatever the
    flag. *)
Theorem C3_rollback_on_error (c : Closure) (name : string) (autocommit : bool)
    (rss : list ResolvedShard) (st : State) :
  (∀ (statsKey : list string) (e : error) (st0 : State),
      asksRollback e →
      ∃ st1, endAction statsKey (Some e) st0 = Ret st1 tt
        ∧ e ∈ allErrors st1
        ∧ Session.MustRollback (session st1) = true)
  ∧ (rss ≠ [] → (length rss ≤ argsLength c)%nat →
     ∃ stmid st',
       runShards (oneShard name autocommit (closureOf c autocommit))
         (schedule rss) (clearErrors st) = Ret stmid tt
       ∧ multiGoTransaction name rss autocommit (closureOf c autocommit) st
         = Ret st' (allErrors stmid)
       ∧ (∀ e, e ∈ allErrors stmid → asksRollback e →
               Session.MustRollback (session stmid) = true)
       ∧ rollbacksOf (trace stmid) = rollbacksOf (trace st)
       ∧ trace st'
         = (trace stmid
            ++ if Session.MustRollback (session stmid)
               then [EvRollback (session stmid)] else [])%list
       ∧ rollbacksOf (trace st')
         = (rollbacksOf (trace st)
            ++ if Session.MustRollback (session stmid)
               then [session stmid] else [])%list)
  ∧ (rss = [] →
     multiGoTransaction name rss autocommit (closureOf c autocommit) st
     = Ret (clearErrors st) []).
Proof.
  split; [| split].
  - intros statsKey e st0 Hasks.
    destruct (endAction_run statsKey (Some e) st0)
      as (st1 & Hrun & _ & _ & _ & Herr & Hflag & _).
    exists st1. split; [done |]. split.
    + rewrite Herr. apply elem_of_app. right. simpl. left.
    + unfold Session.MustRollback. rewrite Hflag. simpl.
      apply asksRollbackb_true in Hasks. rewrite Hasks. apply orb_true_r.
  - intros Hne Hlen.
    destruct (multiGoTransaction_run c name autocommit rss st Hlen Hne)
      as (stmid & Hrun & Hmulti & Hrb & Hfl).
    exists stmid, (if Session.MustRollback (session stmid)
                   then rollbackState stmid else stmid).
    split; [done |]. split; [done |]. split; [done |]. split; [done |].
    destruct (Session.MustRollback (session stmid)); simpl.
    + by rewrite rollbacksOf_app, Hrb.
    + by rewrite !app_nil_r.
  - intros ->. apply multiGoTransaction_no_shard.
Qed.

(** *** The accumulated result *)

Lemma lockHeartBeat_run st :
  ∃ st', lockHeartBeat st = Ret st' tt
    ∧ world st' = world st ∧ session st' = session st
    ∧ allErrors st' = allErrors st ∧ qr st' = qr st.
Proof.
  unfold lockHeartBeat, getSession, readWorld, emit, mbind, M_bind, mret, M_ret.
  destruct (Session.InLockSession (session st)); [| by exists st].
  destruct (TriggerLockHeartBeat (session st) (world st)); eexists; by repeat split.
Qed.

Lemma ExecuteMultiShard_run rss queries autocommit ignoreMaxMemoryRows st :
  ∃ st',
    ExecuteMultiShard rss queries autocommit ignoreMaxMemoryRows st
    = Ret st'
        (if negb (Nat.eqb (length rss) (length queries)) then (None, [errMismatch])
         else if negb ignoreMaxMemoryRows && (maxMemoryRows <? rowCount st')
              then (None, [errRowCount])
              else (Some (qr st'), allErrors st')).
Proof.
  unfold ExecuteMultiShard.
  destruct (Nat.eqb (length rss) (length queries)) eqn:Hlen; simpl;
    [| by exists st].
  apply Nat.eqb_eq in Hlen.
  unfold mbind at 1 2. unfold M_bind. unfold setQr at 1.
  destruct (lockHeartBeat_run
              {| world := world st; session := session st; trace := trace st;
                 allErrors := allErrors st; qr := new_Result |})
    as (st0 & H0 & _). rewrite H0.
  unfold mbind, M_bind, getQr, mret, M_ret.
  change (executeShard queries autocommit ignoreMaxMemoryRows)
    with (closureOf (ofExecute queries ignoreMaxMemoryRows) autocommit).
  destruct rss as [| rs rss].
  - rewrite multiGoTransaction_no_shard. exists (clearErrors st0).
    unfold rowCount. simpl. by destruct (negb _ && _).
  - destruct (multiGoTransaction_run (ofExecute queries ignoreMaxMemoryRows)
                "Execute" autocommit (rs :: rss) st0)
      as (stmid & _ & Hmulti & _); [simpl in *; lia | done |].
    rewrite Hmulti. unfold rowCount.
    exists (if Session.MustRollback (session stmid)
            then rollbackState stmid else stmid).
    destruct (Session.MustRollback (session stmid)); simpl;
      by destruct (negb _ && _).
Qed.

(** ExecuteMultiShard always returns.  When the numbers of shards and
    of queries agree and the accumulated row count does not exceed the
    cap (or the caller opted out), it returns the accumulated, non-nil
    result together with the recorded shard errors.  On a mismatch it
    returns the nil result with the single INTERNAL error and does
    nothing; when the row count exceeds the cap and the caller did not
    opt out, it returns the nil result with the single
    RESOURCE_EXHAUSTED error. *)
Lemma ExecuteMultiShard_result (rss : list ResolvedShard)
    (queries : list BoundQuery) (autocommit ignoreMaxMemoryRows : bool)
    (st : State) :
  ∃ st' r errs,
    ExecuteMultiShard rss queries autocommit ignoreMaxMemoryRows st
    = Ret st' (r, errs)
    ∧ (length rss = length queries →
       ignoreMaxMemoryRows = true ∨ rowCount st' ≤ maxMemoryRows →
       r = Some (qr st') ∧ errs = allErrors st')
    ∧ (length rss ≠ length queries →
       r = None ∧ errs = [errMismatch] ∧ st' = st
       ∧ vterrors_Code errMismatch = Code_INTERNAL)
    ∧ (length rss = length queries →
       ignoreMaxMemoryRows = false → maxMemoryRows < rowCount st' →
       r = None ∧ errs = [errRowCount]
       ∧ vterrors_Code errRowCount = Code_RESOURCE_EXHAUSTED).
Proof.
  destruct (ExecuteMultiShard_run rss queries autocommit ignoreMaxMemoryRows st)
    as (st' & Hrun).
  destruct (Nat.eqb (length rss) (length queries)) eqn:Hlen; simpl in Hrun.
  - apply Nat.eqb_eq in Hlen.
    destruct (negb ignoreMaxMemoryRows && (maxMemoryRows <? rowCount st')) eqn:Hcap.
    + apply andb_true_iff in Hcap as [Hig Hlt].
      apply negb_true_iff in Hig. apply Z.ltb_lt in Hlt.
      exists st', None, [errRowCount]. split; [done |].
      split; [| split]; [| done | done].
      intros _ [Hyes | Hle]; [congruence | lia].
    + exists st', (Some (qr st')), (allErrors st'). split; [done |].
      split; [done |]. split; [done |].
      intros _ Hig Hlt. apply Z.ltb_lt in Hlt. by rewrite Hig, Hlt in Hcap.
  - apply Nat.eqb_neq in Hlen.
    assert (st' = st) as ->.
    { unfold ExecuteMultiShard in Hrun.
      rewrite (proj2 (Nat.eqb_neq _ _) Hlen) in Hrun. simpl in Hrun.
      unfold mret, M_ret in Hrun. by injection Hrun. }
    exists st, None, [errMismatch]. split; [done |].
    split; [done |]. split; [done |]. done.
Qed.

Lemma executeShard_accumulates queries autocommit ignoreMaxMemoryRows rs i info st :
  is_Some (queries !! i) →
  ∃ st' r,
    executeShard queries autocommit ignoreMaxMemoryRows rs i info st = Ret st' r
    ∧ match r.2 with
      | Some _ => qr st' = qr st
      | None =>
          ∃ q qs,
            queries !! i = Some q
            ∧ handleFor rs info (world st) = inl qs
            ∧ let rp := lastReply false (λ _ w, (w, None)) rs q info qs st in
              rp_err rp = None
              ∧ qr st' = appendShardResult ignoreMaxMemoryRows (qr st) (rp_result rp)
      end.
Proof.
  intros [q Hq].
  change (executeShard queries autocommit ignoreMaxMemoryRows)
    with (closureOf (ofExecute queries ignoreMaxMemoryRows) autocommit).
  rewrite closure_run.
  change (queryAt (ofExecute queries ignoreMaxMemoryRows) i) with (queries !! i).
  rewrite Hq.
  destruct (autocommit && negb (sai_transactionID info =? 0));
    [by eexists _, _ |].
  destruct (handleFor rs info (world st)) as [qs | err] eqn:Hh;
    [| by eexists _, _].
  rewrite switch_run.
  change (streamingOf (ofExecute queries ignoreMaxMemoryRows)) with false.
  change (callbackOf (ofExecute queries ignoreMaxMemoryRows))
    with (λ (_ : Result) (w : World), (w, @None error)).
  unfold lastReply, finish, stepCall, stepReset.
  destruct (oracle _ _ _ _ _ _ _) as [w1 rp1] eqn:E1; simpl.
  unfold oracle in E1.
  destruct (retried info (rp_err rp1) (rs_Target rs)) eqn:Hre.
  - destruct (tablet _ _ _ _ w1) as [w2 rp2] eqn:E2; simpl.
    destruct (rp_err rp2) eqn:He; eexists _, _; (split; [reflexivity |]);
      simpl; rewrite ?He; [done |].
    exists q, qs. split; [done |]. split; [done |].
    rewrite E1. simpl. rewrite Hre, E2. done.
  - destruct (rp_err rp1) eqn:He; eexists _, _; (split; [reflexivity |]);
      simpl; rewrite ?He; [done |].
    exists q, qs. split; [done |]. split; [done |].
    rewrite E1. simpl. rewrite He, Hre. by rewrite He.
Qed.

(** C6 (amended). In a shard closure of ExecuteMultiShard the rows of a
    successful tablet call are appended to the accumulated result as
    long as its row count does not exceed the cap (a count equal to the
    cap still takes the rows) or the caller set ignoreMaxMemoryRows, and
    are not appended once the count exceeds the cap; a failed closure
    appends nothing.  When the numbers of shards and queries agree, the
    caller did not opt out and the accumulated row count exceeds the
    cap, the call returns the nil result and the single
    RESOURCE_EXHAUSTED error. *)
Theorem C6_row_cap (queries : list BoundQuery)
    (autocommit ignoreMaxMemoryRows : bool) :
  (∀ (rs : ResolvedShard) (i : nat) (info : shardActionInfo) (st : State),
      is_Some (queries !! i) →
      ∃ st' r,
        executeShard queries autocommit ignoreMaxMemoryRows rs i info st = Ret st' r
        ∧ match r.2 with
          | Some _ => qr st' = qr st
          | None =>
              ∃ q qs,
                queries !! i = Some q
                ∧ handleFor rs info (world st) = inl qs
                ∧ let rp := lastReply false (λ _ w, (w, None)) rs q info qs st in
                  rp_err rp = None
                  ∧ (ignoreMaxMemoryRows = true ∨ rowCount st ≤ maxMemoryRows →
                     qr st' = AppendResult (qr st) (rp_result rp)
                     ∧ Rows (qr st') = (Rows (qr st) ++ Rows (rp_result rp))%list)
                  ∧ (ignoreMaxMemoryRows = false → maxMemoryRows < rowCount st →
                     qr st' = qr st)
          end)
  ∧ (∀ (rss : list ResolvedShard) (st : State),
      length rss = length queries →
      ∃ st' r,
        ExecuteMultiShard rss queries autocommit ignoreMaxMemoryRows st = Ret st' r
        ∧ (ignoreMaxMemoryRows = false → maxMemoryRows < rowCount st' →
           r = (None, [errRowCount])
           ∧ vterrors_Code errRowCount = Code_RESOURCE_EXHAUSTED)).
Proof.
  split.
  - intros rs i info st Hq.
    destruct (executeShard_accumulates queries autocommit ignoreMaxMemoryRows
                rs i info st Hq) as (st' & r & Hrun & Hqr).
    exists st', r. split; [done |].
    destruct r.2; [done |].
    destruct Hqr as (q & qs & Hq' & Hh & Herr & Hacc).
    exists q, qs. split; [done |]. split; [done |]. simpl.
    split; [done |]. rewrite Hacc. unfold appendShardResult, rowCount.
    split.
    + intros [-> | Hle]; [done |].
      by rewrite (proj2 (Z.leb_le _ _) Hle), orb_true_r.
    + intros -> Hlt. by rewrite (proj2 (Z.leb_gt _ _) Hlt).
  - intros rss st Hlen.
    destruct (ExecuteMultiShard_run rss queries autocommit ignoreMaxMemoryRows st)
      as (st' & Hrun).
    rewrite (proj2 (Nat.eqb_eq _ _) Hlen) in Hrun. simpl in Hrun.
    eexists st', _. split; [exact Hrun |].
    intros -> Hlt. by rewrite (proj2 (Z.ltb_lt _ _) Hlt).
Qed.

End Properties.

(** ** Further properties *)

(** *** The pattern txClosed *)

Lemma app_String a s t : String a s +:+ t = String a (s +:+ t).
Proof. reflexivity. Qed.

Lemma app_Empty t : EmptyString +:+ t = t.
Proof. reflexivity. Qed.

Lemma stripPrefix_Some p s r : txClosed.stripPrefix p s = Some r ↔ s = p +:+ r.
Proof.
  revert s. induction p as [| a p IH]; intros s; simpl.
  - rewrite app_Empty. split; congruence.
  - rewrite app_String. destruct s as [| b s]; [split; discriminate |].
    destruct (Ascii.eqb_spec a b) as [-> | Hne].
    + rewrite IH. split; congruence.
    + split; [discriminate | congruence].
Qed.

Lemma skipId_split s :
  ∃ id, s = id +:+ (txClosed.skipId s).2 ∧ allId id = true
        ∧ String.length id = (txClosed.skipId s).1.
Proof.
  induction s as [| c s (id & Hs & Hid & Hlen)]; simpl.
  - by exists EmptyString.
  - destruct (txClosed.idChar c) eqn:Hc.
    + destruct (txClosed.skipId s) as [n r]. simpl in *.
      exists (String c id). rewrite app_String, <- Hs. simpl. rewrite Hc, Hid, Hlen. done.
    + by exists EmptyString.
Qed.

Lemma skipId_app id c r :
  allId id = true → txClosed.idChar c = false →
  txClosed.skipId (id +:+ String c r) = (String.length id, String c r).
Proof.
  intros Hid Hc. induction id as [| a id IH].
  - rewrite app_Empty. simpl. by rewrite Hc.
  - rewrite app_String. simpl in *. apply andb_true_iff in Hid as [Ha Hid].
    rewrite Ha, (IH Hid). done.
Qed.

Lemma matchHere_spec s : txClosed.matchHere s = true ↔ txClosedAt s.
Proof.
  unfold txClosed.matchHere, txClosedAt. split.
  - destruct (txClosed.stripPrefix "transaction " s) as [rest |] eqn:Hp; [| discriminate].
    apply stripPrefix_Some in Hp. subst s.
    destruct (skipId_split rest) as (id & Hrest & Hid & Hlen).
    destruct (txClosed.skipId rest) as [n rest']. cbn [fst snd] in *.
    intros H. apply andb_true_iff in H as [Hn H].
    exists id. 
    assert (id ≠ EmptyString).
    { intros ->. simpl in Hlen. subst n. discriminate. }
    apply orb_true_iff in H as [H | H]; apply bool_decide_eq_true in H;
      destruct H as [suf H]; apply stripPrefix_Some in H; subst rest';
      exists suf; rewrite Hrest; auto.
  - intros (id & suf & Hid & Hne & Hs).
    assert (Hn : negb (Nat.eqb (String.length id) 0) = true)
      by (by destruct id).
    assert (Hsk : ∀ tail,
      txClosed.skipId (id +:+ String " " tail) = (String.length id, String " " tail))
      by (intros; by apply skipId_app).
    destruct Hs as [-> | ->];
      rewrite (proj2 (stripPrefix_Some "transaction " _ _) eq_refl).
    + change (" ended" +:+ suf) with (String " " ("ended" +:+ suf)).
      rewrite Hsk. cbv beta iota. rewrite Hn. apply orb_true_iff. left.
      apply bool_decide_eq_true. exists suf. by apply stripPrefix_Some.
    + change (" not found" +:+ suf) with (String " " ("not found" +:+ suf)).
      rewrite Hsk. cbv beta iota. rewrite Hn. apply orb_true_iff. right.
      apply bool_decide_eq_true. exists suf. by apply stripPrefix_Some.
Qed.

(** the pattern is searched anywhere in the string *)
Lemma MatchString_spec (s : string) :
  txClosed.MatchString s = true ↔ ∃ pre rest, s = pre +:+ rest ∧ txClosedAt rest.
Proof.
  induction s as [| c s IH].
  - split; [discriminate |].
    intros (pre & rest & Hs & id & suf & _ & _ & Hrest).
    destruct pre; [| discriminate]. rewrite app_Empty in Hs. subst rest.
    destruct Hrest; discriminate.
  - change (txClosed.MatchString (String c s))
      with (txClosed.matchHere (String c s) || txClosed.MatchString s).
    rewrite orb_true_iff, matchHere_spec, IH. split.
    + intros [H | (pre & rest & -> & H)].
      * by exists EmptyString, (String c s).
      * by exists (String c pre), rest.
    + intros (pre & rest & Hs & H). destruct pre as [| a pre].
      * rewrite app_Empty in Hs. subst. by left.
      * rewrite app_String in Hs. injection Hs as -> ->. right. by exists pre, rest.
Qed.

Section MoreProperties.

Context {env : Environment}.

(** X1. An error means connection closed exactly when its MySQL number
    is CRServerGone (2006) or CRServerLost (2013), or it is
    ERQueryInterrupted (1317) and its message contains, anywhere, the
    word "transaction", a space, a non-empty identifier over [a-z0-9:],
    a space, and "ended" or "not found". *)
Theorem X1_wasConnectionClosed (e : error) :
  wasConnectionClosed e = true ↔
  sql_Number (NewSQLErrorFromError e) = 2006
  ∨ sql_Number (NewSQLErrorFromError e) = 2013
  ∨ (sql_Number (NewSQLErrorFromError e) = 1317
     ∧ ∃ pre rest, sql_Error (NewSQLErrorFromError e) = pre +:+ rest
                   ∧ txClosedAt rest).
Proof.
  unfold wasConnectionClosed, CRServerGone, CRServerLost, ERQueryInterrupted.
  rewrite !orb_true_iff, andb_true_iff, !Z.eqb_eq, MatchString_spec. tauto.
Qed.

Lemma tabletEvents_app tr evs :
  tabletEvents (tr ++ evs) = (tabletEvents tr ++ tabletEvents evs)%list.
Proof. apply omap_app. Qed.

Lemma endAction_endState statsKey err st :
  endAction statsKey err st = Ret (endState statsKey err st) tt.
Proof.
  unfold endAction, endState, counted, asksRollbackb. destruct err as [e |]; [| done].
  unfold RecordError, SetRollback, modifySession, emit, mbind, M_bind, mret, M_ret.
  destruct (bool_decide (vterrors_Code e ≠ Code_ALREADY_EXISTS)
            && bool_decide (vterrors_Code e ≠ Code_INVALID_ARGUMENT));
    destruct (bool_decide (vterrors_Code e = Code_RESOURCE_EXHAUSTED)
              || bool_decide (vterrors_Code e = Code_ABORTED));
    simpl; by rewrite <- ?app_assoc, ?app_nil_r.
Qed.

Lemma resetsOf_app tr evs :
  resetsOf (tr ++ evs) = (resetsOf tr ++ resetsOf evs)%list.
Proof. apply omap_app. Qed.

Lemma errorCountsOf_app tr evs :
  errorCountsOf (tr ++ evs) = (errorCountsOf tr ++ errorCountsOf evs)%list.
Proof. apply omap_app. Qed.

Lemma oneShard_exact name autocommit (action : shardActionTransactionFunc)
    rs i st st1 updated err :
  action rs i (actionInfo (rs_Target rs) (session st) autocommit) st
  = Ret st1 (updated, err) →
  oneShard name autocommit action rs i st
  = Ret (endState (startAction name (rs_Target rs))
           (afterRecord rs updated err st1).2 (afterRecord rs updated err st1).1) tt.
Proof.
  intros Hact. unfold oneShard, getSession.
  unfold mbind at 1 2 3. unfold M_bind. rewrite Hact.
  unfold afterRecord, recorded. destruct updated as [u |].
  2: { unfold mret, M_ret. apply endAction_endState. }
  destruct (mustRecord u).
  2: { unfold mret, M_ret. apply endAction_endState. }
  unfold AppendOrUpdate, mbind, M_bind, mret, M_ret. fold (shardSessionOf rs u).
  destruct (Session.AppendOrUpdate _ _ _) as [s' appendErr].
  apply endAction_endState.
Qed.

Lemma closureDid_counts rs info handle s evs s' :
  closureDid rs info handle s evs s' →
  (length (tabletEvents evs) ≤ 2)%nat
  ∧ (length (resetsOf evs) ≤ 1)%nat
  ∧ Forall (λ ev, ev.1.1.2 = rs_Target rs) (tabletEvents evs)
  ∧ errorCountsOf evs = [].
Proof.
  destruct 1; simpl; repeat split; try lia; repeat constructor.
Qed.

Lemma actionInfo_autocommit target s :
  sai_actionNeeded (actionInfo target s true) = nothing
  ∨ sai_actionNeeded (actionInfo target s true) = reserve.
Proof.
  unfold actionInfo.
  destruct (negb (Session.InTransaction s || Session.InReservedConn s));
    [by left |].
  destruct (Session.Find s _ _ _) as [[tx rid] al]. simpl.
  rewrite andb_false_r. simpl.
  destruct (Session.InReservedConn s && (rid =? 0)); auto.
Qed.

(** X2. An autocommit shard closure never runs inside a transaction:
    with the action that [actionInfo] selects for autocommit, every
    tablet call it makes, the retry included, is an Execute or a
    ReserveExecute with transaction ID zero, never a BeginExecute or a
    ReserveBeginExecute. *)
Theorem X2_autocommit_never_transactional (c : Closure) (rs : ResolvedShard)
    (i : nat) (st : State) :
  is_Some (queryAt c i) →
  ∃ st' r evs,
    closureOf c true rs i (actionInfo (rs_Target rs) (session st) true) st
    = Ret st' r
    ∧ trace st' = (trace st ++ evs)%list
    ∧ Forall (λ ev, transactional ev.2 = false) (tabletEvents evs).
Proof.
  intros [q Hq]. rewrite closure_run, Hq.
  set (info := actionInfo (rs_Target rs) (session st) true).
  pose proof (actionInfo_autocommit (rs_Target rs) (session st)) as Hact.
  fold info in Hact. simpl.
  destruct (sai_transactionID info =? 0) eqn:Htx; simpl.
  2: { exists st, (None, Some (errAutocommit (sai_transactionID info))), [].
       rewrite app_nil_r. repeat split. constructor. }
  apply Z.eqb_eq in Htx.
  destruct (handleFor rs info (world st)) as [qs | err].
  2: { exists st, (None, Some err), []. rewrite app_nil_r. repeat split.
       constructor. }
  rewrite switch_run. unfold finish, stepCall, stepReset.
  destruct (oracle _ _ _ _ _ _ _) as [w1 rp1] eqn:E1; simpl.
  assert (transactional (firstCall info (session st)) = false) as H1.
  { unfold firstCall. destruct Hact as [-> | ->]; simpl; by rewrite Htx. }
  assert (retried info (rp_err rp1) (rs_Target rs) = true →
          transactional (retryCall info (session st)) = false) as H2.
  { intros Hre. apply retried_iff in Hre as ([Hn | Hb] & _).
    - unfold retryCall. by rewrite Hn.
    - destruct Hact as [Ha | Ha]; rewrite Ha in Hb; discriminate. }
  destruct (retried info _ (rs_Target rs)).
  - destruct (oracle _ _ _ _ _ _ w1) as [w2 rp2] eqn:E2; simpl.
    destruct c; simpl; destruct (rp_err rp2); simpl;
      eexists _, _, _; (split; [reflexivity |]); simpl;
      rewrite <- !app_assoc; simpl;
      (split; [reflexivity |]); simpl; repeat constructor; simpl; auto.
  - destruct c; simpl; destruct (rp_err rp1); simpl;
      eexists _, _, [_]; (split; [reflexivity |]); simpl;
      (split; [reflexivity |]); simpl; repeat constructor; simpl; auto.
Qed.

Lemma endState_counts statsKey err st :
  allErrors (endState statsKey err st) = (allErrors st ++ option_list err)%list
  ∧ (length (errorCountsOf (trace (endState statsKey err st)))
     = length (errorCountsOf (trace st))
       + length (List.filter counted (option_list err)))%nat
  ∧ tabletEvents (trace (endState statsKey err st)) = tabletEvents (trace st).
Proof.
  destruct err as [e |]; simpl.
  2: { rewrite app_nil_r. repeat split. lia. }
  rewrite errorCountsOf_app, tabletEvents_app, !length_app.
  repeat split.
  - destruct (counted e), (asksRollbackb e); simpl; lia.
  - destruct (counted e), (asksRollbackb e); simpl; by rewrite app_nil_r.
Qed.

Lemma afterRecord_counts rs updated err st1 :
  allErrors (afterRecord rs updated err st1).1 = allErrors st1
  ∧ errorCountsOf (trace (afterRecord rs updated err st1).1)
    = errorCountsOf (trace st1)
  ∧ tabletEvents (trace (afterRecord rs updated err st1).1)
    = tabletEvents (trace st1).
Proof.
  unfold afterRecord. destruct (recorded rs updated); simpl; [| done].
  rewrite errorCountsOf_app, tabletEvents_app. simpl.
  by rewrite !app_nil_r.
Qed.

Lemma oneShard_counts c name autocommit rs i st :
  is_Some (queryAt c i) →
  ∃ st' errs,
    oneShard name autocommit (closureOf c autocommit) rs i st = Ret st' tt
    ∧ allErrors st' = (allErrors st ++ errs)%list
    ∧ (length errs ≤ 1)%nat
    ∧ (length (errorCountsOf (trace st'))
       = length (errorCountsOf (trace st)) + length (List.filter counted errs))%nat
    ∧ (length (tabletEvents (trace st'))
       ≤ length (tabletEvents (trace st)) + 2)%nat.
Proof.
  intros Hq.
  destruct (closure_effect c autocommit rs i
              (actionInfo (rs_Target rs) (session st) autocommit) st Hq)
    as (st1 & [updated err] & evs & Hrun & Herr & Htr & Hdid).
  apply closureDid_counts in Hdid as (Hcalls & _ & _ & Hcnt).
  rewrite (oneShard_exact _ _ _ _ _ _ _ _ _ Hrun).
  destruct (afterRecord_counts rs updated err st1) as (Ha & Hb & Hc).
  destruct (endState_counts (startAction name (rs_Target rs))
              (afterRecord rs updated err st1).2
              (afterRecord rs updated err st1).1) as (Ha' & Hb' & Hc').
  eexists _, (option_list (afterRecord rs updated err st1).2).
  split; [reflexivity |].
  rewrite Ha', Hb', Hc', Ha, Hb, Hc, Herr, Htr.
  rewrite errorCountsOf_app, tabletEvents_app, Hcnt, app_nil_r, length_app.
  repeat split; [| lia].
  by destruct (afterRecord rs updated err st1).2; simpl; lia.
Qed.

Lemma runShards_counts c name autocommit sched :
  (∀ i rs, (i, rs) ∈ sched → is_Some (queryAt c i)) →
  ∀ st, ∃ st' errs,
    runShards (oneShard name autocommit (closureOf c autocommit)) sched st
    = Ret st' tt
    ∧ allErrors st' = (allErrors st ++ errs)%list
    ∧ (length errs ≤ length sched)%nat
    ∧ (length (errorCountsOf (trace st'))
       = length (errorCountsOf (trace st)) + length (List.filter counted errs))%nat
    ∧ (length (tabletEvents (trace st'))
       ≤ length (tabletEvents (trace st)) + 2 * length sched)%nat.
Proof.
  induction sched as [| [i rs] sched IH]; intros Hin st.
  - exists st, []. rewrite app_nil_r. simpl. repeat split; lia.
  - destruct (oneShard_counts c name autocommit rs i st)
      as (st1 & errs1 & H1 & He1 & Hl1 & Hc1 & Ht1).
    { apply (Hin i rs). left. }
    destruct (IH (λ j r H, Hin j r (list_elem_of_further _ _ _ H)) st1)
      as (st2 & errs2 & H2 & He2 & Hl2 & Hc2 & Ht2).
    exists st2, (errs1 ++ errs2)%list. simpl. unfold mbind, M_bind.
    rewrite H1, H2, He2, He1, <- app_assoc, List.filter_app, !length_app.
    simpl. repeat split; lia.
Qed.

(** X3. The accounting of a fan-out.  When every shard has its
    statement, multiGoTransaction with the closure of ExecuteMultiShard
    or of StreamExecuteMulti returns at most one error per shard, makes
    at most two tablet calls per shard, and increments the tablet error
    counter once for every returned error whose code is neither
    ALREADY_EXISTS nor INVALID_ARGUMENT. *)
Theorem X3_multiGoTransaction_accounting (c : Closure) (name : string)
    (autocommit : bool) (rss : list ResolvedShard) (st : State) :
  (length rss ≤ argsLength c)%nat →
  ∃ st' errs,
    multiGoTransaction name rss autocommit (closureOf c autocommit) st
    = Ret st' errs
    ∧ (length errs ≤ length rss)%nat
    ∧ (length (errorCountsOf (trace st'))
       = length (errorCountsOf (trace st)) + length (List.filter counted errs))%nat
    ∧ (length (tabletEvents (trace st'))
       ≤ length (tabletEvents (trace st)) + 2 * length rss)%nat.
Proof.
  intros Hlen. destruct rss as [| rs0 rss0] eqn:Hrss.
  { exists (clearErrors st), []. rewrite multiGoTransaction_no_shard.
    simpl. repeat split; lia. }
  rewrite <- Hrss in *.
  assert (rss ≠ []) as Hne by (by rewrite Hrss).
  destruct (multiGoTransaction_run c name autocommit rss st Hlen Hne)
    as (stmid & Hrun & Hmgt & _).
  destruct (runShards_counts c name autocommit (schedule rss)
              (schedule_in_range c rss Hlen) (clearErrors st))
    as (st2 & errs & Hrun2 & He & Hl & Hc & Ht).
  rewrite Hrun in Hrun2. injection Hrun2 as <-.
  unfold schedule in Hl, Ht. rewrite length_imap in Hl, Ht.
  simpl in He, Hc, Ht.
  eexists _, _. split; [exact Hmgt |]. rewrite He.
  split; [done |].
  destruct (Session.MustRollback (session stmid)); [| by split].
  unfold rollbackState. simpl.
  destruct (txConn_Rollback (session stmid) (world stmid)); simpl.
  rewrite errorCountsOf_app, tabletEvents_app. simpl.
  rewrite !app_nil_r. by split.
Qed.

Lemma finish_frame c v st :
  session (finish c v st) = session st
  ∧ trace (finish c v st) = trace st
  ∧ allErrors (finish c v st) = allErrors st
  ∧ world (finish c v st) = world st.
Proof. unfold finish. by destruct c, (l_err v). Qed.

Lemma actionInfo_begin target s autocommit :
  sai_actionNeeded (actionInfo target s autocommit) = begin →
  sai_transactionID (actionInfo target s autocommit) = 0.
Proof.
  unfold actionInfo.
  destruct (negb (Session.InTransaction s || Session.InReservedConn s));
    [done |].
  destruct (Session.Find s _ _ _) as [[tx rid] al]. simpl.
  destruct (Session.InTransaction s), (tx =? 0) eqn:Htx, autocommit,
    (Session.InReservedConn s && (rid =? 0)); simpl; try discriminate.
  intros _. by apply Z.eqb_eq.
Qed.

(** X4. A transaction that a failed BeginExecute opened is not lost.
    When the closure answers with a new transaction ID, [oneShard] hands
    the shard session with that ID to AppendOrUpdate whether or not the
    call returned an error, so that a later rollback reaches it; the error
    recorded for the shard is the one of AppendOrUpdate if it fails, and
    the one of the tablet otherwise. *)
Theorem X4_failed_begin_is_recorded (c : Closure) (name : string)
    (rs : ResolvedShard) (i : nat) (st : State) (qs : QueryService)
    (q : BoundQuery) :
  let target := rs_Target rs in
  let info := actionInfo target (session st) false in
  let call :=
    CallBeginExecute (Session.SavePoints (session st)) (sai_reservedID info) in
  let rp := (oracle (streamingOf c) (callbackOf c) qs target q call (world st)).2 in
  let ss := {| ss_Target := target;
               ss_TransactionId := rp_transactionID rp;
               ss_ReservedId := sai_reservedID info;
               ss_TabletAlias := rp_alias rp |} in
  let r := Session.AppendOrUpdate ss txConn_mode (session st) in
  sai_actionNeeded info = begin →
  handleFor rs info (world st) = inl qs →
  queryAt c i = Some q →
  retried info (rp_err rp) target = false →
  rp_transactionID rp ≠ 0 →
  ∃ st',
    oneShard name false (closureOf c false) rs i st = Ret st' tt
    ∧ appendOrUpdates (trace st') = (appendOrUpdates (trace st) ++ [ss])%list
    ∧ ShardSessions (session st') = ShardSessions r.1
    ∧ allErrors st'
      = (allErrors st ++ option_list (match r.2 with
                                      | Some e => Some e
                                      | None => rp_err rp
                                      end))%list.
Proof.
  intros target info call rp ss r Hact Hh Hq Hre Htx.
  pose proof (actionInfo_begin _ _ _ Hact) as Htx0. fold target info in Htx0.
  pose proof (closure_run c false rs i info st) as Hrun.
  rewrite Hh, Hq, switch_run in Hrun. simpl in Hrun.
  assert (firstCall info (session st) = call) as Hc
    by (unfold firstCall; by rewrite Hact).
  rewrite Hc in Hrun. fold target in Hrun.
  unfold stepCall in Hrun. subst rp.
  destruct (oracle _ _ _ _ _ _ _) as [w1 rp] eqn:E1. simpl in *.
  rewrite Hre in Hrun. simpl in Hrun.
  destruct (oneShard_run name false _ rs i st _ _ _ Hrun)
    as (st' & errs & Hone & _ & _ & Hss & Hau & _).
  rewrite (oneShard_exact _ _ _ _ _ _ _ _ _ Hrun) in Hone.
  injection Hone as <-.
  assert (recorded rs (updateTransactionAndReservedID info (rp_transactionID rp)
                         (sai_reservedID info) (rp_alias rp)) = Some ss) as Hrec.
  { unfold updateTransactionAndReservedID. rewrite Htx0.
    apply Z.eqb_neq in Htx. rewrite Htx. simpl.
    unfold mustRecord. simpl. rewrite Hact, Htx. simpl.
    done. }
  destruct (finish_frame c
    {| l_info := info; l_qs := qs;
       l_innerqr := innerqrAfter (streamingOf c) rp;
       l_transactionID := rp_transactionID rp;
       l_reservedID := sai_reservedID info;
       l_alias := rp_alias rp; l_err := rp_err rp |}
    {| world := w1; session := session st;
       trace := trace st ++ [EvTablet (streamingOf c) qs target q call];
       allErrors := allErrors st; qr := qr st |}) as (Hfs & Hft & Hfe & _).
  eexists. split; [exact (oneShard_exact _ _ _ _ _ _ _ _ _ Hrun) |].
  rewrite Hrec in Hau, Hss. rewrite Hfs in Hss. rewrite Hft in Hau.
  simpl in Hau, Hss. rewrite appendOrUpdates_app in Hau. simpl in Hau.
  rewrite app_nil_r in Hau.
  split; [exact Hau |]. split; [exact Hss |].
  destruct (endState_counts (startAction name (rs_Target rs))
    (afterRecord rs (updateTransactionAndReservedID info (rp_transactionID rp)
                       (sai_reservedID info) (rp_alias rp)) (rp_err rp)
       (finish c
          {| l_info := info; l_qs := qs;
             l_innerqr := innerqrAfter (streamingOf c) rp;
             l_transactionID := rp_transactionID rp;
             l_reservedID := sai_reservedID info;
             l_alias := rp_alias rp; l_err := rp_err rp |}
          {| world := w1; session := session st;
             trace := trace st ++ [EvTablet (streamingOf c) qs target q call];
             allErrors := allErrors st; qr := qr st |})).2
    (afterRecord rs (updateTransactionAndReservedID info (rp_transactionID rp)
                       (sai_reservedID info) (rp_alias rp)) (rp_err rp)
       (finish c
          {| l_info := info; l_qs := qs;
             l_innerqr := innerqrAfter (streamingOf c) rp;
             l_transactionID := rp_transactionID rp;
             l_reservedID := sai_reservedID info;
             l_alias := rp_alias rp; l_err := rp_err rp |}
          {| world := w1; session := session st;
             trace := trace st ++ [EvTablet (streamingOf c) qs target q call];
             allErrors := allErrors st; qr := qr st |})).1) as (He & _).
  rewrite He. unfold afterRecord. rewrite Hrec. cbn [fst snd allErrors].
  by rewrite Hfe, Hfs.
Qed.

Lemma actionInfo_plainSession target s autocommit :
  plainSession s → actionInfo target s autocommit = shardActionInfo_zero.
Proof. intros [Ht Hr]. unfold actionInfo. by rewrite Ht, Hr. Qed.

Lemma closure_plain c autocommit rs i st :
  closureOf c autocommit rs i shardActionInfo_zero st
  = match queryAt c i with
    | None => Panic
    | Some q =>
        let r := stepCall (streamingOf c) (callbackOf c) (rs_Gateway rs)
                   (rs_Target rs) q (CallExecute 0 0) st in
        Ret (finish c
               {| l_info := shardActionInfo_zero; l_qs := rs_Gateway rs;
                  l_innerqr := innerqrAfter (streamingOf c) r.2;
                  l_transactionID := 0; l_reservedID := 0; l_alias := None;
                  l_err := rp_err r.2 |} r.1)
          (None, rp_err r.2)
    end.
Proof.
  rewrite closure_run. rewrite andb_false_r.
  change (handleFor rs shardActionInfo_zero (world st)) with
    (inl (rs_Gateway rs) : QueryService + error).
  destruct (queryAt c i) as [q |]; [| done].
  rewrite switch_run.
  change (firstCall shardActionInfo_zero (session st)) with (CallExecute 0 0).
  assert (∀ e, retried shardActionInfo_zero e (rs_Target rs) = false) as ->
    by (by intros [e |]).
  done.
Qed.

Lemma oneShard_plain c name autocommit rs i q st :
  queryAt c i = Some q →
  plainSession (session st) →
  ∃ st',
    oneShard name autocommit (closureOf c autocommit) rs i st = Ret st' tt
    ∧ plainSession (session st')
    ∧ ShardSessions (session st') = ShardSessions (session st)
    ∧ tabletEvents (trace st')
      = (tabletEvents (trace st)
         ++ [(streamingOf c, rs_Gateway rs, rs_Target rs, q, CallExecute 0 0)])%list
    ∧ appendOrUpdates (trace st') = appendOrUpdates (trace st)
    ∧ resetsOf (trace st') = resetsOf (trace st).
Proof.
  intros Hq Hplain.
  pose proof (closure_plain c autocommit rs i st) as Hrun.
  rewrite Hq in Hrun. cbv zeta in Hrun.
  rewrite <- (actionInfo_plainSession (rs_Target rs) (session st) autocommit Hplain)
    in Hrun at 1.
  eexists. split; [exact (oneShard_exact _ _ _ _ _ _ _ _ _ Hrun) |].
  unfold afterRecord, recorded. cbn [fst snd].
  match goal with |- context [finish c ?v ?s] =>
    destruct (finish_frame c v s) as (Hfs & Hft & _)
  end.
  unfold stepCall in *.
  destruct (oracle _ _ _ _ _ _ _) as [w1 rp1]. cbn [fst snd] in *.
  destruct (rp_err rp1) as [e |]; simpl.
  - rewrite Hfs, Hft. simpl.
    rewrite !tabletEvents_app, !appendOrUpdates_app, !resetsOf_app. simpl.
    destruct (counted e), (asksRollbackb e); simpl; rewrite ?app_nil_r;
      (split; [exact Hplain |]); by repeat split.
  - rewrite Hfs, Hft. simpl.
    rewrite !tabletEvents_app, !appendOrUpdates_app, !resetsOf_app. simpl.
    rewrite ?app_nil_r. (split; [exact Hplain |]); by repeat split.
Qed.

Lemma oneShard_out_of_range c name autocommit rs i st :
  queryAt c i = None →
  plainSession (session st) →
  oneShard name autocommit (closureOf c autocommit) rs i st = Panic.
Proof.
  intros Hq Hplain.
  pose proof (closure_plain c autocommit rs i st) as Hrun.
  rewrite Hq in Hrun.
  unfold oneShard, getSession. unfold mbind at 1 2 3. unfold M_bind.
  by rewrite (actionInfo_plainSession _ _ _ Hplain), Hrun.
Qed.

Lemma runShards_plain c name autocommit sched :
  (∀ i rs, (i, rs) ∈ sched → is_Some (queryAt c i)) →
  ∀ st, plainSession (session st) →
  ∃ st',
    runShards (oneShard name autocommit (closureOf c autocommit)) sched st
    = Ret st' tt
    ∧ plainSession (session st')
    ∧ ShardSessions (session st') = ShardSessions (session st)
    ∧ tabletEvents (trace st')
      = (tabletEvents (trace st) ++ plainCalls c sched)%list
    ∧ appendOrUpdates (trace st') = appendOrUpdates (trace st)
    ∧ resetsOf (trace st') = resetsOf (trace st).
Proof.
  induction sched as [| [i rs] sched IH]; intros Hin st Hplain.
  - exists st. simpl. rewrite app_nil_r. split; [done |].
    split; [exact Hplain |]. by repeat split.
  - destruct (Hin i rs) as [q Hq]; [left |].
    destruct (oneShard_plain c name autocommit rs i q st Hq Hplain)
      as (st1 & H1 & Hp1 & Hs1 & Ht1 & Ha1 & Hr1).
    destruct (IH (λ j r H, Hin j r (list_elem_of_further _ _ _ H)) st1 Hp1)
      as (st2 & H2 & Hp2 & Hs2 & Ht2 & Ha2 & Hr2).
    exists st2. simpl. unfold mbind, M_bind. rewrite H1, H2.
    unfold plainCalls in *. simpl. rewrite Hq. simpl.
    rewrite Ht2, Ht1, <- app_assoc. simpl.
    split; [done |]. split; [exact Hp2 |]. repeat split; congruence.
Qed.

Lemma runShards_out_of_range c name autocommit sched :
  (∃ i rs, (i, rs) ∈ sched ∧ queryAt c i = None) →
  ∀ st, plainSession (session st) →
  runShards (oneShard name autocommit (closureOf c autocommit)) sched st = Panic.
Proof.
  induction sched as [| [i rs] sched IH]; intros (j & r & Hin & Hj) st Hplain.
  - by apply elem_of_nil in Hin.
  - simpl. unfold mbind, M_bind.
    destruct (queryAt c i) as [q |] eqn:Hq.
    + destruct (oneShard_plain c name autocommit rs i q st Hq Hplain)
        as (st1 & H1 & Hp1 & _).
      rewrite H1. apply IH; [| done].
      apply elem_of_cons in Hin as [Heq | Hin]; [| by exists j, r].
      simplify_eq.
    + by rewrite (oneShard_out_of_range _ _ _ _ _ _ Hq Hplain).
Qed.

Lemma plainCalls_length c rss :
  (length rss ≤ argsLength c)%nat →
  length (plainCalls c (schedule rss)) = length rss.
Proof.
  intros Hlen. pose proof (schedule_in_range c rss Hlen) as Hin.
  unfold schedule in *. rewrite <- (length_imap (λ i rs, (i, rs)) rss).
  induction (imap (λ i rs, (i, rs)) rss) as [| [i rs] l IH]; [done |].
  unfold plainCalls in *. simpl.
  destruct (Hin i rs) as [q ->]; [left |]. simpl. f_equal.
  apply IH. intros j r H. apply (Hin j r). by right.
Qed.

(** X5. The scatter over a plain session.  When the session is outside
    any transaction and needs no reserved connection, and every shard has
    its statement, multiGoTransaction with the closure of
    ExecuteMultiShard or of StreamExecuteMulti sends exactly one Execute
    per shard, on the gateway, with transaction ID and reserved ID zero,
    whatever the tablets answer: no call is retried, no shard session is
    reset and none is handed to AppendOrUpdate. *)
Theorem X5_plain_scatter (c : Closure) (name : string) (autocommit : bool)
    (rss : list ResolvedShard) (st : State) :
  (length rss ≤ argsLength c)%nat →
  plainSession (session st) →
  ∃ st' errs,
    multiGoTransaction name rss autocommit (closureOf c autocommit) st
    = Ret st' errs
    ∧ tabletEvents (trace st')
      = (tabletEvents (trace st) ++ plainCalls c (schedule rss))%list
    ∧ length (plainCalls c (schedule rss)) = length rss
    ∧ appendOrUpdates (trace st') = appendOrUpdates (trace st)
    ∧ resetsOf (trace st') = resetsOf (trace st).
Proof.
  intros Hlen Hplain.
  pose proof (plainCalls_length c rss Hlen) as Hcalls.
  destruct rss as [| rs0 rss0] eqn:Hrss.
  { exists (clearErrors st), []. rewrite multiGoTransaction_no_shard.
    simpl. rewrite app_nil_r. by repeat split. }
  rewrite <- Hrss in *.
  assert (rss ≠ []) as Hne by (by rewrite Hrss).
  destruct (multiGoTransaction_run c name autocommit rss st Hlen Hne)
    as (stmid & Hrun & Hmgt & _).
  destruct (runShards_plain c name autocommit (schedule rss)
              (schedule_in_range c rss Hlen) (clearErrors st) Hplain)
    as (st2 & Hrun2 & _ & _ & Ht & Ha & Hr).
  rewrite Hrun in Hrun2. injection Hrun2 as <-.
  simpl in Ht, Ha, Hr.
  eexists _, _. split; [exact Hmgt |].
  destruct (Session.MustRollback (session stmid)); [| by repeat split].
  unfold rollbackState. simpl.
  rewrite tabletEvents_app, appendOrUpdates_app, resetsOf_app. simpl.
  rewrite !app_nil_r. by repeat split.
Qed.

(** X6. StreamExecuteMulti does not check that every shard has its bind
    variables.  With at least as many bind variables as shards it
    returns; with fewer, over a session that is outside any transaction
    and needs no reserved connection, the closure of the first shard
    without bind variables indexes out of range and the call panics. *)
Theorem X6_StreamExecuteMulti_bind_variables (query : string)
    (rss : list ResolvedShard) (bindVars : list (list (string * string)))
    (autocommit : bool) (callback : Callback) (st : State) :
  ((length rss ≤ length bindVars)%nat →
   ∃ st' errs,
     StreamExecuteMulti query rss bindVars autocommit callback st = Ret st' errs)
  ∧ ((length bindVars < length rss)%nat →
     plainSession (session st) →
     StreamExecuteMulti query rss bindVars autocommit callback st = Panic).
Proof.
  unfold StreamExecuteMulti. unfold mbind, M_bind.
  destruct (lockHeartBeat_run st) as (st0 & H0 & _ & Hs0 & _). rewrite H0.
  change (streamShard query bindVars autocommit callback)
    with (closureOf (ofStream query bindVars callback) autocommit).
  split.
  - intros Hlen. destruct rss as [| rs0 rss0] eqn:Hrss.
    { rewrite multiGoTransaction_no_shard. by eexists _, _. }
    rewrite <- Hrss in *.
    assert (rss ≠ []) as Hne by (by rewrite Hrss).
    destruct (multiGoTransaction_run (ofStream query bindVars callback)
                "StreamExecute" autocommit rss st0 Hlen Hne)
      as (stmid & _ & Hrun & _).
    rewrite Hrun. by eexists _, _.
  - intros Hlen Hplain. rewrite <- Hs0 in Hplain.
    destruct rss as [| rs0 rss0] eqn:Hrss; [simpl in Hlen; lia |].
    rewrite <- Hrss in *.
    unfold multiGoTransaction, setAllErrors, mbind, M_bind.
    replace (Nat.eqb (length rss) 0) with false
      by (by rewrite Hrss).
    fold (clearErrors st0).
    rewrite (runShards_out_of_range (ofStream query bindVars callback)
               "StreamExecute" autocommit (schedule rss)); [done | | done].
    destruct (lookup_lt_is_Some_2 rss (length bindVars) Hlen) as [rs Hrs].
    exists (length bindVars), rs. split.
    + unfold schedule. apply elem_of_lookup_imap. by exists (length bindVars), rs.
    + simpl. by rewrite lookup_ge_None_2.
Qed.

(** *** The streaming funnel and the message stream loop *)

Lemma processAll_cons callback r rs st :
  processAll callback (r :: rs) st
  = processAll callback rs (processOneStreamingResult callback r st).1.
Proof. done. Qed.

Lemma processAll_sent callback rs st :
  sm_fieldSent st = true →
  sm_fieldSent (processAll callback rs st) = true
  ∧ sm_delivered (processAll callback rs st)
    = (sm_delivered st ++ List.filter hasRows rs)%list.
Proof.
  revert st. induction rs as [| r rs IH]; intros st Hf.
  - simpl. by rewrite app_nil_r.
  - rewrite processAll_cons. unfold processOneStreamingResult, invoke.
    rewrite Hf. simpl.
    change (hasRows r) with (negb (Nat.eqb (length (Rows r)) 0)).
    destruct (Nat.eqb (length (Rows r)) 0); simpl.
    + by apply IH.
    + destruct (callback r (sm_world st)) as [w err]. simpl.
      destruct (IH {| sm_world := w; sm_fieldSent := true;
                      sm_delivered := sm_delivered st ++ [r];
                      sm_lastErrors := sm_lastErrors st;
                      sm_cancelled := sm_cancelled st |} eq_refl) as [H1 H2].
      rewrite H1, H2. simpl. by rewrite <- app_assoc.
Qed.

(** X7. What the funnel lets through.  Whatever the callback returns,
    the results that processOneStreamingResult hands to it are, in
    order: nothing until the first result with a schema, that result,
    and then every result with rows; once the flag is up they are the
    results with rows.  The flag is up afterwards iff it was up before or
    some result had a schema, so a failed callback raises it as well. *)
Theorem X7_funnel_lets_through (callback : Callback) (rs : list Result)
    (st : StreamState) :
  sm_delivered (processAll callback rs st)
  = (sm_delivered st
     ++ (if sm_fieldSent st then List.filter hasRows rs else fromFirstSchema rs))%list
  ∧ sm_fieldSent (processAll callback rs st)
    = sm_fieldSent st || existsb hasFields rs.
Proof.
  destruct (sm_fieldSent st) eqn:Hf.
  { destruct (processAll_sent callback rs st Hf) as [H1 H2]. by rewrite H1, H2. }
  revert st Hf. induction rs as [| r rs IH]; intros st Hf.
  - simpl. by rewrite app_nil_r.
  - rewrite processAll_cons. unfold processOneStreamingResult, invoke.
    rewrite Hf. simpl.
    change (hasFields r) with (negb (Nat.eqb (length (Fields r)) 0)).
    destruct (Nat.eqb (length (Fields r)) 0); simpl.
    + by apply IH.
    + destruct (callback r (sm_world st)) as [w err]. simpl.
      destruct (processAll_sent callback rs
                  {| sm_world := w; sm_fieldSent := true;
                     sm_delivered := sm_delivered st ++ [r];
                     sm_lastErrors := sm_lastErrors st;
                     sm_cancelled := sm_cancelled st |} eq_refl) as [H1 H2].
      rewrite H1, H2. simpl. by rewrite <- app_assoc.
Qed.

(** X8. The time tracker.  Record keeps returning the time of the first
    call, and leaves the tracker as it is, until the target is reset;
    after Reset of the target it returns the present time again; and the
    Reset or Record of another target changes nothing for this one. *)
Theorem X8_timeTracker_record_reset (target other : positive) (now later : Z)
    (st : StreamState) :
  let first := tt_Record target now st in
  tt_Record target later first.1 = (first.1, first.2)
  ∧ (tt_Record target later (tt_Reset target first.1)).2 = later
  ∧ (other ≠ target →
     (tt_Record target later (tt_Reset other first.1)).2 = first.2
     ∧ (tt_Record target later (tt_Record other later first.1).1).2 = first.2).
Proof.
  intros first. subst first. unfold tt_Record, tt_Reset, withLastErrors.
  destruct (sm_lastErrors st !! target) as [t0 |] eqn:E; simpl.
  - rewrite E, lookup_delete_eq. split; [done |]. split; [done |].
    intros Hne. rewrite lookup_delete_ne, E by done. split; [done |].
    destruct (sm_lastErrors st !! other); simpl; [by rewrite E |].
    by rewrite lookup_insert_ne, E.
  - rewrite lookup_insert_eq, lookup_delete_eq. split; [done |]. split; [done |].
    intros Hne. rewrite lookup_delete_ne, lookup_insert_eq by done.
    split; [done |].
    rewrite lookup_insert_ne by done.
    destruct (sm_lastErrors st !! other); simpl.
    + by rewrite lookup_insert_eq.
    + by rewrite lookup_insert_ne, lookup_insert_eq.
Qed.

Lemma messageStreamPass_barren grace callback rs a st t0 :
  barren a →
  sm_cancelled st = false →
  sm_lastErrors st !! rs_TargetAddr rs = Some t0 →
  messageStreamPass grace callback rs a st
  = if grace <=? at_nowSince a - t0
    then (cancel st, Return (Some (errGracePeriod rs grace)))
    else (st, Retry (grace ÷ 5)).
Proof.
  intros (Hres & Htr & Hp & Hw) Hc Ht.
  unfold messageStreamPass. rewrite Hres. simpl.
  apply mustRetry_transient in Htr. rewrite Htr. simpl.
  unfold ctxDone, tt_Record. rewrite Hc, Hp, Ht. simpl.
  by rewrite Hc, Hw.
Qed.

Lemma messageStreamLoop_barren grace callback rs passes st t0 :
  Forall barren passes →
  Forall (λ p, at_nowSince p - t0 < grace) passes →
  sm_cancelled st = false →
  sm_lastErrors st !! rs_TargetAddr rs = Some t0 →
  ∀ rest,
    messageStreamLoop grace callback rs (passes ++ rest) st
    = messageStreamLoop grace callback rs rest st.
Proof.
  induction 1 as [| a passes Ha _ IH]; intros Hlt Hc Ht rest; [done |].
  apply Forall_cons in Hlt as [Hlt1 Hlt].
  simpl. rewrite (messageStreamPass_barren _ _ _ _ _ t0 Ha Hc Ht).
  destruct (grace <=? at_nowSince a - t0) eqn:Hg; [apply Z.leb_le in Hg; lia |].
  by apply IH.
Qed.

(** X9. The message stream loop under continuous failure.  While every
    pass delivers nothing, ends in a transient way and finds the context
    alive, the grace period is measured from the first failure of the
    target, however many passes follow: the loop keeps retrying as long
    as less than the grace period has passed since then, without
    touching the tracker again, and the first pass that finds the grace
    period used up cancels the shared context and returns
    DEADLINE_EXCEEDED, whatever would come later. *)
Theorem X9_messageStream_gives_up (messageStreamGracePeriod : Z)
    (callback : Callback) (rs : ResolvedShard) (first : Attempt)
    (passes : list Attempt) (last : Attempt) (later : list Attempt)
    (st : StreamState) :
  let t0 := firstFailure rs (at_now first) st in
  let tracked := (tt_Record (rs_TargetAddr rs) (at_now first) st).1 in
  sm_cancelled st = false →
  Forall barren (first :: passes ++ [last]) →
  Forall (λ p, at_nowSince p - t0 < messageStreamGracePeriod) (first :: passes) →
  messageStreamGracePeriod ≤ at_nowSince last - t0 →
  messageStreamLoop messageStreamGracePeriod callback rs (first :: passes) st
  = (tracked, None)
  ∧ messageStreamLoop messageStreamGracePeriod callback rs
      (first :: passes ++ last :: later) st
    = (cancel tracked,
       Some (Some (errGracePeriod rs messageStreamGracePeriod)))
  ∧ vterrors_Code (errGracePeriod rs messageStreamGracePeriod)
    = Code_DEADLINE_EXCEEDED.
Proof.
  intros t0 tracked Hc Hbar Hlt Hge.
  apply Forall_cons in Hbar as [Hfirst Hbar].
  apply Forall_app in Hbar as [Hbar Hlast].
  apply Forall_cons in Hlast as [Hlast _].
  apply Forall_cons in Hlt as [Hlt1 Hlt].
  destruct (tt_Record_spec rs (at_now first) st) as (Hts & Hcr & Hlk).
  fold t0 tracked in Hts, Hcr, Hlk. rewrite Hc in Hcr.
  assert (messageStreamPass messageStreamGracePeriod callback rs first st
          = (tracked, Retry (messageStreamGracePeriod ÷ 5))) as Hpass.
  { destruct Hfirst as (Hres & Htr & Hp & Hw).
    unfold messageStreamPass. rewrite Hres. simpl.
    apply mustRetry_transient in Htr. rewrite Htr. simpl.
    unfold ctxDone at 1. rewrite Hc, Hp. simpl.
    destruct (tt_Record (rs_TargetAddr rs) (at_now first) st) as [st2 ts] eqn:E.
    simpl in *. subst ts tracked.
    destruct (messageStreamGracePeriod <=? at_nowSince first - t0) eqn:Hg;
      [apply Z.leb_le in Hg; lia |].
    unfold ctxDone. by rewrite Hcr, Hw. }
  split; [| split; [| done]].
  - simpl. rewrite Hpass.
    rewrite <- (app_nil_r passes).
    by rewrite (messageStreamLoop_barren _ _ _ _ _ t0 Hbar Hlt Hcr Hlk).
  - simpl. rewrite Hpass.
    rewrite (messageStreamLoop_barren _ _ _ _ _ t0 Hbar Hlt Hcr Hlk).
    simpl. rewrite (messageStreamPass_barren _ _ _ _ _ t0 Hlast Hcr Hlk).
    destruct (messageStreamGracePeriod <=? at_nowSince last - t0) eqn:Hg;
      [done | apply Z.leb_gt in Hg; lia].
Qed.

(** X10. A delivery restarts the grace period.  When the stream of a
    pass handed at least one result to the callback, the tracker of the
    target was reset, so the elapsed time of this pass is measured from
    its own Record; then, unless the grace period has passed within the
    pass itself, the only error the pass can return is the error the
    stream ended with, and that error is not transient. *)
Theorem X10_delivery_restarts_grace_period (messageStreamGracePeriod : Z)
    (callback : Callback) (rs : ResolvedShard) (a : Attempt) (st : StreamState)
    (e : error) :
  at_results a ≠ [] →
  at_nowSince a - at_now a < messageStreamGracePeriod →
  (messageStreamPass messageStreamGracePeriod callback rs a st).2
  = Return (Some e) →
  firstFailure rs (at_now a) (deliverAll callback rs (at_results a) st) = at_now a
  ∧ at_err a = Some e ∧ ¬ transientEnd (at_err a).
Proof.
  intros Hres Hlt Hret.
  destruct (at_results a) as [| r results] eqn:Hr; [done |].
  pose proof (deliverAll_resets callback rs r results st) as Hnone.
  assert (firstFailure rs (at_now a) (deliverAll callback rs (r :: results) st)
          = at_now a) as Hff by (unfold firstFailure; by rewrite Hnone).
  split; [done |].
  unfold messageStreamPass in Hret. rewrite Hr in Hret.
  remember (deliverAll callback rs (r :: results) st) as st1 eqn:Hst1.
  destruct (mustRetry (at_err a)) eqn:Hm; cbn [negb] in Hret.
  - exfalso.
    destruct (ctxDone _ (at_parentDone a)); [discriminate |].
    unfold tt_Record in Hret. rewrite Hnone in Hret.
    destruct (messageStreamGracePeriod <=? at_nowSince a - at_now a) eqn:Hg;
      [apply Z.leb_le in Hg; lia |].
    destruct (ctxDone _ (at_parentDoneWaiting a)); discriminate.
  - injection Hret as Hret. split; [done |].
    rewrite <- mustRetry_transient. by rewrite Hm.
Qed.

Section LockProperties.

Context {lk : LockEnvironment env}.

Ltac unfold_lock :=
  unfold lockBody, lockInfo, getQueryService, Execute, ReserveExecute, callTablet,
    releaseLock, updateLockHeartbeat, setLockSession, lockReturn,
    getSession, modifySession, emit, liftWorld, readWorld,
    mbind, M_bind, mret, M_ret in *.

Lemma ExecuteLock_run hasSession rs query st stB r ret err :
  lockBody hasSession rs query st = Ret stB (r, ret, err) →
  ExecuteLock hasSession rs query st
  = Ret (let st' := endState (startAction "ExecuteLock" (rs_Target rs)) err
                      (clearErrors stB) in
         {| world := world st'; session := session st'; trace := trace st';
            allErrors := allErrors stB; qr := qr st' |})
        (r, ret).
Proof.
  intros Hb. unfold ExecuteLock, withOwnRecorder, mbind, M_bind, mret, M_ret.
  rewrite Hb. fold (clearErrors stB). by rewrite endAction_endState.
Qed.

Ltac lock_none :=
  eexists _, _, _, _, []; rewrite app_nil_r; (split; [reflexivity |]);
  simpl; repeat split; eauto 10.

Ltac lock_call :=
  eexists _, _, _, _, [_]; (split; [reflexivity |]);
  simpl; repeat split; eauto 10.

(** the body in full: no call, or the one call of [lockCall] *)
Lemma lockBody_run hasSession rs query st :
  ∃ stB r ret err evs,
    lockBody hasSession rs query st = Ret stB (r, ret, err)
    ∧ allErrors stB = allErrors st ∧ qr stB = qr st
    ∧ trace stB = (trace st ++ evs)%list
    ∧ (evs = []
       ∨ ∃ qs c, evs = [EvTablet false qs (rs_Target rs) query c]
                 ∧ lockCall (session st) c)
    ∧ ((∃ res, r = Some res ∧ ret = None ∧ err = None)
       ∨ (∃ e, r = None ∧ ret = Some e)).
Proof.
  unfold lockCall. unfold_lock.
  destruct hasSession; simpl; [| lock_none].
  destruct (LockSession (session st)) as [ls |] eqn:Hls; simpl.
  - case_bool_decide as Hne; simpl.
    { destruct (ReleaseLock (session st) (world st)) as [w s] eqn:Hr. lock_none. }
    destruct (ss_TabletAlias ls) as [al |]; simpl;
      [destruct (QueryServiceByAlias _ _ _ _) as [qs | e]; simpl; [| lock_none] |];
      (destruct (Z.eqb_spec (ss_ReservedId ls) 0) as [Hz | Hz]; simpl; [lock_none |]);
      destruct (tablet _ _ _ _ _) as [w rp]; simpl;
      (destruct (rp_err rp) as [e |]; simpl;
       [destruct (wasConnectionClosed e); simpl |]);
      lock_call.
  - destruct (tablet (rs_Gateway rs) _ _ _ _) as [w rp]; simpl.
    destruct (rp_err rp) as [e |]; simpl;
      destruct (Z.eqb_spec (rp_reservedID rp) 0) as [Hz | Hz]; simpl;
      try destruct (ReleaseLock _ _) as [w' s'];
      lock_call.
Qed.

Lemma endState_tabletEvents statsKey err st :
  tabletEvents (trace (endState statsKey err st)) = tabletEvents (trace st)
  ∧ LockSession (session (endState statsKey err st)) = LockSession (session st)
  ∧ world (endState statsKey err st) = world st.
Proof.
  unfold endState. destruct err as [e |]; [| done]. simpl.
  rewrite !tabletEvents_app.
  destruct (counted e), (asksRollbackb e); simpl; by rewrite ?app_nil_r.
Qed.

Lemma ExecuteLock_shape (hasSession : bool) (rs : ResolvedShard)
    (query : BoundQuery) (st : State) :
  ∃ st' r evs,
    ExecuteLock hasSession rs query st = Ret st' r
    ∧ allErrors st' = allErrors st ∧ qr st' = qr st
    ∧ trace st' = (trace st ++ evs)%list
    ∧ (tabletEvents evs = []
       ∨ ∃ qs c, tabletEvents evs = [(false, qs, rs_Target rs, query, c)]
                 ∧ lockCall (session st) c)
    ∧ ((∃ res, r = (Some res, None)) ∨ (∃ e, r = (None, Some e))).
Proof.
  destruct (lockBody_run hasSession rs query st)
    as (stB & r & ret & err & evs & Hb & He & Hq & Htr & Hev & Hr).
  rewrite (ExecuteLock_run _ _ _ _ _ _ _ _ Hb). unfold endState.
  assert (Hr' : (∃ res, (r, ret) = (Some res, None)) ∨ (∃ e, (r, ret) = (None, Some e))).
  { destruct Hr as [(res & -> & -> & ?) | (e' & -> & ->)]; eauto. }
  destruct err as [e |]; simpl.
  - exists
      {| world := world stB;
         session := if asksRollbackb e then Session.SetRollback (session stB)
                    else session stB;
         trace := trace stB
                  ++ (if counted e
                      then [EvErrorCount (startAction "ExecuteLock" (rs_Target rs))]
                      else [])
                  ++ (if asksRollbackb e then [EvSetRollback] else []);
         allErrors := allErrors stB; qr := qr stB |},
      (r, ret),
      (evs ++ (if counted e
               then [EvErrorCount (startAction "ExecuteLock" (rs_Target rs))]
               else [])
           ++ (if asksRollbackb e then [EvSetRollback] else []))%list.
    split; [done |]. simpl. rewrite Htr, <- app_assoc.
    split; [done |]. split; [done |]. split; [done |]. split; [| done].
    rewrite tabletEvents_app.
    destruct (counted e), (asksRollbackb e); simpl; rewrite app_nil_r;
      (destruct Hev as [-> | (qs & c & -> & Hc)]; [by left |]);
      right; by exists qs, c.
  - exists stB, (r, ret), evs. split; [by destruct stB |].
    split; [done |]. split; [done |]. split; [done |]. split; [| done].
    destruct Hev as [-> | (qs & c & -> & Hc)]; [by left |].
    right. by exists qs, c.
Qed.

(** X11. When the session holds a lock session for another target,
    ExecuteLock makes no tablet call: it applies ReleaseLock, counts the
    error, and returns the nil result with a NOT_FOUND error. *)
Theorem X11_ExecuteLock_target_mismatch (rs : ResolvedShard) (query : BoundQuery)
    (st : State) (ls : ShardSession) :
  LockSession (session st) = Some ls →
  rs_Target rs ≠ ss_Target ls →
  ExecuteLock true rs query st
  = Ret {| world := (ReleaseLock (session st) (world st)).1;
           session := (ReleaseLock (session st) (world st)).2;
           trace := trace st ++ [EvErrorCount (startAction "ExecuteLock" (rs_Target rs))];
           allErrors := allErrors st; qr := qr st |}
        (None, Some (vterrors_Wrap errLockTarget "Any previous held locks are released"))
  ∧ vterrors_Code (vterrors_Wrap errLockTarget "Any previous held locks are released")
    = Code_NOT_FOUND.
Proof.
  intros Hls Hne. split; [| done].
  destruct (ReleaseLock (session st) (world st)) as [w s] eqn:Hr.
  erewrite ExecuteLock_run.
  2: { unfold_lock. simpl. rewrite Hls. simpl.
       rewrite bool_decide_eq_true_2 by done. rewrite Hr. reflexivity. }
  done.
Qed.

(** X12. Without a lock session ExecuteLock issues ReserveExecute on the
    gateway.  Whenever the tablet hands back a non-zero reserved ID, the
    lock session becomes the target with that reserved ID and the alias
    returned, even when the call also returned an error (ReleaseLock is
    applied first then); with a zero reserved ID the session keeps no lock
    session. *)
Theorem X12_ExecuteLock_reserve (rs : ResolvedShard) (query : BoundQuery) (st : State) :
  LockSession (session st) = None →
  let c := CallReserveExecute (Session.SetPreQueries (session st)) 0 in
  let rp := (tablet (rs_Gateway rs) (rs_Target rs) query c (world st)).2 in
  ∃ st',
    ExecuteLock true rs query st
    = Ret st' (match rp_err rp with
               | Some e => (None, Some e)
               | None => (Some (rp_result rp), None)
               end)
    ∧ tabletEvents (trace st')
      = (tabletEvents (trace st) ++ [(false, rs_Gateway rs, rs_Target rs, query, c)])%list
    ∧ (rp_reservedID rp ≠ 0 →
       LockSession (session st')
       = Some {| ss_Target := rs_Target rs; ss_TransactionId := 0;
                 ss_ReservedId := rp_reservedID rp; ss_TabletAlias := rp_alias rp |})
    ∧ (rp_reservedID rp = 0 → LockSession (session st') = None).
Proof.
  intros Hls c rp. subst c rp.
  destruct (tablet (rs_Gateway rs) (rs_Target rs) query _ (world st)) as [w rp] eqn:Ht.
  simpl.
  assert (∃ stB err,
    lockBody true rs query st
    = Ret stB (match err with
               | Some e => (None, Some e, Some e)
               | None => (Some (rp_result rp), None, None)
               end)
    ∧ err = rp_err rp
    ∧ tabletEvents (trace stB)
      = (tabletEvents (trace st)
         ++ [(false, rs_Gateway rs, rs_Target rs, query,
              CallReserveExecute (Session.SetPreQueries (session st)) 0)])%list
    ∧ LockSession (session stB)
      = if rp_reservedID rp =? 0 then None
        else Some {| ss_Target := rs_Target rs; ss_TransactionId := 0;
                     ss_ReservedId := rp_reservedID rp;
                     ss_TabletAlias := rp_alias rp |})
    as (stB & err & Hb & -> & Htr & Hl).
  { unfold_lock. simpl. rewrite Hls. simpl. rewrite Ht. simpl.
    destruct (rp_err rp) as [e |]; simpl;
      destruct (rp_reservedID rp =? 0) eqn:Hz; simpl;
      try destruct (ReleaseLock _ _) as [w' s'];
      [eexists _, (Some e) | eexists _, (Some e) | eexists _, None | eexists _, None];
      (split; [reflexivity |]); simpl;
      rewrite tabletEvents_app; by repeat split. }
  destruct (rp_err rp) as [e |];
    rewrite (ExecuteLock_run _ _ _ _ _ _ _ _ Hb);
    eexists; (split; [reflexivity |]); cbn [world session trace];
    destruct (endState_tabletEvents (startAction "ExecuteLock" (rs_Target rs))
                (Some e) (clearErrors stB)) as (E1 & E2 & _) || idtac.
  - rewrite E1, E2. simpl. rewrite Htr, Hl. split; [done |].
    split; intros Hz; [apply Z.eqb_neq in Hz | apply Z.eqb_eq in Hz]; by rewrite Hz.
  - simpl. rewrite Htr, Hl. split; [done |].
    split; intros Hz; [apply Z.eqb_neq in Hz | apply Z.eqb_eq in Hz]; by rewrite Hz.
Qed.

(** X13. Every run of ExecuteLock returns, with either a result or an
    error, never both; it issues no tablet call or exactly one, which is
    a ReserveExecute when the session has no lock session and else an
    Execute on the non-zero reserved ID of the lock session, in both
    cases with transaction ID 0. *)
Theorem X13_ExecuteLock_one_call (hasSession : bool) (rs : ResolvedShard)
    (query : BoundQuery) (st : State) :
  ∃ st' r evs,
    ExecuteLock hasSession rs query st = Ret st' r
    ∧ allErrors st' = allErrors st ∧ qr st' = qr st
    ∧ trace st' = (trace st ++ evs)%list
    ∧ (tabletEvents evs = []
       ∨ ∃ qs c, tabletEvents evs = [(false, qs, rs_Target rs, query, c)]
                 ∧ lockCall (session st) c)
    ∧ ((∃ res, r = (Some res, None)) ∨ (∃ e, r = (None, Some e))).
Proof. apply ExecuteLock_shape. Qed.

(** X14. With a lock session for the target, a non-zero reserved ID and a
    handle, ExecuteLock issues Execute on the reserved connection and
    updates the heartbeat whatever the answer.  An error that means
    connection closed clears the lock session and is returned wrapped
    ("held locks released"); any other error is returned as it is and the
    lock session stays; without error the result is returned. *)
Theorem X14_ExecuteLock_on_lock_session (rs : ResolvedShard) (query : BoundQuery)
    (st : State) (ls : ShardSession) (qs : QueryService) :
  LockSession (session st) = Some ls →
  rs_Target rs = ss_Target ls →
  ss_ReservedId ls ≠ 0 →
  match ss_TabletAlias ls with
  | Some alias => QueryServiceByAlias (rs_Gateway rs) alias (rs_Target rs) (world st)
  | None => inl (rs_Gateway rs)
  end = inl qs →
  let c := CallExecute 0 (ss_ReservedId ls) in
  let r1 := tablet qs (rs_Target rs) query c (world st) in
  let closed := match rp_err r1.2 with
                | Some e => wasConnectionClosed e
                | None => false
                end in
  ∃ st',
    ExecuteLock true rs query st
    = Ret st' (match rp_err r1.2 with
               | Some e =>
                   (None, Some (if wasConnectionClosed e
                                then vterrors_Wrap e "held locks released" else e))
               | None => (Some (rp_result r1.2), None)
               end)
    ∧ tabletEvents (trace st')
      = (tabletEvents (trace st) ++ [(false, qs, rs_Target rs, query, c)])%list
    ∧ LockSession (session st') = (if closed then None else Some ls)
    ∧ world st' = UpdateLockHeartbeat r1.1.
Proof.
  intros Hls Htarget Hrid Hqs c r1 closed. subst c r1 closed.
  destruct (tablet qs (rs_Target rs) query _ (world st)) as [w rp] eqn:Ht. simpl.
  apply Z.eqb_neq in Hrid.
  assert (∃ stB err,
    lockBody true rs query st
    = Ret stB (match err with
               | Some e => (None, Some e, Some e)
               | None => (Some (rp_result rp), None, None)
               end)
    ∧ err = match rp_err rp with
            | Some e => Some (if wasConnectionClosed e
                              then vterrors_Wrap e "held locks released" else e)
            | None => None
            end
    ∧ tabletEvents (trace stB)
      = (tabletEvents (trace st)
         ++ [(false, qs, rs_Target rs, query, CallExecute 0 (ss_ReservedId ls))])%list
    ∧ LockSession (session stB)
      = (if match rp_err rp with
            | Some e => wasConnectionClosed e
            | None => false
            end then None else Some ls)
    ∧ world stB = UpdateLockHeartbeat w)
    as (stB & err & Hb & Herr & Htr & Hl & Hw).
  { unfold_lock. simpl. rewrite Hls. simpl.
    rewrite bool_decide_eq_false_2 by (intros H; by apply H).
    simpl.
    destruct (ss_TabletAlias ls) as [al |]; simpl;
      [rewrite Hqs | injection Hqs as <-]; simpl; rewrite Hrid, Ht; simpl;
      (destruct (rp_err rp) as [e |]; simpl;
       [destruct (wasConnectionClosed e); simpl |];
       [eexists _, (Some _) | eexists _, (Some _) | eexists _, None];
       (split; [reflexivity |]); simpl;
       rewrite tabletEvents_app; by repeat split). }
  rewrite Herr in Hb.
  destruct (rp_err rp) as [e |];
    rewrite (ExecuteLock_run _ _ _ _ _ _ _ _ Hb);
    eexists; (split; [reflexivity |]); cbn [world session trace].
  - destruct (endState_tabletEvents (startAction "ExecuteLock" (rs_Target rs))
                (Some (if wasConnectionClosed e
                       then vterrors_Wrap e "held locks released" else e))
                (clearErrors stB)) as (E1 & E2 & E3).
    rewrite E1, E2, E3. simpl. by rewrite Htr, Hl, Hw.
  - simpl. by rewrite Htr, Hl, Hw.
Qed.

(** X15. runLockQuery, the keep-alive, runs on the lock session's own
    target: it never panics when there is a lock session, and it issues
    either no tablet call or exactly [select 1] as an Execute with
    transaction ID 0 on the non-zero reserved ID of the lock session;
    without a lock session it panics. *)
Theorem X15_runLockQuery_keeps_alive (gateway : QueryService)
    (addr : positive) (st : State) :
  match LockSession (session st) with
  | None => runLockQuery gateway addr st = Panic
  | Some ls =>
      ∃ st' evs,
        runLockQuery gateway addr st = Ret st' tt
        ∧ trace st' = (trace st ++ evs)%list
        ∧ (tabletEvents evs = []
           ∨ ∃ qs, tabletEvents evs
                   = [(false, qs, ss_Target ls,
                       {| Sql := "select 1"; BindVariables := [] |},
                       CallExecute 0 (ss_ReservedId ls))]
                   ∧ ss_ReservedId ls ≠ 0)
  end.
Proof.
  unfold runLockQuery, getSession, mbind, M_bind, mret, M_ret.
  destruct (LockSession (session st)) as [ls |] eqn:Hls; [| done].
  destruct (ExecuteLock_shape true
              {| rs_TargetAddr := addr; rs_Target := ss_Target ls;
                 rs_Gateway := gateway |}
              {| Sql := "select 1"; BindVariables := [] |} st)
    as (st' & r & evs & Hrun & _ & _ & Htr & Hev & _).
  rewrite Hrun. exists st', evs. split; [done |]. split; [done |].
  destruct Hev as [H | (qs & c & H & Hc)]; [by left |].
  right. exists qs. unfold lockCall in Hc. rewrite Hls in Hc.
  destruct Hc as [-> Hnz]. done.
Qed.

End LockProperties.
End MoreProperties.

(** ** The properties on the example gateway *)

Import Fixture.
Import Scenario.

(** actionInfo on the four kinds of session of the examples *)
Example actionInfo_plain : actionInfo targetX plain false = shardActionInfo_zero.
Proof. reflexivity. Qed.

Example actionInfo_inTx :
  sai_actionNeeded (actionInfo targetX inTx false) = begin
  ∧ sai_actionNeeded (actionInfo targetX inTx true) = nothing.
Proof. split; reflexivity. Qed.

Example actionInfo_reservedOnA : actionInfo targetX reservedOnA false = infoOnA.
Proof. reflexivity. Qed.

Example actionInfo_other_shard :
  sai_actionNeeded (actionInfo targetY reservedOnA false) = reserve.
Proof. reflexivity. Qed.

(** Reserved connection 42 is lost on the tablet of cell "a": the call is
    issued again as ReserveExecute, after the shard session was reset. *)
Lemma C2_witness :
  ∃ st' v',
    switchOf (env := env) false count shardX select1 (initLocals infoOnA onA)
      (start reservedOnA) = Ret st' v'
    ∧ trace st'
      = [EvTablet false onA targetX select1 (CallExecute 0 42);
         EvResetShard (Some aliasA);
         EvTablet false onA targetX select1 (CallReserveExecute ["set @x = 1"] 0)]
    ∧ session st' = Session.ResetShard (Some aliasA) reservedOnA
    ∧ sai_actionNeeded (l_info v') = reserve.
Proof.
  exact (proj2 (C2_transparent_retry (env := env) false count shardX select1
                  infoOnA onA (start reservedOnA))).
Defined.

(** Shard -80 answers ABORTED inside a transaction: the flag is raised and
    the rollback runs once. *)
Lemma C3_witness :
  ∃ st' errs,
    multiGoTransaction (env := env) "Execute" [shardX; shardY] false
      (closureOf (ofExecute [abort; select1] true) false) (start inTx)
    = Ret st' errs
    ∧ errs = [errAborted]
    ∧ length (rollbacksOf (trace st')) = 1%nat.
Proof.
  destruct (proj1 (proj2 (C3_rollback_on_error (env := env)
                            (ofExecute [abort; select1] true) "Execute" false
                            [shardX; shardY] (start inTx))))
    as (stmid & st' & Hrun & Hmulti & _ & _ & _ & Hrb);
    [done | simpl; lia |].
  vm_compute in Hrun. injection Hrun as <-.
  exists st', [errAborted]. split; [exact Hmulti |]. split; [reflexivity |].
  rewrite Hrb. reflexivity.
Defined.

(** With reserved connection 42 stored for shard -80, the handle is the
    one QueryServiceByAlias gives for the stored alias. *)
Lemma C4_witness :
  getQueryService (env := env) shardX (actionInfo targetX reservedOnA false)
    (start reservedOnA)
  = Ret (start reservedOnA) (inl onA).
Proof.
  refine (proj1 (C4_reserved_routes_by_alias (env := env) (ofExecute [select1] false)
                   false shardX 0 (start reservedOnA) aliasA _ _ _ _)).
  - reflexivity.
  - vm_compute. discriminate.
  - reflexivity.
  - vm_compute. by eexists.
Defined.

(** Reserved connection 42 is stored for shard -80 without an alias: the
    closure takes the gateway, which no call of QueryServiceByAlias
    returns, and issues its call there. *)
Lemma C4_counterexample :
  Session.InReservedConn reservedNoAlias = true
  ∧ storedReservedID reservedNoAlias targetX = 42
  ∧ storedAlias reservedNoAlias targetX = None
  ∧ getQueryService (env := env) shardX (actionInfo targetX reservedNoAlias false)
      (start reservedNoAlias)
    = Ret (start reservedNoAlias) (inl gateway)
  ∧ (∀ (alias : TabletAlias) (w : @World env),
       QueryServiceByAlias (Environment := env) gateway alias targetX w
       ≠ inl gateway)
  ∧ ∃ st' r,
      closureOf (env := env) (ofExecute [select1] false) false shardX 0%nat
        (actionInfo targetX reservedNoAlias false) (start reservedNoAlias)
      = Ret st' r
      ∧ trace st' = [EvTablet false gateway targetX select1 (CallExecute 0 42)].
Proof.
  split; [reflexivity |]. split; [reflexivity |]. split; [reflexivity |].
  split; [reflexivity |]. split; [intros alias w; discriminate |].
  eexists _, _. split; [vm_compute; reflexivity | reflexivity].
Qed.

(** C5. ExecuteMultiShard does not always return a non-nil result, as
    its documentation says it does: with one shard and no query it returns
    the nil result and the INTERNAL error alone; with two shards of one
    row each and a cap of one row it returns the nil result and the
    RESOURCE_EXHAUSTED error alone, the two rows withheld. *)
Theorem C5_nil_result :
  ExecuteMultiShard (env := env) [shardX] [] false false (start plain)
  = Ret (start plain) (None, [errMismatch])
  ∧ ∃ st',
      ExecuteMultiShard (env := env) [shardX; shardY] [select1; select1] false false
        (start plain)
      = Ret st' (None, [errRowCount (env := env)])
      ∧ Rows (qr st') = [["1"]; ["1"]].
Proof.
  split; [reflexivity |]. eexists. split; [vm_compute; reflexivity |]. reflexivity.
Qed.

(** No shard, and the rollback flag up from before the call:
    ExecuteMultiShard returns without any rollback. *)
Lemma C3_counterexample :
  Session.MustRollback (session (start flagged)) = true
  ∧ ∃ st',
      ExecuteMultiShard (env := env) [] [] false false (start flagged)
      = Ret st' (Some new_Result, [])
      ∧ Session.MustRollback (session st') = true
      ∧ rollbacksOf (trace st') = [].
Proof.
  split; [reflexivity |]. eexists. split; [vm_compute; reflexivity |].
  split; reflexivity.
Qed.

(** The cap is one row and the accumulated result has one: the row of the
    shard is appended all the same. *)
Lemma C6_counterexample :
  rowCount atCap = maxMemoryRows (Environment := env)
  ∧ ∃ st' r,
      executeShard (env := env) [select1] false false shardX 0
        shardActionInfo_zero atCap = Ret st' r
      ∧ r.2 = None
      ∧ Rows (qr st') = [["1"]; ["1"]]
      ∧ qr st' ≠ qr atCap.
Proof.
  split; [reflexivity |]. eexists _, _. split; [vm_compute; reflexivity |].
  split; [reflexivity |]. split; [reflexivity |]. discriminate.
Qed.

(** Transaction 5 is open on shard -80 and autocommit is asked: no call;
    without a transaction the closure runs as usual. *)
Lemma C7_witness :
  executeShard (env := env) [select1] true false shardX 0 infoTx5 (start txOnB)
  = Ret (start txOnB) (None, Some (errAutocommit 5))
  ∧ executeShard (env := env) [select1] true false shardX 0 shardActionInfo_zero
      (start plain)
    = executeShard (env := env) [select1] false false shardX 0 shardActionInfo_zero
        (start plain).
Proof.
  split.
  - refine (proj1 (proj1 (C7_autocommit_precondition (env := env) [select1] false
                             "" [] count shardX 0 infoTx5 (start txOnB)) _)).
    discriminate.
  - refine (proj1 (proj2 (C7_autocommit_precondition (env := env) [select1] false
                             "" [] count shardX 0 shardActionInfo_zero (start plain)) _)).
    reflexivity.
Defined.

(** A schema, then a schema-only result, then rows: two deliveries. *)
Lemma C8_witness :
  match sm_delivered (processAll (env := env) count
                        [fieldsOnly; fieldsOnly; rowsOnly] streamStart) with
  | [] => True
  | first :: later => Fields first ≠ [] ∧ Forall (λ r, Rows r ≠ []) later
  end.
Proof.
  refine (proj1 (C8_streaming_funnel (env := env) count)
            [fieldsOnly; fieldsOnly; rowsOnly] streamStart _ _);
    reflexivity.
Defined.



(** After 31 seconds of failures the stream is given up. *)
Example grace_period_exhausted :
  (messageStreamPass (env := env) defaultGracePeriod count shardX demotedLate
     streamStart).2
  = Return (Some (errGracePeriod (env := env) shardX defaultGracePeriod))
  ∧ sm_cancelled (messageStreamPass (env := env) defaultGracePeriod count shardX
                    demotedLate streamStart).1 = true.
Proof. split; vm_compute; reflexivity. Qed.

(** Two shards in autocommit answer one row each; the opted-out call
    returns both rows, no error, and the session as it was. *)
Example two_shards_autocommit :
  ∃ st' result,
    ExecuteMultiShard (env := env) [shardX; shardY] [select1; select1] true true
      (start plain)
    = Ret st' (Some result, [])
    ∧ Rows result = [["1"]; ["1"]]
    ∧ session st' = plain.
Proof. eexists _, _. split; [vm_compute; reflexivity |]. split; reflexivity. Qed.

(** A begin on two shards leaves two shard sessions with the transaction
    and the alias the tablets returned. *)
Example begin_on_two_shards :
  ∃ st' r,
    ExecuteMultiShard (env := env) [shardX; shardY] [select1; select1] false true
      (start inTx)
    = Ret st' r
    ∧ ShardSessions (session st')
      = [{| ss_Target := targetX; ss_TransactionId := 9; ss_ReservedId := 0;
            ss_TabletAlias := Some aliasB |};
         {| ss_Target := targetY; ss_TransactionId := 9; ss_ReservedId := 0;
            ss_TabletAlias := Some aliasB |}].
Proof. eexists _, _. split; [vm_compute; reflexivity |]. reflexivity. Qed.

(** The lost reserved connection 42 is replaced: the session ends with
    reserved connection 77 on the tablet that answered. *)
Example reserved_reconnection :
  ∃ st' r,
    ExecuteMultiShard (env := env) [shardX] [select1] false true (start reservedOnA)
    = Ret st' r
    ∧ r.2 = []
    ∧ ShardSessions (session st')
      = [{| ss_Target := targetX; ss_TransactionId := 0; ss_ReservedId := 77;
            ss_TabletAlias := Some aliasB |}].
Proof.
  eexists _, _. split; [vm_compute; reflexivity |]. split; reflexivity.
Qed.

(** the connection-closed pattern on a few messages *)
Example txClosed_ended :
  txClosed.MatchString "vttablet: rpc error: transaction 12:ab ended at 10:00" = true.
Proof. reflexivity. Qed.

Example txClosed_not_found :
  txClosed.MatchString "transaction 7 not found" = true.
Proof. reflexivity. Qed.

Example txClosed_no_id :
  txClosed.MatchString "transaction  ended" = false.
Proof. reflexivity. Qed.

Example txClosed_upper :
  txClosed.MatchString "transaction ABC ended" = false.
Proof. reflexivity. Qed.

(** ** The further scenarios, run *)

(** With autocommit, the lost reserved connection 42 is replaced by a
    ReserveExecute without transaction. *)
Lemma X2_witness :
  ∃ st' r evs,
    closureOf (env := env) (ofExecute [select1] false) true shardX 0%nat
      (actionInfo targetX reservedOnA true) (start reservedOnA) = Ret st' r
    ∧ trace st' = (trace (start reservedOnA) ++ evs)%list
    ∧ Forall (λ ev, transactional ev.2 = false) (tabletEvents evs).
Proof.
  apply (X2_autocommit_never_transactional (env := env)
           (ofExecute [select1] false) shardX 0%nat (start reservedOnA)).
  by eexists.
Defined.

(** Two shards in a transaction, the first answers ABORTED: one error,
    one increment of the counter, two tablet calls. *)
Lemma X3_witness :
  ∃ st' errs,
    multiGoTransaction (env := env) "Execute" [shardX; shardY] false
      (closureOf (ofExecute [abort; select1] true) false) (start inTx)
    = Ret st' errs
    ∧ (length errs ≤ 2)%nat
    ∧ (length (errorCountsOf (trace st'))
       = 0 + length (List.filter counted errs))%nat
    ∧ (length (tabletEvents (trace st')) ≤ 0 + 2 * 2)%nat.
Proof.
  apply (X3_multiGoTransaction_accounting (env := env)
           (ofExecute [abort; select1] true) "Execute" false [shardX; shardY]
           (start inTx)).
  simpl. lia.
Defined.

(** The BeginExecute on shard -80 fails after it opened transaction 9:
    the shard session with transaction 9 is recorded, and the error too. *)
Lemma X4_witness :
  ∃ st',
    oneShard (env := envHalf) "Execute" false
      (closureOf (ofExecute [select1] false) false) shardHalf 0 (startHalf inTx)
    = Ret st' tt
    ∧ appendOrUpdates (trace st')
      = [{| ss_Target := targetX; ss_TransactionId := 9; ss_ReservedId := 0;
            ss_TabletAlias := Some aliasB |}]
    ∧ allErrors st' = [errAborted].
Proof.
  destruct (X4_failed_begin_is_recorded (env := envHalf)
              (ofExecute [select1] false) "Execute" shardHalf 0%nat (startHalf inTx)
              gatewayHalf select1
              eq_refl eq_refl eq_refl eq_refl)
    as (st' & Hrun & Hau & _ & Herrs); [vm_compute; discriminate |].
  exists st'. split; [exact Hrun |]. split; [exact Hau | exact Herrs].
Defined.

(** A plain scatter over two shards: one Execute each, on the gateway. *)
Lemma X5_witness :
  ∃ st' errs,
    multiGoTransaction (env := env) "Execute" [shardX; shardY] false
      (closureOf (ofExecute [select1; abort] true) false) (start plain)
    = Ret st' errs
    ∧ tabletEvents (trace st')
      = [(false, gateway, targetX, select1, CallExecute 0 0);
         (false, gateway, targetY, abort, CallExecute 0 0)].
Proof.
  destruct (X5_plain_scatter (env := env) (ofExecute [select1; abort] true)
              "Execute" false [shardX; shardY] (start plain))
    as (st' & errs & Hrun & Ht & _); [simpl; lia | by split |].
  exists st', errs. split; [exact Hrun | exact Ht].
Defined.

(** One shard and no bind variables: the call panics. *)
Lemma X6_witness :
  StreamExecuteMulti (env := env) "select 1" [shardX] [] false count (start plain)
  = Panic.
Proof.
  apply (proj2 (X6_StreamExecuteMulti_bind_variables (env := env) "select 1"
                  [shardX] [] false count (start plain))).
  - simpl. lia.
  - by split.
Defined.

(** Three barren passes, the last one 31 seconds after the first
    failure: the stream is given up. *)
Lemma X9_witness :
  (messageStreamLoop (env := env) defaultGracePeriod count shardX
     [demoted; demoted; demotedLate; demoted] streamStart).2
  = Some (Some (errGracePeriod (env := env) shardX defaultGracePeriod)).
Proof.
  refine (f_equal snd
            (proj1 (proj2 (X9_messageStream_gives_up (env := env)
                             defaultGracePeriod count shardX demoted [demoted]
                             demotedLate [demoted] streamStart _ _ _ _)))).
  - reflexivity.
  - simpl. constructor; [| constructor; [| constructor; [| constructor]]];
      (split; [reflexivity |]); (split; [| split; reflexivity]);
      right; right; eexists; split; reflexivity.
  - constructor; [| constructor; [| constructor]]; vm_compute; reflexivity.
  - vm_compute. discriminate.
Defined.

(** A stream breaks with ABORTED after it delivered a row: the error
    returned is the stream's own. *)
Lemma X10_witness :
  firstFailure (env := env) shardX 100
    (deliverAll (env := env) count shardX [oneRow] streamStart) = 100
  ∧ at_err brokenAfterRow = Some errAborted
  ∧ ¬ transientEnd (at_err brokenAfterRow).
Proof.
  apply (X10_delivery_restarts_grace_period (env := env) defaultGracePeriod
           count shardX brokenAfterRow streamStart errAborted).
  - discriminate.
  - vm_compute. reflexivity.
  - reflexivity.
Defined.

(** A lock on shard 80- while the lock session is on shard -80: the
    lock is released and NOT_FOUND comes back. *)
Lemma X11_witness :
  ∃ st' e,
    ExecuteLock (env := env) (lk := lk) true shardY select1 (start lockedOnA)
    = Ret st' (None, Some e)
    ∧ LockSession (session st') = None
    ∧ vterrors_Code e = Code_NOT_FOUND.
Proof.
  destruct (X11_ExecuteLock_target_mismatch (env := env) (lk := lk) shardY select1
              (start lockedOnA) _ eq_refl) as [Hrun Hcode]; [discriminate |].
  eexists _, _. split; [exact Hrun |]. split; [reflexivity | exact Hcode].
Defined.

(** The first lock call reserves connection 77 and makes it the lock
    session. *)
Lemma X12_witness :
  ∃ st',
    ExecuteLock (env := env) (lk := lk) true shardX select1 (start plain)
    = Ret st' (Some oneRow, None)
    ∧ LockSession (session st')
      = Some {| ss_Target := targetX; ss_TransactionId := 0; ss_ReservedId := 77;
                ss_TabletAlias := Some aliasB |}.
Proof.
  destruct (X12_ExecuteLock_reserve (env := env) (lk := lk) shardX select1
              (start plain) eq_refl) as (st' & Hrun & _ & Hset & _).
  exists st'. split; [exact Hrun |]. apply Hset. discriminate.
Defined.

(** The reserved connection of the lock session is gone: the lock
    session is cleared and the error comes back wrapped. *)
Lemma X14_witness :
  ∃ st',
    ExecuteLock (env := env) (lk := lk) true shardX select1 (start lockedOnA)
    = Ret st' (None, Some (vterrors_Wrap errServerGone "held locks released"))
    ∧ LockSession (session st') = None.
Proof.
  destruct (X14_ExecuteLock_on_lock_session (env := env) (lk := lk) shardX select1
              (start lockedOnA) _ onA eq_refl eq_refl)
    as (st' & Hrun & _ & Hls & _); [discriminate | reflexivity |].
  exists st'. split; [exact Hrun | exact Hls].
Defined.
